(** * wappsto-python: connection and reliable-delivery subsystem

    A shallow embedding of the parts of [wappsto/connection/communication.py],
    [wappsto/connection/message_log.py] and
    [wappsto/connection/network_classes/value.py] that the specification's
    testable properties speak about, followed by the theorems that settle
    them.

    Layout: Part I holds the definitions (one module per Python module),
    Part II the theorems. *)

From Stdlib Require Import Ascii.
From stdpp Require Import gmap strings list numbers pretty.

Set Warnings "-register-all".

(* ===================================================================== *)
(** * Part I. Definitions                                                 *)
(* ===================================================================== *)

(** ** Python values, exceptions and JSON documents *)
Module py.

(** The exception classes that the modelled code can raise. *)
Inductive exn : Type :=
| AttributeError
| TypeError
| OSError
| IndexError
| RecursionError
| FileNotFoundError
| BadZipFile
| UnicodeDecodeError.

(** [FileNotFoundError] is a subclass of [OSError]: an [except OSError]
    clause catches both. *)
Definition is_OSError (e : exn) : bool :=
  match e with OSError | FileNotFoundError => true | _ => false end.

(** Result of running a method on a mutable object: either it returns and
    leaves the object in state [a], or exception [e] propagates and the
    object is left in state [a] (Python does not roll mutations back). *)
Inductive outcome (A : Type) : Type :=
| Done (a : A)
| Raise (e : exn) (a : A).
Arguments Done {A} a.
Arguments Raise {A} e a.

Definition state_of {A : Type} (o : outcome A) : A :=
  match o with Done a => a | Raise _ a => a end.

Definition raised {A : Type} (o : outcome A) : option exn :=
  match o with Done _ => None | Raise e _ => Some e end.

(** A decoded JSON document, as [json.loads] builds it and [json.dumps]
    prints it.  A dict is kept as its insertion-ordered list of items; the
    keys of a well-formed dict are pairwise distinct.  Numbers are the
    integers (the envelopes carry no floats). *)
Inductive json : Type :=
| JNull
| JBool (b : bool)
| JNum (n : Z)
| JStr (s : string)
| JList (items : list json)
| JDict (fields : list (string * json)).

(** [fields[key]] when present. *)
Fixpoint assoc (key : string) (fields : list (string * json)) : option json :=
  match fields with
  | [] => None
  | (k, v) :: rest => if String.eqb k key then Some v else assoc key rest
  end.

(** [o.get(key, default)]: only a dict has the method; on anything else the
    attribute lookup raises [AttributeError]. *)
Definition get (o : json) (key : string) (default_value : json) : exn + json :=
  match o with
  | JDict fields => inr (default default_value (assoc key fields))
  | _ => inl AttributeError
  end.

(** [len(o) == 0] for the two containers. *)
Definition len0 (o : json) : bool :=
  match o with
  | JDict [] | JList [] => true
  | _ => false
  end.

(** [y == {}]: among JSON values only the empty dict equals the empty dict. *)
Definition eq_empty_dict (y : json) : bool :=
  match y with JDict [] => true | _ => false end.

(** Truth value of a JSON value in an [if]. *)
Definition truthy (o : json) : bool :=
  match o with
  | JNull => false
  | JBool b => b
  | JNum n => negb (n =? 0)%Z
  | JStr s => negb (String.eqb s "")
  | JList l => match l with [] => false | _ => true end
  | JDict f => match f with [] => false | _ => true end
  end.

(** [l.remove(x)] where [x == {}]: delete the first item equal to [x]. *)
Fixpoint remove_first (p : json -> bool) (l : list json) : list json :=
  match l with
  | [] => []
  | y :: rest => if p y then rest else y :: remove_first p rest
  end.

(** *** [json.dumps] *)

Definition quote_char : ascii := ascii_of_nat 34.
Definition backslash_char : ascii := ascii_of_nat 92.

Definition hex_digit (n : nat) : ascii :=
  ascii_of_nat (if n <? 10 then 48 + n else 87 + n).

(** One character of a string literal as [json.dumps] prints it with the
    default [ensure_ascii=True]: the two-character escapes of the encoder's
    table, [\u00xx] for every other character outside [' '..'~'], and the
    character itself otherwise. *)
Definition escape_char (c : ascii) : string :=
  let n := nat_of_ascii c in
  if n =? 34 then String backslash_char (String quote_char "")
  else if n =? 92 then String backslash_char (String backslash_char "")
  else if n =? 10 then String backslash_char "n"
  else if n =? 13 then String backslash_char "r"
  else if n =? 9 then String backslash_char "t"
  else if n =? 8 then String backslash_char "b"
  else if n =? 12 then String backslash_char "f"
  else if (n <? 32) || (126 <? n)
       then String backslash_char
              (String "u" (String "0" (String "0"
                 (String (hex_digit (n / 16)) (String (hex_digit (n mod 16)) "")))))
  else String c "".

Fixpoint escape (s : string) : string :=
  match s with
  | EmptyString => ""
  | String c rest => escape_char c +:+ escape rest
  end.

Definition quoted (s : string) : string :=
  String quote_char (escape s) +:+ String quote_char "".

(** [", ".join(parts)] *)
Fixpoint join (parts : list string) : string :=
  match parts with
  | [] => ""
  | [p] => p
  | p :: rest => p +:+ ", " +:+ join rest
  end.

(** [json.dumps(o)] with the default separators. *)
Fixpoint dumps (o : json) : string :=
  match o with
  | JNull => "null"
  | JBool true => "true"
  | JBool false => "false"
  | JNum n => pretty n
  | JStr s => quoted s
  | JList items => "[" +:+ join (map dumps items) +:+ "]"
  | JDict fields =>
      "{" +:+ join (map (fun kv => quoted (fst kv) +:+ ": " +:+ dumps (snd kv)) fields)
          +:+ "}"
  end.

End py.

(** ** [wappsto/connection/message_log.py]: the offline log

    The log directory [log_location] is modelled as the flat list of its
    files, a file path as the file's name (the directory's own path holds
    neither [".txt"] nor [".zip"], so [str.replace] on the path only touches
    the name), and the directory itself is there.  Calls of the logger are
    left out. *)
Module message_log.
Import py.

Definition REMOVE_OLD : Z := 1.
Definition REMOVE_RECENT : Z := 2.

(** *** Strings: [sys.getsizeof], [re.search], [str.replace] *)

Definition newline_char : ascii := ascii_of_nat 10.

(** [sys.getsizeof(s)] of an ASCII [str] on 64-bit CPython 3: the object
    header and the terminating NUL take [str_header] bytes, each character
    one more.  [json.dumps] only produces ASCII. *)
Definition str_header : nat := 49.
Definition getsizeof (s : string) : nat := str_header + String.length s.

Definition is_digit (c : ascii) : bool :=
  let n := nat_of_ascii c in (48 <=? n) && (n <=? 57).

Definition starts_with_digit (s : string) : bool :=
  match s with String c _ => is_digit c | EmptyString => false end.

Definition is_char (c : ascii) (n : nat) : bool := nat_of_ascii c =? n.

(** The tail [((0|)[0-9]|1[0-2])-((|1|2)[0-9]|3[0-1])] of the log-name
    pattern, matched at the start of [s].  Nothing follows the day group, so
    the day matches as soon as one digit is there. *)
Definition match_month_day (s : string) : bool :=
  match s with
  | String m1 (String c2 rest2) =>
      (is_digit m1 && is_char c2 45 && starts_with_digit rest2)
      || match rest2 with
         | String c3 rest3 =>
             ((is_char m1 48 && is_digit c2)
              || (is_char m1 49 && (48 <=? nat_of_ascii c2) && (nat_of_ascii c2 <=? 50)))
             && is_char c3 45 && starts_with_digit rest3
         | EmptyString => false
         end
  | _ => false
  end.

(** [[0-9][0-9][0-9][0-9]-] followed by the month and day groups, matched at
    the start of [s]. *)
Definition match_log_date (s : string) : bool :=
  match s with
  | String y1 (String y2 (String y3 (String y4 (String dash rest)))) =>
      is_digit y1 && is_digit y2 && is_digit y3 && is_digit y4
      && is_char dash 45 && match_month_day rest
  | _ => false
  end.

(** [re.search(<log-name pattern>, file_name)]: a match at any position. *)
Fixpoint search_log_date (file_name : string) : bool :=
  match_log_date file_name
  || match file_name with
     | String _ rest => search_log_date rest
     | EmptyString => false
     end.

(** [re.search(".ext$", file_name)] for [ext] = "txt" or "zip": some
    character other than a newline, then [ext], then the end of the string
    (or a final newline, which [$] also accepts). *)
Fixpoint search_dot_ext (ext file_name : string) : bool :=
  match file_name with
  | EmptyString => false
  | String c rest =>
      (negb (is_char c 10)
       && (String.eqb rest ext || String.eqb rest (ext +:+ String newline_char "")))
      || search_dot_ext ext rest
  end.

(** [s.replace(old, new)] for a non-empty [old]: every occurrence, left to
    right, without overlap.  [skip] counts the characters of a match that
    are still to be dropped. *)
Fixpoint replace_from (old new : string) (skip : nat) (s : string) : string :=
  match s with
  | EmptyString => ""
  | String c rest =>
      match skip with
      | S k => replace_from old new k rest
      | O =>
          if String.prefix old s
          then new +:+ replace_from old new (String.length old - 1) rest
          else String c (replace_from old new 0 rest)
      end
  end.

Definition replace (old new s : string) : string := replace_from old new 0 s.

(** *** The log directory *)

(** A file of the log directory: a text file is its lines (each stored
    without the newline that ends it), an archive is its size on disk and
    its members. *)
Inductive content : Type :=
| Text (lines : list string)
| Zip (size : nat) (members : list (string * list string)).

Record file : Type := { file_name : string; file_content : content }.

(** What the log sees of the operating system: the files of [log_location]
    in [os.listdir] order, the calendar date, the size the zip compressor
    gives a member, and the interpreter's remaining recursion depth. *)
Record os : Type := {
  listdir : list file;
  year : nat; month : nat; day : nat;
  zip_size : string -> list string -> nat;
  recursion_limit : nat
}.

Definition with_files (w : os) (files : list file) : os :=
  {| listdir := files; year := year w; month := month w; day := day w;
     zip_size := zip_size w; recursion_limit := recursion_limit w |}.

(** [os.path.getsize] *)
Definition getsize (c : content) : nat :=
  match c with
  | Text lines => sum_list (map (fun l => String.length l + 1) lines)
  | Zip size _ => size
  end.

Fixpoint lookup_file (name : string) (files : list file) : option content :=
  match files with
  | [] => None
  | f :: rest =>
      if String.eqb (file_name f) name then Some (file_content f)
      else lookup_file name rest
  end.

(** [os.path.isfile] *)
Definition isfile (name : string) (files : list file) : bool :=
  match lookup_file name files with Some _ => true | None => false end.

(** [os.remove] of a file that is there. *)
Fixpoint remove_file (name : string) (files : list file) : list file :=
  match files with
  | [] => []
  | f :: rest =>
      if String.eqb (file_name f) name then rest else f :: remove_file name rest
  end.

(** Create the file or overwrite its content. *)
Fixpoint write_file (name : string) (c : content) (files : list file) : list file :=
  match files with
  | [] => [{| file_name := name; file_content := c |}]
  | f :: rest =>
      if String.eqb (file_name f) name
      then {| file_name := name; file_content := c |} :: rest
      else f :: write_file name c rest
  end.

(** [open(path, "a").write(line + "\n")] *)
Definition append_line (name line : string) (files : list file) : list file :=
  match lookup_file name files with
  | Some (Text lines) => write_file name (Text (lines ++ [line])) files
  | Some (Zip size members) =>
      write_file name (Zip (size + String.length line + 1) members) files
  | None => write_file name (Text [line]) files
  end.

(** [list.sort()] on file names: insertion into a sorted list, by code
    point. *)
Fixpoint insert_sorted (x : string) (l : list string) : list string :=
  match l with
  | [] => [x]
  | y :: rest => if String.leb x y then x :: l else y :: insert_sorted x rest
  end.

Definition sort (l : list string) : list string := foldr insert_sorted [] l.

(** [lines[k:]] *)
Definition slice_from (k : Z) (lines : list string) : list string :=
  if (k <? 0)%Z
  then drop (Z.to_nat (Z.max 0 (Z.of_nat (length lines) + k))) lines
  else drop (Z.to_nat k) lines.

(** *** The [MessageLog] class *)

Record MessageLog : Type := {
  log_offline : bool;
  log_data_limit : Z;
  limit_action : Z;
  lines_to_remove : Z
}.

Definition get_log_name (w : os) : string :=
  pretty (year w) +:+ "-" +:+ pretty (month w) +:+ "-" +:+ pretty (day w) +:+ ".txt".

Definition get_logs (files : list file) : list string :=
  filter (fun n => Is_true (search_log_date n)) (map file_name files).

Definition compact_logs (w : os) (files : list file) : list file :=
  let text_logs :=
    filter (fun n => Is_true (search_dot_ext "txt" n)) (get_logs files) in
  foldl (fun fs name =>
           match lookup_file name fs with
           | Some (Text lines) =>
               remove_file name
                 (write_file (replace ".txt" ".zip" name)
                    (Zip (zip_size w name lines) [(name, lines)]) fs)
           | _ => fs
           end) files text_logs.

(** [get_text_log]: an archive is extracted into the directory and deleted;
    the name returned is the archive's with [".zip"] replaced by [".txt"]. *)
Definition get_text_log (name : string) (files : list file)
  : outcome (list file * string) :=
  if search_dot_ext "zip" name then
    match lookup_file name files with
    | None => Raise FileNotFoundError (files, name)
    | Some (Text _) => Raise BadZipFile (files, name)
    | Some (Zip _ members) =>
        let extracted :=
          foldl (fun fs m => write_file (fst m) (Text (snd m)) fs) files members in
        Done (remove_file name extracted, replace ".zip" ".txt" name)
    end
  else Done (files, name).

(** [get_oldest_log]: sort the log names, take index 0, make it a text
    file.  [all_logs[0]] raises [IndexError] on an empty list. *)
Definition get_oldest_log (files : list file) : outcome (list file * string) :=
  match sort (get_logs files) with
  | [] => Raise IndexError (files, "")
  | first :: _ => get_text_log first files
  end.

Definition remove_first_lines (self : MessageLog) (name : string) (files : list file)
  : outcome (list file) :=
  match lookup_file name files with
  | None => Raise FileNotFoundError files
  | Some (Zip _ _) => Raise UnicodeDecodeError files
  | Some (Text lines) =>
      if (lines_to_remove self <? Z.of_nat (length lines))%Z
      then Done (write_file name (Text (slice_from (lines_to_remove self) lines)) files)
      else Done (remove_file name files)
  end.

(** [get_size]: the bytes of every file of the directory plus
    [sys.getsizeof] of the serialized message. *)
Definition get_size (files : list file) (data : string) : nat :=
  sum_list (map (fun f => getsize (file_content f)) files) + getsizeof data.

(** The [except FileNotFoundError] clause of [add_message]: the error is
    logged and the call returns. *)
Definition except_FileNotFoundError {A : Type} (o : outcome A) : outcome A :=
  match o with
  | Raise FileNotFoundError a => Done a
  | _ => o
  end.

(** [add_message], by recursion on the depth the interpreter still allows
    (Python raises [RecursionError] when it is used up). *)
Fixpoint add_message_at (depth : nat) (self : MessageLog) (w : os)
    (data : json) (files : list file) : outcome (list file) :=
  match depth with
  | O => Raise RecursionError files
  | S depth' =>
      if log_offline self then
        except_FileNotFoundError
          (let string_data := dumps data in
           if (Z.of_nat (get_size files string_data) <=? log_data_limit self)%Z then
             let name := get_log_name w in
             let files1 := if isfile name files then files else compact_logs w files in
             Done (append_line name (string_data +:+ " ") files1)
           else if (limit_action self =? REMOVE_OLD)%Z then
             match get_oldest_log files with
             | Raise e (files1, _) => Raise e files1
             | Done (files1, name) =>
                 match remove_first_lines self name files1 with
                 | Raise e files2 => Raise e files2
                 | Done files2 => add_message_at depth' self w data files2
                 end
             end
           else Done files)
      else Done files
  end.

Definition add_message (self : MessageLog) (data : json) (w : os) : outcome os :=
  match add_message_at (recursion_limit w) self w data (listdir w) with
  | Done files => Done (with_files w files)
  | Raise e files => Raise e (with_files w files)
  end.

(** The footprint the byte limit is about: the bytes of the directory. *)
Definition footprint (files : list file) : nat :=
  sum_list (map (fun f => getsize (file_content f)) files).

End message_log.

(** ** [wappsto/connection/network_classes/value.py]: the value and its
    report scheduler *)
Module value.
Import py.

(** The report or control state of a value.  The State class is not part of
    these sources; the record holds the attributes the value reads and
    writes.  [data] is [None] or a number. *)
Record State : Type := {
  state_uuid : string;
  state_type : string;
  data : option Z;
  timestamp : Z
}.

(** The attributes [Value.__init__] binds that the scheduler and the
    connection read.  Times are seconds, as [__date_converter] returns
    them. *)
Record Value : Type := {
  uuid : string;
  name : string;
  data_type : string;
  period : option Z;
  delta : option Z;
  report_state : option State;
  control_state : option State;
  last_update_of_report : Z;
  difference : Z;
  delta_report : Z
}.

(** Every name [Value.__init__] binds on the instance. *)
Definition init_attributes : list string :=
  ["wapp_log"; "parent"; "uuid"; "name"; "type_of_value"; "data_type";
   "permission"; "number_max"; "number_min"; "number_step"; "number_unit";
   "string_encoding"; "string_max"; "blob_encoding"; "blob_max"; "period";
   "delta"; "report_state"; "control_state"; "callback";
   "last_update_of_report"; "reporting_thread"; "last_update_of_control";
   "difference"; "delta_report"].

(** Every name the class body binds (its methods). *)
Definition class_attributes : list string :=
  ["__init__"; "__getattr__"; "set_period"; "set_delta";
   "_Value__callback_not_set"; "get_parent_device"; "add_report_state";
   "add_control_state"; "get_report_state"; "get_control_state";
   "_Value__send_report_delta"; "get_now"; "_Value__send_report_thread";
   "set_callback"; "_Value__date_converter"; "_Value__validate_value_data";
   "ensure_number_value_follows_steps"; "update"; "get_data";
   "handle_refresh"; "handle_delete"; "delete"; "_Value__call_callback";
   "handle_control"; "_Value__is_number_type"; "_Value__is_string_type";
   "_Value__is_blob_type"].

Definition get_report_state (self : Value) : option State := report_state self.
Definition get_control_state (self : Value) : option State := control_state self.

Definition get_data (self : Value) : option Z :=
  match get_report_state self with
  | None => None
  | Some state => data state
  end.

(** What an attribute access on a value can evaluate to through
    [__getattr__]: [None] or the report state's datum. *)
Inductive attribute : Type :=
| AttrNone
| AttrData (d : Z).

(** [Value.__getattr__], which Python calls for a name that neither the
    instance nor the class binds: the deprecated [last_controlled] is
    answered with [get_data()], and for every other name the method falls
    off its end and returns [None]. *)
Definition __getattr__ (self : Value) (attr : string) : attribute :=
  if bool_decide (attr ∈ ["last_controlled"]) then
    match get_data self with
    | Some d => AttrData d
    | None => AttrNone
    end
  else AttrNone.

(** [obj.is_alive()] and [obj.cancel()] on what such an access evaluated
    to: neither [None] nor a number has the method. *)
Definition call_method (obj : attribute) (method : string) : exn + unit :=
  match obj with
  | AttrNone | AttrData _ => inl AttributeError
  end.

Definition __is_number_type (self : Value) : bool :=
  String.eqb (data_type self) "number".

(** *** The report thread *)

Inductive report_kind : Type := DELTA | PERIOD.

(** One call of [conn.send_state(state)] by the scheduler. *)
Record report : Type := { kind : report_kind; sent_at : Z }.

(** The thread's view: the value object, the local variable [value], the
    report state's [timestamp], and the reports handed to the connection so
    far (oldest first). *)
Record thread : Type := {
  self : Value;
  local_value : option Z;
  state_timestamp : Z;
  sent : list report
}.

Definition set_difference (v : Value) (d : Z) : Value :=
  {| uuid := uuid v; name := name v; data_type := data_type v;
     period := period v; delta := delta v; report_state := report_state v;
     control_state := control_state v;
     last_update_of_report := last_update_of_report v;
     difference := d; delta_report := 1 |}.

Definition set_reported (v : Value) (now : Z) (flag : Z) : Value :=
  {| uuid := uuid v; name := name v; data_type := data_type v;
     period := period v; delta := delta v; report_state := report_state v;
     control_state := control_state v;
     last_update_of_report := now;
     difference := difference v; delta_report := flag |}.

(** The first block of the loop body: compare the sample read from
    [state.data] with the local [value]; on a change store
    [fabs(int(value) - int(value_check))], move [value] to the sample and set
    the flag.  [int(None)] raises [TypeError]. *)
Definition observe (sample : option Z) (t : thread) : outcome thread :=
  match sample with
  | Some value_check =>
      if __is_number_type (self t) then
        match local_value t with
        | Some value =>
            if bool_decide (value ≠ value_check) then
              Done {| self := set_difference (self t) (Z.abs (value - value_check));
                      local_value := Some value_check;
                      state_timestamp := state_timestamp t;
                      sent := sent t |}
            else Done t
        | None => Raise TypeError t
        end
      else Done t
  | None => Done t
  end.

(** [__send_report_delta]: with [difference >= delta] and the flag at 1,
    stamp the state, send, and clear the flag. *)
Definition __send_report_delta (now : Z) (t : thread) : thread :=
  match delta (self t) with
  | Some d =>
      if (d <=? difference (self t))%Z && (delta_report (self t) =? 1)%Z then
        {| self := set_reported (self t) now 0;
           local_value := local_value t;
           state_timestamp := now;
           sent := sent t ++ [{| kind := DELTA; sent_at := now |}] |}
      else t
  | None => t
  end.

(** The period block: send when [last_update_of_report + period <= now]. *)
Definition send_report_period (now : Z) (t : thread) : thread :=
  match period (self t) with
  | Some p =>
      if (last_update_of_report (self t) + p <=? now)%Z then
        {| self := set_reported (self t) now (delta_report (self t));
           local_value := local_value t;
           state_timestamp := now;
           sent := sent t ++ [{| kind := PERIOD; sent_at := now |}] |}
      else t
  | None => t
  end.

(** One turn of the [while True] loop of [__send_report_thread], run at time
    [now] while [state.data] holds [sample]. *)
Definition loop_body (now : Z) (sample : option Z) (t : thread) : outcome thread :=
  match observe sample t with
  | Raise e t' => Raise e t'
  | Done t1 => Done (send_report_period now (__send_report_delta now t1))
  end.

(** The thread from its start: nothing runs without a report state;
    otherwise [value = state.data] and the loop takes one sample per turn
    until an exception ends the thread. *)
Fixpoint loop (turns : list (Z * option Z)) (t : thread) : outcome thread :=
  match turns with
  | [] => Done t
  | (now, sample) :: rest =>
      match loop_body now sample t with
      | Raise e t' => Raise e t'
      | Done t' => loop rest t'
      end
  end.

Definition __send_report_thread (v : Value) (turns : list (Z * option Z))
  : outcome thread :=
  match get_report_state v with
  | None => Done {| self := v; local_value := None; state_timestamp := 0; sent := [] |}
  | Some state =>
      loop turns {| self := v; local_value := data state;
                    state_timestamp := timestamp state; sent := [] |}
  end.

End value.

(** ** [wappsto/connection/communication.py]: the client socket

    Requests are JSON values.  The batch list and the pending-ack map each
    hold the value of a request; that Python keeps one shared dict object
    behind both is not tracked, and no theorem below depends on it.  Of the
    logger only the error-level records are kept. *)
Module communication.
Import py.

Definition MAX_BULK_SIZE : nat := 10.

(** *** Keys of [packet_awaiting_confirm] *)

(** The hashable JSON values, up to Python's key equality ([True == 1] and
    [False == 0] denote the same key as the numbers). *)
Inductive key : Type :=
| KNone
| KInt (n : Z)
| KStr (s : string).

#[global] Instance key_eq_dec : EqDecision key.
Proof. solve_decision. Defined.

Definition key_to_sum (k : key) : unit + (Z + string) :=
  match k with KNone => inl tt | KInt n => inr (inl n) | KStr s => inr (inr s) end.

Definition key_of_sum (x : unit + (Z + string)) : key :=
  match x with inl _ => KNone | inr (inl n) => KInt n | inr (inr s) => KStr s end.

#[global] Instance key_countable : Countable key.
Proof.
  apply (inj_countable' key_to_sum key_of_sum). by intros [].
Defined.

(** [hash(o)]: lists and dicts are unhashable; using one as a dict key
    raises [TypeError]. *)
Definition hash_key (o : json) : exn + key :=
  match o with
  | JNull => inr KNone
  | JBool b => inr (KInt (if b then 1 else 0))
  | JNum n => inr (KInt n)
  | JStr s => inr (KStr s)
  | JList _ | JDict _ => inl TypeError
  end.

(** *** Collaborators *)

(** Message kinds of [message_data] (the module is not part of these
    sources; only the names are used). *)
Inductive msg_id : Type :=
| SEND_SUCCESS | SEND_REPORT | SEND_FAILED | SEND_RECONNECT
| SEND_CONTROL | SEND_TRACE | SEND_DELETE.

(** A [MessageData] item of the sending queue, with the keyword arguments
    the dispatcher passes. *)
Record MessageData : Type := {
  msg : msg_id;
  rpc_id : json;
  text : option string;
  parent : option string;
  trace_id : json;
  message_data : json;
  control_value_id : option string
}.

(** An error-level record of [wapp_log]: the message and the raw payload
    formatted into it. *)
Record log_record : Type := { log_text : string; log_payload : option json }.

(** The TLS socket: whether the operating system accepts the next [send]
    (otherwise it raises [OSError]) and the frames written so far. *)
Record socket : Type := { writable : bool; wire : list string }.

(** A device and the network, as far as [close] walks them. *)
Record Device : Type := { values : list value.Value }.
Record Network : Type := { network_name : string; devices : list Device }.

(** *** [wappsto/data_operation/data_manager.py]: the data manager

    Of [DataManager] the socket uses the attribute [network] and calls
    [get_by_id].  The class binds no [get_by_id], neither in [__init__] nor
    in its body, so that access is [DataManager.__getattr__]. *)
Module data_manager.

(** Every name [DataManager.__init__] (with [parse_json_file]) binds on the
    instance, and every name the class body binds. *)
Definition init_attributes : list string :=
  ["wapp_log"; "wappsto_encoder"; "wappsto_decoder"; "path_to_calling_file";
   "json_file_name"; "decoded"; "network"].

Definition class_attributes : list string :=
  ["__init__"; "__getattr__"; "get_latest_instance"; "read_file";
   "parse_json_file"; "save_instance"; "get_encoded_network"].

(** What an attribute access that falls to [__getattr__] evaluates to. *)
Inductive attribute : Type :=
| AttrDevices (device_list : list Device)
| AttrNetwork (network_cl : Network)
| AttrNone.

(** [DataManager.__getattr__]: the two deprecated names are answered with
    the network's devices and the network; for every other name the method
    falls off its end and returns [None]. *)
Definition __getattr__ (network : Network) (attr : string) : attribute :=
  if bool_decide (attr ∈ ["device_list"]) then AttrDevices (devices network)
  else if bool_decide (attr ∈ ["network_cl"]) then AttrNetwork network
  else AttrNone.

(** [f(uuid)] on what such an access evaluated to: neither a list, nor a
    [Network] instance, nor [None] is callable. *)
Definition call {A : Type} (f : attribute) (uuid : json) : exn + A :=
  match f with
  | AttrDevices _ | AttrNetwork _ | AttrNone => inl TypeError
  end.

(** [self.data_manager.get_by_id(uuid)] *)
Definition get_by_id {A : Type} (network : Network) (uuid : json) : exn + A :=
  call (__getattr__ network "get_by_id") uuid.

End data_manager.

(** *** Stripping [None] values *)

(** [for x in l: strip(x); if len(x) == 0: l.remove(x)], the loop that both
    [get_object_without_none_values] (on a list value) and [send_data] (on
    the batch) run while they delete from the very list they iterate.
    [front] is the part of the list before the iterator's index, [todo] the
    part from the index on.  Python's list iterator only keeps the index:
    when [remove] deletes an item at or before it, the items behind shift
    left by one and the next index steps over the item that followed, which
    therefore joins [front] unvisited.  [strip] mutates its argument in
    place, also when it raises. *)
Definition strip_loop (strip : json -> outcome json)
  : list json -> list json -> outcome (list json) :=
  fix loop (front todo : list json) {struct todo} : outcome (list json) :=
    match todo with
    | [] => Done front
    | x :: rest =>
        match strip x with
        | Raise e x' => Raise e (front ++ x' :: rest)
        | Done x' =>
            if len0 x' then
              let front' := remove_first eq_empty_dict (front ++ [x']) in
              match rest with
              | [] => Done front'
              | skipped :: rest' => loop (front' ++ [skipped]) rest'
              end
            else loop (front ++ [x']) rest
        end
    end.

Definition cons_item (kv : string * json) (o : outcome (list (string * json)))
  : outcome (list (string * json)) :=
  match o with
  | Done l => Done (kv :: l)
  | Raise e l => Raise e (kv :: l)
  end.

(** [get_object_without_none_values]: the items are visited in the order of
    the snapshot [list(encoded_object.items())]; deleting a key leaves the
    other items as they are.  Calling it on anything but a dict raises
    [AttributeError] (no [items]). *)
Fixpoint get_object_without_none_values (encoded_object : json) : outcome json :=
  match encoded_object with
  | JDict fields =>
      let fix items (todo : list (string * json)) : outcome (list (string * json)) :=
        match todo with
        | [] => Done []
        | (key, val) :: rest =>
            match val with
            | JNull => items rest
            | JDict _ =>
                match get_object_without_none_values val with
                | Raise e val' => Raise e ((key, val') :: rest)
                | Done val' =>
                    if len0 val' then items rest
                    else cons_item (key, val') (items rest)
                end
            | JList elements =>
                match strip_loop get_object_without_none_values [] elements with
                | Raise e elements' => Raise e ((key, JList elements') :: rest)
                | Done elements' =>
                    if len0 (JList elements') then items rest
                    else cons_item (key, JList elements') (items rest)
                end
            | _ => cons_item (key, val) (items rest)
            end
        end in
      match items fields with
      | Done fields' => Done (JDict fields')
      | Raise e fields' => Raise e (JDict fields')
      end
  | _ => Raise AttributeError encoded_object
  end.

Section ClientSocket.

(** [self.event_storage]: any object with an [add_message] method; [E] is
    its state. *)
Context {E : Type}.
Variable add_message : json -> E -> outcome E.

(** The attributes of the socket object that the modelled methods read or
    write; [network] is [self.data_manager.network], [my_socket] and
    [my_raw_socket] are [None] once closed. *)
Record ClientSocket : Type := {
  network : Network;
  connected : bool;
  sending_queue : list MessageData;
  packet_awaiting_confirm : gmap key json;
  bulk_send_list : list json;
  my_socket : option socket;
  my_raw_socket : option unit;
  event_storage : E;
  wapp_log : list log_record
}.

Definition set_connected (b : bool) (s : ClientSocket) : ClientSocket :=
  {| network := network s; connected := b; sending_queue := sending_queue s;
     packet_awaiting_confirm := packet_awaiting_confirm s;
     bulk_send_list := bulk_send_list s; my_socket := my_socket s;
     my_raw_socket := my_raw_socket s; event_storage := event_storage s;
     wapp_log := wapp_log s |}.

Definition set_sending_queue (q : list MessageData) (s : ClientSocket) : ClientSocket :=
  {| network := network s; connected := connected s; sending_queue := q;
     packet_awaiting_confirm := packet_awaiting_confirm s;
     bulk_send_list := bulk_send_list s; my_socket := my_socket s;
     my_raw_socket := my_raw_socket s; event_storage := event_storage s;
     wapp_log := wapp_log s |}.

Definition set_packet_awaiting_confirm (m : gmap key json) (s : ClientSocket)
  : ClientSocket :=
  {| network := network s; connected := connected s;
     sending_queue := sending_queue s; packet_awaiting_confirm := m;
     bulk_send_list := bulk_send_list s; my_socket := my_socket s;
     my_raw_socket := my_raw_socket s; event_storage := event_storage s;
     wapp_log := wapp_log s |}.

Definition set_bulk_send_list (l : list json) (s : ClientSocket) : ClientSocket :=
  {| network := network s; connected := connected s;
     sending_queue := sending_queue s;
     packet_awaiting_confirm := packet_awaiting_confirm s;
     bulk_send_list := l; my_socket := my_socket s;
     my_raw_socket := my_raw_socket s; event_storage := event_storage s;
     wapp_log := wapp_log s |}.

Definition set_my_socket (k : option socket) (s : ClientSocket) : ClientSocket :=
  {| network := network s; connected := connected s;
     sending_queue := sending_queue s;
     packet_awaiting_confirm := packet_awaiting_confirm s;
     bulk_send_list := bulk_send_list s; my_socket := k;
     my_raw_socket := my_raw_socket s; event_storage := event_storage s;
     wapp_log := wapp_log s |}.

Definition set_my_raw_socket (k : option unit) (s : ClientSocket) : ClientSocket :=
  {| network := network s; connected := connected s;
     sending_queue := sending_queue s;
     packet_awaiting_confirm := packet_awaiting_confirm s;
     bulk_send_list := bulk_send_list s; my_socket := my_socket s;
     my_raw_socket := k; event_storage := event_storage s;
     wapp_log := wapp_log s |}.

Definition set_event_storage (e : E) (s : ClientSocket) : ClientSocket :=
  {| network := network s; connected := connected s;
     sending_queue := sending_queue s;
     packet_awaiting_confirm := packet_awaiting_confirm s;
     bulk_send_list := bulk_send_list s; my_socket := my_socket s;
     my_raw_socket := my_raw_socket s; event_storage := e;
     wapp_log := wapp_log s |}.

Definition log_error (r : log_record) (s : ClientSocket) : ClientSocket :=
  {| network := network s; connected := connected s;
     sending_queue := sending_queue s;
     packet_awaiting_confirm := packet_awaiting_confirm s;
     bulk_send_list := bulk_send_list s; my_socket := my_socket s;
     my_raw_socket := my_raw_socket s; event_storage := event_storage s;
     wapp_log := wapp_log s ++ [r] |}.

(** *** Pending acknowledgements *)

(** The key [data.get('id')] denotes in a dict. *)
Definition id_key (data : json) : exn + key :=
  match get data "id" JNull with
  | inl e => inl e
  | inr id => hash_key id
  end.

(** [add_id_to_confirm_list]: [packet_awaiting_confirm[data.get('id')] = data] *)
Definition add_id_to_confirm_list (data : json) (s : ClientSocket)
  : outcome ClientSocket :=
  match get data "id" JNull with
  | inl e => Raise e s
  | inr id =>
      match hash_key id with
      | inl e => Raise e s
      | inr k =>
          Done (set_packet_awaiting_confirm (<[k := data]> (packet_awaiting_confirm s)) s)
      end
  end.

(** [remove_id_from_confirm_list]: [if _id in d: del d[_id]] *)
Definition remove_id_from_confirm_list (_id : json) (s : ClientSocket)
  : outcome ClientSocket :=
  match hash_key _id with
  | inl e => Raise e s
  | inr k =>
      match packet_awaiting_confirm s !! k with
      | Some _ =>
          Done (set_packet_awaiting_confirm (delete k (packet_awaiting_confirm s)) s)
      | None => Done s
      end
  end.

(** *** The outbound batcher *)

(** [data_element.get("method", "") in ["PUT", "POST", "DELETE"]] *)
Definition is_mutating (data_element : json) : exn + bool :=
  match get data_element "method" (JStr "") with
  | inl e => inl e
  | inr (JStr m) =>
      inr (bool_decide (m ∈ ["PUT"; "POST"; "DELETE"]))
  | inr _ => inr false
  end.

(** The loop of [send_data] that registers the mutating requests. *)
Fixpoint register (data : list json) (s : ClientSocket) : outcome ClientSocket :=
  match data with
  | [] => Done s
  | data_element :: rest =>
      match is_mutating data_element with
      | inl e => Raise e s
      | inr true =>
          match add_id_to_confirm_list data_element s with
          | Raise e s' => Raise e s'
          | Done s' => register rest s'
          end
      | inr false => register rest s
      end
  end.

(** [my_socket.send(data)] *)
Definition socket_send (frame : string) (s : ClientSocket) : outcome ClientSocket :=
  match my_socket s with
  | None => Raise AttributeError s
  | Some sock =>
      if writable sock
      then Done (set_my_socket
                   (Some {| writable := writable sock; wire := wire sock ++ [frame] |}) s)
      else Raise OSError s
  end.

(** [send_data(self.bulk_send_list)].  The argument is the batch list
    itself, so the deletions of the first loop are deletions from
    [bulk_send_list]; the later [data = json.dumps(data)] only rebinds the
    local name. *)
Definition send_data (s : ClientSocket) : outcome ClientSocket :=
  match strip_loop get_object_without_none_values [] (bulk_send_list s) with
  | Raise e data => Raise e (set_bulk_send_list data s)
  | Done data =>
      let s1 := set_bulk_send_list data s in
      if connected s1 then
        match register data s1 with
        | Raise e s2 => Raise e s2
        | Done s2 =>
            if 0 <? length data
            then socket_send (dumps (JList data)) s2
            else Done s2
        end
      else
        match add_message (JList data) (event_storage s1) with
        | Done log => Done (set_event_storage log s1)
        | Raise e log => Raise e (set_event_storage log s1)
        end
  end.

(** The condition under which [create_bulk] flushes. *)
Definition flush_condition (s : ClientSocket) : bool :=
  ((length (sending_queue s) =? 0) && (size (packet_awaiting_confirm s) =? 0))
  || (MAX_BULK_SIZE <=? length (bulk_send_list s)).

(** [create_bulk]: append ([appended]: [if data is not None]), flush when
    the condition holds, clear after the flush; an [OSError] of the flush is
    caught, the connection is marked lost and the error is logged. *)
Definition appended (data : json) (s : ClientSocket) : ClientSocket :=
  match data with
  | JNull => s
  | _ => set_bulk_send_list (bulk_send_list s ++ [data]) s
  end.

Definition create_bulk (data : json) (s : ClientSocket) : outcome ClientSocket :=
  let s1 := appended data s in
  if flush_condition s1 then
    match send_data s1 with
    | Done s2 => Done (set_bulk_send_list [] s2)
    | Raise e s2 =>
        if is_OSError e
        then Done (log_error {| log_text := "Error sending message";
                                 log_payload := None |}
                     (set_connected false s2))
        else Raise e s2
    end
  else Done s1.

(** A run of the batcher: before each [create_bulk] the other threads have
    left the sending queue as [queue] and the operating system the socket
    [writable] or not. *)
Record enqueue : Type := {
  queue_now : list MessageData;
  writable_now : bool;
  enqueued : json
}.

Definition environment (op : enqueue) (s : ClientSocket) : ClientSocket :=
  set_my_socket
    (match my_socket s with
     | Some sock => Some {| writable := writable_now op; wire := wire sock |}
     | None => None
     end)
    (set_sending_queue (queue_now op) s).

Fixpoint run (ops : list enqueue) (s : ClientSocket) : outcome ClientSocket :=
  match ops with
  | [] => Done s
  | op :: rest =>
      match create_bulk (enqueued op) (environment op s) with
      | Raise e s' => Raise e s'
      | Done s' => run rest s'
      end
  end.

(** Every frame written so far is the serialization of a non-empty list. *)
Definition frames_nonempty (s : ClientSocket) : Prop :=
  forall sock, my_socket s = Some sock ->
    Forall (fun frame => exists batch, 0 < length batch /\ frame = dumps (JList batch))
           (wire sock).

(** *** The inbound dispatcher *)

(** What the handlers do with the object that [get_by_id] returns belongs
    to the data model, which is outside these sources: the objects are of a
    type [Obj] and their handlers are parameters.  A handler of a found
    object gets the object, the trace id and the frame. *)
Context {Obj : Type}.
Variable control_found : Obj -> json -> json -> json -> ClientSocket -> outcome ClientSocket.
Variable report_found : Obj -> json -> json -> ClientSocket -> outcome ClientSocket.
Variable delete_found : Obj -> json -> json -> ClientSocket -> outcome ClientSocket.

(** [o.get(k1).get(k2)...] *)
Fixpoint get_path (o : json) (path : list string) : exn + json :=
  match path with
  | [] => inr o
  | k :: rest =>
      match get o k JNull with
      | inl e => inl e
      | inr o' => get_path o' rest
      end
  end.

(** [<str literal> + o]: concatenation needs a [str]. *)
Definition concat_str (o : json) : exn + unit :=
  match o with JStr _ => inr tt | _ => inl TypeError end.

(** [send_error]: put a [SEND_FAILED] item on the sending queue. *)
Definition send_error (error_str : string) (return_id : json) (s : ClientSocket)
  : ClientSocket :=
  set_sending_queue
    (sending_queue s ++
       [{| msg := SEND_FAILED; rpc_id := return_id; text := Some error_str;
           parent := None; trace_id := JNull; message_data := JNull;
           control_value_id := None |}]) s.

(** The second [try] block of the three handlers: the trace id, [None] when
    the path to it is broken; a trace id that is true but not a [str] makes
    the debug line raise [TypeError]. *)
Definition find_trace (data : json) : exn + json :=
  match get_path data ["params"; "meta"; "trace"] with
  | inl AttributeError => inr JNull
  | inl e => inl e
  | inr trace =>
      if truthy trace then
        match concat_str trace with
        | inl e => inl e
        | inr _ => inr trace
        end
      else inr trace
  end.

(** What [incoming_control], [incoming_report_request] and
    [incoming_delete_request] share: read the target's id (an
    [AttributeError] on the way is logged with the payload and the handler
    returns), build the debug line, read the trace id, look the target up
    with [self.data_manager.get_by_id] (a [None] is answered with
    [send_error]), and hand a found object on. *)
Definition with_target (verb : string) (data : json)
    (found : Obj -> json -> json -> ClientSocket -> outcome ClientSocket)
    (s : ClientSocket) : outcome ClientSocket :=
  match get data "id" JNull with
  | inl e => Raise e s
  | inr return_id =>
      match get_path data ["params"; "data"; "meta"; "id"] with
      | inl AttributeError =>
          Done (log_error
                  {| log_text := "Error received incorrect format in " +:+ verb;
                     log_payload := Some data |} s)
      | inl e => Raise e s
      | inr uuid =>
          match uuid with
          | JStr uuid_str =>
              match find_trace data with
              | inl e => Raise e s
              | inr trace =>
                  match data_manager.get_by_id (network s) uuid with
                  | inl e => Raise e s
                  | inr None => Done (send_error "Non-existing uuid provided" return_id s)
                  | inr (Some obj) => found obj trace data s
                  end
              end
          | _ => Raise TypeError s
          end
      end
  end.

Definition incoming_control (data : json) (s : ClientSocket) : outcome ClientSocket :=
  with_target "put" data
    (fun obj trace data s =>
       match get_path data ["params"; "data"; "meta"; "type"] with
       | inl e => Raise e s
       | inr meta_type => control_found obj meta_type trace data s
       end) s.

Definition incoming_report_request (data : json) (s : ClientSocket)
  : outcome ClientSocket :=
  with_target "get" data report_found s.

Definition incoming_delete_request (data : json) (s : ClientSocket)
  : outcome ClientSocket :=
  with_target "delete" data delete_found s.

(** *** Closing *)

(** The body of the loop of [close] for one value.  [timer] is bound
    neither by [Value.__init__] nor by the class, so [value.timer] is
    [Value.__getattr__(value, "timer")]. *)
Definition stop_timer (v : value.Value) : exn + unit :=
  let timer := value.__getattr__ v "timer" in
  match value.call_method timer "is_alive" with
  | inl e => inl e
  | inr _ => value.call_method timer "cancel"
  end.

Fixpoint stop_timers (vs : list value.Value) : exn + unit :=
  match vs with
  | [] => inr tt
  | v :: rest =>
      match stop_timer v with
      | inl e => inl e
      | inr _ => stop_timers rest
      end
  end.

(** [close]: the timers of every value of every device, then the flag and
    the two socket handles. *)
Definition close (s : ClientSocket) : outcome ClientSocket :=
  match stop_timers (concat (map values (devices (network s)))) with
  | inl e => Raise e s
  | inr _ =>
      Done (set_my_raw_socket None (set_my_socket None (set_connected false s)))
  end.

End ClientSocket.
End communication.

(** ** The stripping of a batch as the specification words it *)
Module spec.
Import py.

(** Null, or a container with nothing in it. *)
Definition is_null_or_empty (o : json) : bool :=
  match o with
  | JNull | JList [] | JDict [] => true
  | _ => false
  end.

(** The specification's stripping, written after its words ("strip
    recursively any key whose value is null/empty-after-stripping"): every
    value is stripped first, and a key is kept only when its stripped value
    is neither null nor empty; the elements of a list are stripped likewise
    and the ones that end up empty are dropped. *)
Fixpoint spec_strip (o : json) : json :=
  match o with
  | JDict fields =>
      JDict (List.filter (fun kv => negb (is_null_or_empty (snd kv)))
               (map (fun kv => match kv with (k, v) => (k, spec_strip v) end) fields))
  | JList items =>
      JList (List.filter (fun x => negb (is_null_or_empty x)) (map spec_strip items))
  | _ => o
  end.

(** "... drop now-empty entries": the list the specification hands to the
    transport or to the offline log. *)
Definition spec_strip_batch (batch : list json) : list json :=
  List.filter (fun x => negb (is_null_or_empty x)) (map spec_strip batch).

End spec.

(** ** Concrete objects for the worked cases of Part II *)
Module examples.
Import py.

(** *** The client socket *)

(** An event storage that keeps the batches it is given. *)
Definition recording_log (batch : json) (log : list json) : outcome (list json) :=
  Done (log ++ [batch]).

Definition no_network : communication.Network :=
  {| communication.network_name := "net"; communication.devices := [] |}.

(** A socket object right after [connect]: nothing queued, nothing pending,
    nothing batched. *)
Definition idle (is_connected can_write : bool) (batch : list json)
    (net : communication.Network) : @communication.ClientSocket (list json) :=
  {| communication.network := net;
     communication.connected := is_connected;
     communication.sending_queue := [];
     communication.packet_awaiting_confirm := ∅;
     communication.bulk_send_list := batch;
     communication.my_socket :=
       Some {| communication.writable := can_write; communication.wire := [] |};
     communication.my_raw_socket := Some tt;
     communication.event_storage := [];
     communication.wapp_log := [] |}.

Definition put_request (id : Z) : json :=
  JDict [("jsonrpc", JStr "2.0"); ("id", JNum id); ("method", JStr "PUT");
         ("params", JDict [("url", JStr "/network/n/device/d/value/v/state/s");
                           ("data", JDict [("data", JStr "1")])])].

Definition success_reply (id : Z) : json :=
  JDict [("jsonrpc", JStr "2.0"); ("id", JNum id); ("result", JBool true)].

(** A connected socket with the requests 1 and 2 awaiting their replies. *)
Definition two_pending : @communication.ClientSocket (list json) :=
  communication.set_packet_awaiting_confirm
    (<[communication.KInt 2 := put_request 2]>
       (<[communication.KInt 1 := put_request 1]> ∅))
    (idle true true [] no_network).

(** What [create_bulk (put_request 1)] leaves of an idle connected socket
    whose write the operating system refuses. *)
Definition after_refused_write : @communication.ClientSocket (list json) :=
  communication.log_error
    {| communication.log_text := "Error sending message";
       communication.log_payload := None |}
    (communication.set_connected false
       (communication.set_packet_awaiting_confirm
          (<[communication.KInt 1 := put_request 1]> ∅)
          (idle true false [put_request 1] no_network))).

(** Two requests in which every value is [None]. *)
Definition all_null_1 : json := JDict [("a", JNull)].
Definition all_null_2 : json := JDict [("b", JNull)].

(** *** Inbound frames *)

(** A PUT without [params]. *)
Definition put_without_params : json :=
  JDict [("jsonrpc", JStr "2.0"); ("id", JNum 7); ("method", JStr "PUT")].

(** A PUT whose [params.data.meta] has no [id]. *)
Definition put_without_meta_id : json :=
  JDict [("jsonrpc", JStr "2.0"); ("id", JNum 7); ("method", JStr "PUT");
         ("params", JDict [("data", JDict [("meta", JDict [("type", JStr "state")])])])].

(** A well-formed PUT. *)
Definition put_unknown_target : json :=
  JDict [("jsonrpc", JStr "2.0"); ("id", JNum 7); ("method", JStr "PUT");
         ("params", JDict [("data", JDict [("meta", JDict [("id", JStr "no-such-uuid");
                                                          ("type", JStr "state")])])])].

(** Handlers of found objects; they are never reached. *)
Definition unreached4 (obj : unit) (a b c : json)
    (s : @communication.ClientSocket (list json)) := Done s.
Definition unreached3 (obj : unit) (a b : json)
    (s : @communication.ClientSocket (list json)) := Done s.

(** *** A value and its network *)

Definition report_state_at (d : Z) : value.State :=
  {| value.state_uuid := "state-1"; value.state_type := "Report";
     value.data := Some d; value.timestamp := 0 |}.

(** A number value with [period=None] and [delta=5] whose report state holds
    10 when the thread starts. *)
Definition temperature : value.Value :=
  {| value.uuid := "value-1"; value.name := "temperature";
     value.data_type := "number"; value.period := None; value.delta := Some 5%Z;
     value.report_state := Some (report_state_at 10); value.control_state := None;
     value.last_update_of_report := 0; value.difference := 0;
     value.delta_report := 0 |}.

(** The loop's turns at seconds 1 to 5, reading 10, 12, 16, 16 and 21. *)
Definition samples : list (Z * option Z) :=
  [(1, Some 10); (2, Some 12); (3, Some 16); (4, Some 16); (5, Some 21)]%Z.

Definition one_value_network : communication.Network :=
  {| communication.network_name := "net";
     communication.devices := [ {| communication.values := [temperature] |} ] |}.

(** *** The log directory *)

Definition evict_oldest_100 : message_log.MessageLog :=
  {| message_log.log_offline := true; message_log.log_data_limit := 100;
     message_log.limit_action := message_log.REMOVE_OLD;
     message_log.lines_to_remove := 2 |}.

Definition constant_zip (member : string) (lines : list string) : nat := 30.

(** 1 October 2020. *)
Definition october_first (files : list message_log.file) : message_log.os :=
  {| message_log.listdir := files; message_log.year := 2020;
     message_log.month := 10; message_log.day := 1;
     message_log.zip_size := constant_zip; message_log.recursion_limit := 900 |}.

(** The log of 30 September, compacted when the log of 1 October was
    opened, and the log of 1 October. *)
Definition small_message (id : Z) : json := JList [JDict [("id", JNum id)]].

(** A batch that [json.dumps] prints in 80 characters, and one that
    [sys.getsizeof] measures at 80 bytes once printed. *)
Definition printed_in_80 : json :=
  JList [JDict [("id", JNum 1); ("method", JStr "PUT");
                ("params", JStr "abcdefghijklmnopqrstuvwxyzabcdefghijkl")]].
Definition measured_at_80 : json :=
  JList [JDict [("id", JNum 1); ("data", JStr "abcdefgh")]].

(** The line [add_message] writes for a batch (without its newline). *)
Definition logged (batch : json) : string := dumps batch +:+ " ".

Definition two_days : list message_log.file :=
  [ {| message_log.file_name := "2020-9-30.zip";
       message_log.file_content :=
         message_log.Zip 30
           [("2020-9-30.txt", [logged (small_message 1); logged (small_message 2)])] |};
    {| message_log.file_name := "2020-10-1.txt";
       message_log.file_content :=
         message_log.Text [logged (small_message 3); logged (small_message 4)] |} ].

(** A log with room: a limit of a million bytes. *)
Definition roomy_log : message_log.MessageLog :=
  {| message_log.log_offline := true; message_log.log_data_limit := 1000000;
     message_log.limit_action := message_log.REMOVE_OLD;
     message_log.lines_to_remove := 2 |}.

(** A socket object that has lost its connection, with [batch] waiting and
    the offline log as its event storage. *)
Definition offline_with_log (batch : list json) (files : list message_log.file)
  : @communication.ClientSocket message_log.os :=
  {| communication.network := no_network;
     communication.connected := false;
     communication.sending_queue := [];
     communication.packet_awaiting_confirm := ∅;
     communication.bulk_send_list := batch;
     communication.my_socket :=
       Some {| communication.writable := false; communication.wire := [] |};
     communication.my_raw_socket := Some tt;
     communication.event_storage := october_first files;
     communication.wapp_log := [] |}.

End examples.

(** ** More of the stripping: auxiliary definitions *)
Module stripping.
Import py spec communication.

Definition is_dict (o : json) : bool :=
  match o with JDict _ => true | _ => false end.

(** A value [get_object_without_none_values] never looks into. *)
Definition is_atom (o : json) : bool :=
  match o with JBool _ | JNum _ | JStr _ => true | _ => false end.

(** The loop over the items of a dict, which
    [get_object_without_none_values] runs as a local function, as a function
    of its own. *)
Fixpoint strip_items (todo : list (string * json)) : outcome (list (string * json)) :=
  match todo with
  | [] => Done []
  | (key, val) :: rest =>
      match val with
      | JNull => strip_items rest
      | JDict _ =>
          match get_object_without_none_values val with
          | Raise e val' => Raise e ((key, val') :: rest)
          | Done val' =>
              if len0 val' then strip_items rest
              else cons_item (key, val') (strip_items rest)
          end
      | JList elements =>
          match strip_loop get_object_without_none_values [] elements with
          | Raise e elements' => Raise e ((key, JList elements') :: rest)
          | Done elements' =>
              if len0 (JList elements') then strip_items rest
              else cons_item (key, JList elements') (strip_items rest)
          end
      | _ => cons_item (key, val) (strip_items rest)
      end
  end.

(** The documents on which deleting while iterating does no harm: every
    list, at any depth, holds only dicts, and none of them is empty once
    stripped. *)
Fixpoint regular (o : json) : bool :=
  match o with
  | JDict fields => forallb (fun kv => match kv with (_, v) => regular v end) fields
  | JList items =>
      forallb (fun x => is_dict x && regular x && negb (is_null_or_empty (spec_strip x)))
              items
  | _ => true
  end.

(** Induction on a JSON document, with the hypothesis for every element of
    a list and every value of a dict. *)
Fixpoint json_induction (P : json -> Prop)
    (HNull : P JNull) (HBool : forall b, P (JBool b)) (HNum : forall n, P (JNum n))
    (HStr : forall s, P (JStr s))
    (HList : forall items, Forall P items -> P (JList items))
    (HDict : forall fields, Forall (fun kv => P (snd kv)) fields -> P (JDict fields))
    (o : json) {struct o} : P o :=
  match o with
  | JNull => HNull
  | JBool b => HBool b
  | JNum n => HNum n
  | JStr s => HStr s
  | JList items =>
      HList items
        ((fix all (l : list json) : Forall P l :=
            match l with
            | [] => @List.Forall_nil _ P
            | x :: rest =>
                @List.Forall_cons _ P x rest
                  (json_induction P HNull HBool HNum HStr HList HDict x) (all rest)
            end) items)
  | JDict fields =>
      HDict fields
        ((fix all (l : list (string * json)) : Forall (fun kv => P (snd kv)) l :=
            match l with
            | [] => @List.Forall_nil _ _
            | kv :: rest =>
                @List.Forall_cons _ (fun kv => P (snd kv)) kv rest
                  (json_induction P HNull HBool HNum HStr HList HDict (snd kv))
                  (all rest)
            end) fields)
  end.

End stripping.

(** ** More of the offline log: what eviction has left to remove *)
Module eviction.
Import message_log.

(** What is left to evict: a text file counts one more than its lines, an
    archive two more than the text files it holds. *)
Definition weight (c : content) : nat :=
  match c with
  | Text lines => S (length lines)
  | Zip _ members => 2 + sum_list (map (fun m => S (length (snd m))) members)
  end.

Definition evictable (files : list file) : nat :=
  sum_list (map (fun f => weight (file_content f)) files).

End eviction.

(** ** More of the offline log: the names of the logs *)
Module log_names.
Import message_log.

(** No character of [s] is a dot. *)
Fixpoint dotless (s : string) : bool :=
  match s with
  | EmptyString => true
  | String c rest => negb (Ascii.eqb c ".") && dotless rest
  end.

(** The name [get_log_name] gives the day's log, without its extension. *)
Definition log_stem (w : os) : string :=
  pretty (year w) +:+ "-" +:+ pretty (month w) +:+ "-" +:+ pretty (day w).

End log_names.

(** ** More of the report thread: the spacing of its reports *)
Module schedule.
Import py value.

(** The reports [rs] are at least [p] apart, the first one at least [p]
    after [last]. *)
Fixpoint spaced (p last : Z) (rs : list report) : bool :=
  match rs with
  | [] => true
  | r :: rest => (last + p <=? sent_at r)%Z && spaced p (sent_at r) rest
  end.

(** The time of the last of the reports [rs], [last] when there is none. *)
Definition last_sent (last : Z) (rs : list report) : Z :=
  foldl (fun _ r => sent_at r) last rs.

(** Whether some turn reads a datum. *)
Definition reads_data (turns : list (Z * option Z)) : bool :=
  existsb (fun turn => match snd turn with Some _ => true | None => false end) turns.

(** The three readings of the clock in one turn of the loop: [get_now()] in
    [__send_report_delta] (line 261), and in the period block to compare
    (line 313) and to stamp (line 318).  [value.loop_body] takes the three
    at one time. *)
Record readings : Type := { at_delta : Z; at_check : Z; at_stamp : Z }.

(** The period block with its two readings: send when
    [last_update_of_report + period <= check], stamped [stamp]. *)
Definition send_report_period_at (check stamp : Z) (t : thread) : thread :=
  match period (self t) with
  | Some p =>
      if (last_update_of_report (self t) + p <=? check)%Z then
        {| self := set_reported (self t) stamp (delta_report (self t));
           local_value := local_value t;
           state_timestamp := stamp;
           sent := sent t ++ [{| kind := PERIOD; sent_at := stamp |}] |}
      else t
  | None => t
  end.

(** One turn of the loop under the readings [c]. *)
Definition loop_body_at (c : readings) (sample : option Z) (t : thread)
  : outcome thread :=
  match observe sample t with
  | Raise e t' => Raise e t'
  | Done t1 =>
      Done (send_report_period_at (at_check c) (at_stamp c)
              (__send_report_delta (at_delta c) t1))
  end.

End schedule.

(** ** More of [communication.py]: the receive path and [reconnect] *)
Module session.
Import py communication stripping.

(** The exceptions of [py.exn] and three more that the receive path and
    [reconnect] meet. *)
Inductive exc : Type :=
| Std (e : exn)
| KeyError
| ValueError
| ServerConnectionException.

Inductive result (A : Type) : Type :=
| Returns (a : A)
| Throws (e : exc) (a : A).
Arguments Returns {A} a.
Arguments Throws {A} e a.

Definition lift {A : Type} (o : outcome A) : result A :=
  match o with Done a => Returns a | Raise e a => Throws (Std e) a end.

Definition state_after {A : Type} (r : result A) : A :=
  match r with Returns a => a | Throws _ a => a end.

Definition thrown {A : Type} (r : result A) : option exc :=
  match r with Returns _ => None | Throws e _ => Some e end.

(** [o[key]] with a [str] key: [KeyError] when a dict lacks the key,
    [TypeError] on everything that is not a dict. *)
Definition getitem (o : json) (key : string) : exc + json :=
  match o with
  | JDict fields =>
      match assoc key fields with
      | Some v => inr v
      | None => inl KeyError
      end
  | _ => inl (Std TypeError)
  end.

(** [decoded.get('method', False) == m] *)
Definition method_is (decoded : json) (m : string) : bool :=
  match get decoded "method" (JBool false) with
  | inr (JStr s) => String.eqb s m
  | _ => false
  end.

(** [decoded.get('method', False)] is one of the three verbs [receive]
    dispatches on. *)
Definition is_request (decoded : json) : bool :=
  method_is decoded "PUT" || method_is decoded "GET" || method_is decoded "DELETE".

(** The statuses [communication.py] sets. *)
Inductive status : Type := CONNECTED | RECONNECTING.

(** [except ValueError]: the clause also catches the subclasses, of which
    [UnicodeDecodeError] is one. *)
Definition is_ValueError (e : exc) : bool :=
  match e with
  | ValueError | Std UnicodeDecodeError => true
  | _ => false
  end.

Section receive.
Context {E Obj : Type}.
Variable control_found :
  Obj -> json -> json -> json -> @ClientSocket E -> outcome (@ClientSocket E).
Variable report_found : Obj -> json -> json -> @ClientSocket E -> outcome (@ClientSocket E).
Variable delete_found : Obj -> json -> json -> @ClientSocket E -> outcome (@ClientSocket E).

(** Lines 1005 and 1006 of [receive], for an object [get_by_id] has
    returned: when it is the control state of its value, the datum goes to
    the value's [handle_control].  The data model is outside these
    sources. *)
Variable handle_result : Obj -> json -> @ClientSocket E -> result (@ClientSocket E).

(** The body of the [try] of [receive]. *)
Definition receive_try (decoded decoded_id : json) (s : @ClientSocket E)
  : result (@ClientSocket E) :=
  if method_is decoded "PUT" then
    lift (incoming_control control_found decoded s)
  else if method_is decoded "GET" then
    lift (incoming_report_request report_found decoded s)
  else if method_is decoded "DELETE" then
    lift (incoming_delete_request delete_found decoded s)
  else
    match get decoded "error" (JBool false) with
    | inl e => Throws (Std e) s
    | inr decoded_error =>
        if truthy decoded_error then
          match get decoded_error "message" JNull with
          | inl e => Throws (Std e) s
          | inr message =>
              lift (remove_id_from_confirm_list decoded_id
                      (log_error {| log_text := "Error: {}";
                                    log_payload := Some message |} s))
          end
        else
          match get decoded "result" (JBool false) with
          | inl e => Throws (Std e) s
          | inr decoded_result =>
              if truthy decoded_result then
                match get decoded_result "value" (JBool false) with
                | inl e => Throws (Std e) s
                | inr result_value =>
                    if truthy result_value then
                      match getitem result_value "meta" with
                      | inl e => Throws e s
                      | inr meta =>
                          match getitem meta "id" with
                          | inl e => Throws e s
                          | inr uuid =>
                              match getitem result_value "data" with
                              | inl e => Throws e s
                              | inr data =>
                                  match data_manager.get_by_id (network s) uuid with
                                  | inl e => Throws (Std e) s
                                  | inr None =>
                                      lift (remove_id_from_confirm_list decoded_id s)
                                  | inr (Some object) =>
                                      match handle_result object data s with
                                      | Throws e s' => Throws e s'
                                      | Returns s' =>
                                          lift (remove_id_from_confirm_list decoded_id s')
                                      end
                                  end
                              end
                          end
                      end
                    else lift (remove_id_from_confirm_list decoded_id s)
                end
              else Returns (send_error "Unknown method" decoded_id s)
          end
    end.

(** [receive]: a false frame is ignored; the id is read outside the [try];
    a [ValueError] of the body (or one of a subclass) is logged and
    answered. *)
Definition receive (decoded : json) (s : @ClientSocket E) : result (@ClientSocket E) :=
  if truthy decoded then
    match get decoded "id" JNull with
    | inl e => Throws (Std e) s
    | inr decoded_id =>
        match receive_try decoded decoded_id s with
        | Throws e s' =>
            if is_ValueError e then
              Returns (send_error "Value error" decoded_id
                         (log_error {| log_text := "Value error";
                                       log_payload := Some decoded |} s'))
            else Throws e s'
        | Returns s' => Returns s'
        end
    end
  else Returns s.

(** The loop of [receive_message] over a received list. *)
Fixpoint receive_each (frames : list json) (s : @ClientSocket E)
  : result (@ClientSocket E) :=
  match frames with
  | [] => Returns s
  | decoded_data :: rest =>
      match receive decoded_data s with
      | Throws e s' => Throws e s'
      | Returns s' => receive_each rest s'
      end
  end.

(** [set_sockets]: a new raw socket and its TLS wrapper, not yet connected
    (creating them is taken to succeed). *)
Definition set_sockets (s : @ClientSocket E) : @ClientSocket E :=
  set_my_socket (Some {| writable := false; wire := [] |})
    (set_my_raw_socket (Some tt) s).

(** [connect], when the server is [reachable] or not.  Every exception of
    the [try] is caught and logged, among them the [AttributeError] of
    [self.my_socket.settimeout] on a closed client.  The replay of the
    offline log that [send_logged_data] starts runs on a thread of its own
    and is not part of the call. *)
Definition connect (reachable : bool) (c : @ClientSocket E * list status)
  : @ClientSocket E * list status :=
  let s := set_connected false (fst c) in
  match my_socket s with
  | Some sock =>
      if reachable then
        (set_my_socket (Some {| writable := true; wire := wire sock |})
           (set_connected true s),
         snd c ++ [CONNECTED])
      else (log_error {| log_text := "Failed to connect"; log_payload := None |} s, snd c)
  | None => (log_error {| log_text := "Failed to connect"; log_payload := None |} s, snd c)
  end.

(** One round of the loop of [reconnect] on a network without values, the
    server not answering, and the round in which it answers. *)
Definition failed_attempt (c : @ClientSocket E * list status)
  : @ClientSocket E * list status :=
  connect false (set_sockets (state_of (close (fst c))), snd c).

Definition answered_attempt (c : @ClientSocket E * list status)
  : @ClientSocket E * list status :=
  connect true (set_sockets (state_of (close (fst c))), snd c).

(** The [while] loop of [reconnect].  [script] tells for each coming call of
    [connect] whether the server is reachable; [None] is a loop still
    waiting when the script ends. *)
Fixpoint reconnect_loop (retry_limit : option Z) (attempt : Z) (script : list bool)
    (c : @ClientSocket E * list status) {struct script}
  : option (result (@ClientSocket E * list status)) :=
  if negb (connected (fst c))
     && match retry_limit with None => true | Some limit => (attempt <? limit)%Z end
  then
    match close (fst c) with
    | Raise e s' => Some (Throws (Std e) (s', snd c))
    | Done s' =>
        match script with
        | [] => None
        | reachable :: rest =>
            reconnect_loop retry_limit (attempt + 1) rest
              (connect reachable (set_sockets s', snd c))
        end
    end
  else Some (Returns c).

Definition reconnect_item : MessageData :=
  {| msg := SEND_RECONNECT; rpc_id := JNull; text := None; parent := None;
     trace_id := JNull; message_data := JNull; control_value_id := None |}.

(** [reconnect] *)
Definition reconnect (retry_limit : option Z) (send_reconnect : bool)
    (script : list bool) (c : @ClientSocket E * list status)
  : option (result (@ClientSocket E * list status)) :=
  match reconnect_loop retry_limit 0 script
          (set_connected false (fst c), snd c ++ [RECONNECTING]) with
  | None => None
  | Some (Throws e c') => Some (Throws e c')
  | Some (Returns c') =>
      if connected (fst c') then
        if send_reconnect then
          Some (Returns (set_sending_queue (sending_queue (fst c') ++ [reconnect_item])
                           (fst c'),
                         snd c'))
        else Some (Returns c')
      else Some (Throws ServerConnectionException c')
  end.

(** [receive_message] once [receive_data] has returned [decoded]: a list is
    handed on frame by frame; an [OSError] on the way is logged and answered
    with [reconnect()], every other exception leaves the method. *)
Definition receive_message (decoded : json) (script : list bool)
    (c : @ClientSocket E * list status)
  : option (result (@ClientSocket E * list status)) :=
  match (match decoded with
         | JList frames => receive_each frames (fst c)
         | _ => receive decoded (fst c)
         end) with
  | Returns s' => Some (Returns (s', snd c))
  | Throws (Std e) s' =>
      if is_OSError e then
        reconnect None true script
          (log_error {| log_text := "Received OS Error"; log_payload := None |} s', snd c)
      else Some (Throws (Std e) (s', snd c))
  | Throws e s' => Some (Throws e (s', snd c))
  end.

End receive.
End session.

(** ** More example objects *)
Module more_examples.
Import py examples.

(** A number value with [period=10] and no delta. *)
Definition heartbeat : value.Value :=
  {| value.uuid := "value-2"; value.name := "heartbeat";
     value.data_type := "number"; value.period := Some 10%Z; value.delta := None;
     value.report_state := Some (report_state_at 10); value.control_state := None;
     value.last_update_of_report := 0; value.difference := 0;
     value.delta_report := 0 |}.

Definition heartbeat_thread : value.thread :=
  {| value.self := heartbeat; value.local_value := Some 10%Z;
     value.state_timestamp := 0; value.sent := [] |}.

(** An item that waits on the sending queue, and enqueue operations that
    find it there or find the queue empty; the socket takes what is
    written. *)
Definition waiting_item : communication.MessageData :=
  {| communication.msg := communication.SEND_REPORT; communication.rpc_id := JNull;
     communication.text := None; communication.parent := None;
     communication.trace_id := JNull; communication.message_data := JStr "21";
     communication.control_value_id := None |}.

Definition while_busy (d : json) : communication.enqueue :=
  {| communication.queue_now := [waiting_item]; communication.writable_now := true;
     communication.enqueued := d |}.

Definition when_idle (d : json) : communication.enqueue :=
  {| communication.queue_now := []; communication.writable_now := true;
     communication.enqueued := d |}.

(** A number value with [delta=5] and [period=10], last reported at time 0,
    whose thread last observed 10. *)
Definition thermostat : value.Value :=
  {| value.uuid := "value-3"; value.name := "thermostat";
     value.data_type := "number"; value.period := Some 10%Z; value.delta := Some 5%Z;
     value.report_state := Some (report_state_at 10); value.control_state := None;
     value.last_update_of_report := 0; value.difference := 0;
     value.delta_report := 0 |}.

Definition thermostat_thread : value.thread :=
  {| value.self := thermostat; value.local_value := Some 10%Z;
     value.state_timestamp := 0; value.sent := [] |}.

(** A number value whose report state holds no datum yet. *)
Definition unread : value.Value :=
  {| value.uuid := "value-4"; value.name := "unread";
     value.data_type := "number"; value.period := None; value.delta := Some 5%Z;
     value.report_state :=
       Some {| value.state_uuid := "state-1"; value.state_type := "Report";
               value.data := None; value.timestamp := 0 |};
     value.control_state := None;
     value.last_update_of_report := 0; value.difference := 0;
     value.delta_report := 0 |}.

(** Replies of the server to request [id]: an error, a success as the
    server words it, and a success that carries a state. *)
Definition error_reply (id : Z) : json :=
  JDict [("jsonrpc", JStr "2.0"); ("id", JNum id);
         ("error", JDict [("code", JNum (-32000)); ("message", JStr "Not found")])].

Definition value_true_reply (id : Z) : json :=
  JDict [("jsonrpc", JStr "2.0"); ("id", JNum id);
         ("result", JDict [("value", JBool true);
                           ("meta", JDict [("server_send_time", JStr "now")])])].

Definition state_reply (id : Z) : json :=
  JDict [("jsonrpc", JStr "2.0"); ("id", JNum id);
         ("result",
          JDict [("value",
                  JDict [("meta", JDict [("id", JStr "state-1"); ("type", JStr "state")]);
                         ("data", JStr "1")])])].

(** A frame without method, error or result. *)
Definition notification (id : Z) : json :=
  JDict [("jsonrpc", JStr "2.0"); ("id", JNum id)].

(** A control handler that accepts every datum; it is never reached. *)
Definition accepts (object : unit) (data : json)
    (s : @communication.ClientSocket (list json))
  : session.result (@communication.ClientSocket (list json)) := session.Returns s.

(** A log that removes no line when it evicts. *)
Definition evict_nothing_100 : message_log.MessageLog :=
  {| message_log.log_offline := true; message_log.log_data_limit := 100;
     message_log.limit_action := message_log.REMOVE_OLD;
     message_log.lines_to_remove := 0 |}.

Definition one_line_log : list message_log.file :=
  [ {| message_log.file_name := "2020-10-1.txt";
       message_log.file_content := message_log.Text [logged measured_at_80] |} ].

Definition september_log : list message_log.file :=
  [ {| message_log.file_name := "2020-9-30.txt";
       message_log.file_content :=
         message_log.Text [logged (small_message 1); logged (small_message 2);
                           logged (small_message 3)] |} ].

(** 30 September 2020, the day [september_log] was written. *)
Definition september_30 : message_log.os :=
  {| message_log.listdir := september_log; message_log.year := 2020;
     message_log.month := 9; message_log.day := 30;
     message_log.zip_size := constant_zip; message_log.recursion_limit := 900 |}.

(** A directory that holds a file which is no log. *)
Definition foreign_file : list message_log.file :=
  [ {| message_log.file_name := "readme.md";
       message_log.file_content := message_log.Text ["notes"] |} ].

End more_examples.

(* ===================================================================== *)
(** * Part II. Theorems                                                   *)
(* ===================================================================== *)

Import py.

(** ** Pending acknowledgements *)
Section pending_ack.
Import communication.
Context {E : Type}.
Implicit Types (s : @ClientSocket E) (k : key).


Lemma hash_key_total (o : json) :
  (exists k, hash_key o = inr k) \/ hash_key o = inl TypeError.
Proof. destruct o; simpl; eauto. Qed.


End pending_ack.

(** ** The stripping loop *)
Section stripping.
Import communication.
Variable strip : json -> outcome json.

Lemma remove_first_keeps (p : json -> bool) (l : list json) (y : json) :
  y ∈ l -> p y = false -> y ∈ remove_first p l.
Proof.
  intros Hin Hp. induction l as [|x l IH]; simpl; [done|].
  apply elem_of_cons in Hin as [->|Hin].
  - rewrite Hp. by left.
  - destruct (p x); [done|]. right. by apply IH.
Qed.

(** What the loop has passed stays in the list it leaves, but for empty
    dicts, which a later [remove] may take. *)
Lemma strip_loop_keeps_front front todo (y : json) :
  y ∈ front -> eq_empty_dict y = false ->
  y ∈ state_of (strip_loop strip front todo).
Proof.
  remember (length todo) as n eqn:Hn.
  assert (length todo <= n) as Hle by lia. clear Hn.
  revert front todo Hle. induction n as [|n IH]; intros front todo Hle Hin Hy.
  - destruct todo; simpl in *; [done|lia].
  - destruct todo as [|x todo]; simpl in *; [done|].
    destruct (strip x) as [x'|e x']; simpl.
    + destruct (len0 x').
      * assert (y ∈ remove_first eq_empty_dict (front ++ [x'])) as Hkept.
        { apply remove_first_keeps; [|done]. apply elem_of_app. by left. }
        destruct todo as [|skipped todo]; simpl in *; [done|].
        apply IH; [lia| |done]. apply elem_of_app. by left.
      * apply IH; [lia| |done]. apply elem_of_app. by left.
    + apply elem_of_app. by left.
Qed.

(** An item that strips to something empty is removed, and the item behind
    it is stepped over: whatever stripping would have made of it, it is in
    the list the loop leaves as it was (the empty dict apart, which a later
    [remove] may take). *)
Theorem strip_loop_leaves_stepped_over_item front a a' b rest :
  strip a = Done a' ->
  len0 a' = true ->
  eq_empty_dict b = false ->
  b ∈ state_of (strip_loop strip front (a :: b :: rest)).
Proof.
  intros Ha Hempty Hb. simpl. rewrite Ha, Hempty.
  apply strip_loop_keeps_front; [|done]. apply elem_of_app. right. by left.
Qed.

(** When no item strips to something empty, the loop visits every item and
    the list keeps its length and order. *)
Lemma strip_loop_visits_all front todo :
  Forall (fun x => exists x', strip x = Done x' /\ len0 x' = false) todo ->
  strip_loop strip front todo = Done (front ++ map (fun x => state_of (strip x)) todo).
Proof.
  revert front. induction todo as [|x todo IH]; intros front Hall.
  - simpl. by rewrite app_nil_r.
  - apply Forall_cons in Hall as [(x' & Hx & Hlen) Hall].
    simpl. rewrite Hx, Hlen. simpl.
    rewrite IH by done. by rewrite <- app_assoc.
Qed.

End stripping.

Section stripping_cases.
Import communication examples.

Lemma strip_loop_leaves_stepped_over_item_witness :
  all_null_2
  ∈ state_of (strip_loop get_object_without_none_values []
                [all_null_1; all_null_2; put_request 1]).
Proof.
  apply (strip_loop_leaves_stepped_over_item get_object_without_none_values
           [] all_null_1 (JDict []) all_null_2 [put_request 1]); reflexivity.
Defined.

Lemma strip_loop_visits_all_witness :
  strip_loop get_object_without_none_values []
    [JDict [("id", JNum 1); ("trace", JNull)]; success_reply 2]
  = Done [JDict [("id", JNum 1)]; success_reply 2].
Proof.
  apply (strip_loop_visits_all get_object_without_none_values []
           [JDict [("id", JNum 1); ("trace", JNull)]; success_reply 2]).
  repeat constructor; eexists; (split; [reflexivity|reflexivity]).
Defined.

End stripping_cases.

(** ** The outbound batcher *)
Section batcher.
Import communication.
Context {E : Type}.
Variable add_message : json -> E -> outcome E.
Implicit Types (s : @ClientSocket E) (k : key) (data : list json).

Local Abbreviation strip_batch := (strip_loop get_object_without_none_values []).
Local Abbreviation send_data := (communication.send_data add_message).
Local Abbreviation create_bulk := (communication.create_bulk add_message).
Local Abbreviation run := (communication.run add_message).

Lemma create_bulk_unfold d s :
  create_bulk d s =
  if flush_condition (appended d s) then
    match send_data (appended d s) with
    | Done s2 => Done (set_bulk_send_list [] s2)
    | Raise e s2 =>
        if is_OSError e
        then Done (log_error {| log_text := "Error sending message";
                                 log_payload := None |}
                     (set_connected false s2))
        else Raise e s2
    end
  else Done (appended d s).
Proof. reflexivity. Qed.

(** *** Frame of the registration loop *)

Lemma add_id_frame (e : json) s :
  let s' := state_of (add_id_to_confirm_list e s) in
  connected s' = connected s /\ bulk_send_list s' = bulk_send_list s
  /\ my_socket s' = my_socket s /\ event_storage s' = event_storage s
  /\ sending_queue s' = sending_queue s.
Proof.
  unfold add_id_to_confirm_list.
  destruct (get e "id" JNull) as [x|id]; [done|].
  by destruct (hash_key id).
Qed.

Lemma register_frame data s :
  let s' := state_of (register data s) in
  connected s' = connected s /\ bulk_send_list s' = bulk_send_list s
  /\ my_socket s' = my_socket s /\ event_storage s' = event_storage s
  /\ sending_queue s' = sending_queue s.
Proof.
  revert s. induction data as [|e data IH]; intros s; [done|].
  simpl. destruct (is_mutating e) as [x|[|]]; [done| |apply IH].
  pose proof (add_id_frame e s) as Hadd.
  destruct (add_id_to_confirm_list e s) as [s1|x s1]; simpl in *; [|done].
  destruct (IH s1) as (H1 & H2 & H3 & H4 & H5).
  destruct Hadd as (G1 & G2 & G3 & G4 & G5).
  repeat split; congruence.
Qed.


(** *** What the registration loop leaves in the map *)

Lemma add_id_to_confirm_list_spec (e : json) s :
  add_id_to_confirm_list e s =
  match id_key e with
  | inl x => Raise x s
  | inr k => Done (set_packet_awaiting_confirm (<[k := e]> (packet_awaiting_confirm s)) s)
  end.
Proof.
  unfold add_id_to_confirm_list, id_key.
  by destruct (get e "id" JNull).
Qed.

(** Only a mutating entry of the batch, under the key of its own id, can be
    new in the map. *)
Lemma register_only_mutating data s s2 :
  register data s = Done s2 ->
  forall k e, packet_awaiting_confirm s2 !! k = Some e ->
    packet_awaiting_confirm s !! k = Some e
    \/ (e ∈ data /\ is_mutating e = inr true /\ id_key e = inr k).
Proof.
  revert s. induction data as [|d data IH]; intros s Hreg k e Hin.
  - injection Hreg as <-. by left.
  - simpl in Hreg. destruct (is_mutating d) as [x|[|]] eqn:Hmut; [done| |].
    + rewrite add_id_to_confirm_list_spec in Hreg.
      destruct (id_key d) as [x|kd] eqn:Hkey; [done|].
      destruct (IH _ Hreg k e Hin) as [Hold|(Hel & Hm & Hk)].
      * simpl in Hold. destruct (decide (kd = k)) as [->|Hne].
        -- rewrite lookup_insert_eq in Hold. injection Hold as <-.
           right. split; [left|done].
        -- rewrite lookup_insert_ne in Hold by done. by left.
      * right. split; [by right|done].
    + destruct (IH _ Hreg k e Hin) as [Hold|(Hel & Hm & Hk)]; [by left|].
      right. split; [by right|done].
Qed.

(** A key that is in the map stays in it. *)
Lemma register_keeps data s s2 k :
  register data s = Done s2 ->
  is_Some (packet_awaiting_confirm s !! k) ->
  is_Some (packet_awaiting_confirm s2 !! k).
Proof.
  revert s. induction data as [|d data IH]; intros s Hreg Hk.
  - by injection Hreg as <-.
  - simpl in Hreg. destruct (is_mutating d) as [x|[|]]; [done| |by eapply IH].
    rewrite add_id_to_confirm_list_spec in Hreg.
    destruct (id_key d) as [x|kd]; [done|].
    eapply IH; [exact Hreg|]. simpl.
    destruct (decide (kd = k)) as [->|Hne].
    + rewrite lookup_insert_eq. eauto.
    + by rewrite lookup_insert_ne.
Qed.

(** Every mutating entry of the batch has the key of its id in the map,
    bound to a mutating entry of the batch with that key (itself, unless a
    later entry reuses the id). *)
Lemma register_all_mutating data s s2 :
  register data s = Done s2 ->
  forall e, e ∈ data -> is_mutating e = inr true ->
    exists k e', id_key e = inr k
      /\ packet_awaiting_confirm s2 !! k = Some e'
      /\ e' ∈ data /\ is_mutating e' = inr true /\ id_key e' = inr k.
Proof.
  revert s. induction data as [|d data IH]; intros s Hreg e Hel Hmut.
  - by apply elem_of_nil in Hel.
  - simpl in Hreg. apply elem_of_cons in Hel as [->|Hel].
    + rewrite Hmut, add_id_to_confirm_list_spec in Hreg.
      destruct (id_key d) as [x|kd] eqn:Hkey; [done|].
      assert (is_Some (packet_awaiting_confirm s2 !! kd)) as [e' He'].
      { eapply register_keeps; [exact Hreg|]. simpl.
        rewrite lookup_insert_eq. eauto. }
      exists kd, e'. split; [done|]. split; [done|].
      destruct (register_only_mutating _ _ _ Hreg kd e' He')
        as [Hold|(Hin & Hm & Hk)].
      * simpl in Hold. rewrite lookup_insert_eq in Hold. injection Hold as <-.
        split; [left|done].
      * split; [by right|done].
    + assert (exists s1, register data s1 = Done s2) as [s1 Hreg1].
      { destruct (is_mutating d) as [x|[|]]; [done| |eauto].
        destruct (add_id_to_confirm_list d s); [eauto|done]. }
      destruct (IH _ Hreg1 e Hel Hmut) as (k & e' & H1 & H2 & H3 & H4 & H5).
      exists k, e'. split; [done|]. split; [done|]. split; [by right|done].
Qed.

(** C2. A flush while connected, once the stripping pass has left the batch
    [data] and the registration loop has run through it: the pending-ack
    map [send_data] leaves is the one the registration loop built, whether
    the socket write then succeeds or raises; every entry of the batch whose
    [method] is PUT, POST or DELETE has the key of its id in that map, bound
    to such an entry; nothing else is new in the map; and when the socket
    refuses the write, [send_data] raises [OSError] out of exactly that
    state, the ids already tracked. *)
Theorem send_data_registers_mutating_before_write s data s2 :
  connected s = true ->
  strip_batch (bulk_send_list s) = Done data ->
  register data (set_bulk_send_list data s) = Done s2 ->
  packet_awaiting_confirm (state_of (send_data s)) = packet_awaiting_confirm s2
  /\ (forall e, e ∈ data -> is_mutating e = inr true ->
        exists k e', id_key e = inr k
          /\ packet_awaiting_confirm s2 !! k = Some e'
          /\ e' ∈ data /\ is_mutating e' = inr true /\ id_key e' = inr k)
  /\ (forall k e, packet_awaiting_confirm s2 !! k = Some e ->
        packet_awaiting_confirm s !! k = Some e
        \/ (e ∈ data /\ is_mutating e = inr true /\ id_key e = inr k))
  /\ (forall sock, my_socket s = Some sock -> writable sock = false ->
        0 < length data -> send_data s = Raise OSError s2).
Proof.
  intros Hconn Hstrip Hreg.
  pose proof (register_frame data (set_bulk_send_list data s)) as Hframe.
  rewrite Hreg in Hframe. simpl in Hframe.
  destruct Hframe as (_ & _ & Hsock & _ & _).
  assert (send_data s =
          if 0 <? length data then socket_send (dumps (JList data)) s2 else Done s2)
    as Hsend.
  { unfold communication.send_data. rewrite Hstrip. simpl. by rewrite Hconn, Hreg. }
  split; [|split; [|split]].
  - rewrite Hsend. destruct (0 <? length data); [|done].
    unfold socket_send. destruct (my_socket s2) as [sock|]; [|done].
    by destruct (writable sock).
  - by apply register_all_mutating with (s := set_bulk_send_list data s).
  - intros k e Hin.
    by apply (register_only_mutating _ _ _ Hreg k e Hin).
  - intros sock Hs Hw Hlen. rewrite Hsend.
    apply Nat.ltb_lt in Hlen. rewrite Hlen.
    unfold socket_send. by rewrite Hsock, Hs, Hw.
Qed.

(** *** What a flush does to the socket *)

Lemma send_data_socket s :
  my_socket (state_of (send_data s)) = my_socket s
  \/ exists sock data,
       my_socket s = Some sock /\ 0 < length data
       /\ strip_batch (bulk_send_list s) = Done data
       /\ my_socket (state_of (send_data s))
          = Some {| writable := writable sock;
                    wire := wire sock ++ [dumps (JList data)] |}.
Proof.
  unfold communication.send_data.
  destruct (strip_batch (bulk_send_list s)) as [data|x data] eqn:Hstrip;
    simpl; [|by left].
  destruct (connected s).
  - pose proof (register_frame data (set_bulk_send_list data s)) as Hf.
    destruct (register data (set_bulk_send_list data s)) as [s2|x s2];
      simpl in Hf; destruct Hf as (_ & _ & Hsock & _ & _); [|by left].
    destruct (0 <? length data) eqn:Hlen; [|by left].
    unfold socket_send.
    destruct (my_socket s2) as [sock|] eqn:Hs2; simpl; [|left; congruence].
    destruct (writable sock) eqn:Hw; simpl; [|left; congruence].
    right. exists sock, data. apply Nat.ltb_lt in Hlen.
    rewrite Hw. by rewrite <- Hsock.
  - left. by destruct (add_message (JList data) (event_storage s)).
Qed.

Lemma send_data_bulk s data :
  strip_batch (bulk_send_list s) = Done data ->
  bulk_send_list (state_of (send_data s)) = data.
Proof.
  intros Hstrip. unfold communication.send_data. rewrite Hstrip. simpl.
  destruct (connected s).
  - pose proof (register_frame data (set_bulk_send_list data s)) as Hf.
    destruct (register data (set_bulk_send_list data s)) as [s2|x s2];
      simpl in Hf; destruct Hf as (_ & Hb & _); [|done].
    destruct (0 <? length data); [|done].
    unfold socket_send. destruct (my_socket s2) as [sock|]; [|done].
    by destruct (writable sock).
  - by destruct (add_message (JList data) (event_storage s)).
Qed.

Lemma create_bulk_socket d s :
  my_socket (state_of (create_bulk d s))
  = (if flush_condition (appended d s)
     then my_socket (state_of (send_data (appended d s)))
     else my_socket s).
Proof.
  rewrite create_bulk_unfold.
  destruct (flush_condition (appended d s)); [|by destruct d].
  destruct (send_data (appended d s)) as [s2|x s2]; [done|].
  by destruct (is_OSError x).
Qed.

Lemma appended_socket d s : my_socket (appended d s) = my_socket s.
Proof. by destruct d. Qed.

Lemma create_bulk_frames_nonempty d s :
  frames_nonempty s -> frames_nonempty (state_of (create_bulk d s)).
Proof.
  intros Hinv sock'. rewrite create_bulk_socket.
  destruct (flush_condition (appended d s)); [|apply Hinv].
  destruct (send_data_socket (appended d s))
    as [->|(sock & data & Hs & Hlen & _ & ->)];
    rewrite appended_socket in *; [apply Hinv|].
  intros [= <-]. simpl. apply Forall_app. split; [by apply Hinv|].
  apply Forall_singleton. by exists data.
Qed.

Lemma environment_frames_nonempty op s :
  frames_nonempty s -> frames_nonempty (environment op s).
Proof.
  intros Hinv sock'. unfold environment. simpl.
  destruct (my_socket s) as [sock|] eqn:Hs; [|done].
  intros [= <-]. simpl. by apply Hinv.
Qed.

Lemma run_frames_nonempty ops s :
  frames_nonempty s -> frames_nonempty (state_of (run ops s)).
Proof.
  revert s. induction ops as [|op ops IH]; intros s Hinv; [done|].
  simpl.
  pose proof (create_bulk_frames_nonempty (enqueued op) _
                (environment_frames_nonempty op s Hinv)) as Hstep.
  destruct (create_bulk (enqueued op) (environment op s)) as [s'|x s'];
    [by apply IH|done].
Qed.

Lemma flush_condition_iff s :
  flush_condition s = true
  <-> (sending_queue s = [] /\ packet_awaiting_confirm s = ∅)
      \/ MAX_BULK_SIZE <= length (bulk_send_list s).
Proof.
  unfold flush_condition.
  rewrite orb_true_iff, andb_true_iff, !Nat.eqb_eq, Nat.leb_le.
  rewrite length_zero_iff_nil, map_size_empty_iff. done.
Qed.

(** The flush rule.  [create_bulk] flushes exactly when the sending queue
    and the pending-ack map are both empty or the batch has reached ten
    entries: otherwise it only appends; when it flushes, the batch goes
    through [send_data] and the list is cleared once that returns.  A
    connected flush of a batch that is non-empty after the stripping pass
    writes exactly that batch as one frame; a batch that pass leaves empty
    is not written; and along every sequence of enqueue operations every
    frame on the wire is a non-empty list.  (What the pass leaves is not
    always what stripping should leave: see the failing case at the end of
    the worked cases.) *)
Theorem create_bulk_flushes_exactly_when_idle_or_full (ops : list enqueue) d s :
  (flush_condition (appended d s) = true
   <-> (sending_queue s = [] /\ packet_awaiting_confirm s = ∅)
       \/ MAX_BULK_SIZE <= length (bulk_send_list (appended d s)))
  /\ (flush_condition (appended d s) = false ->
        create_bulk d s = Done (appended d s))
  /\ (flush_condition (appended d s) = true ->
        forall s2, send_data (appended d s) = Done s2 ->
          create_bulk d s = Done (set_bulk_send_list [] s2))
  /\ (flush_condition (appended d s) = true -> connected s = true ->
        forall data s2 sock,
          strip_batch (bulk_send_list (appended d s)) = Done data ->
          register data (set_bulk_send_list data (appended d s)) = Done s2 ->
          my_socket s = Some sock -> writable sock = true -> 0 < length data ->
          create_bulk d s
          = Done (set_bulk_send_list []
                    (set_my_socket
                       (Some {| writable := true;
                                wire := wire sock ++ [dumps (JList data)] |}) s2)))
  /\ (forall s1, strip_batch (bulk_send_list s1) = Done [] ->
        my_socket (state_of (send_data s1)) = my_socket s1)
  /\ (frames_nonempty s -> frames_nonempty (state_of (run ops s))).
Proof.
  split; [|split; [|split; [|split; [|split]]]].
  - rewrite flush_condition_iff. by destruct d.
  - intros Hc. by rewrite create_bulk_unfold, Hc.
  - intros Hc s2 Hs. by rewrite create_bulk_unfold, Hc, Hs.
  - intros Hc Hconn data s2 sock Hstrip Hreg Hs Hw Hlen.
    rewrite create_bulk_unfold, Hc.
    pose proof (register_frame data (set_bulk_send_list data (appended d s))) as Hf.
    rewrite Hreg in Hf. simpl in Hf. destruct Hf as (_ & _ & Hsock & _ & _).
    rewrite appended_socket in Hsock.
    unfold communication.send_data. rewrite Hstrip. simpl.
    assert (connected (appended d s) = true) as -> by by destruct d.
    rewrite Hreg. apply Nat.ltb_lt in Hlen. rewrite Hlen.
    unfold socket_send. by rewrite Hsock, Hs, Hw.
  - intros s1 Hstrip.
    destruct (send_data_socket s1) as [->|(sock & data & _ & Hlen & Hd & _)];
      [done|].
    rewrite Hstrip in Hd. injection Hd as <-. simpl in Hlen. lia.
  - apply run_frames_nonempty.
Qed.

(** C6 as amended.  When [create_bulk] flushes and returns: if [send_data]
    returned, the batch list is empty; if [send_data] raised (an [OSError],
    since [create_bulk] returned), the connection is marked lost and the
    batch list is not cleared: it is the list [send_data] left, which is the
    stripped batch whenever the stripping pass completed. *)
Theorem create_bulk_clears_when_flush_returns d s s' :
  flush_condition (appended d s) = true ->
  create_bulk d s = Done s' ->
  (raised (send_data (appended d s)) = None -> bulk_send_list s' = [])
  /\ (forall e, raised (send_data (appended d s)) = Some e ->
        is_OSError e = true /\ connected s' = false
        /\ bulk_send_list s' = bulk_send_list (state_of (send_data (appended d s)))
        /\ forall data, strip_batch (bulk_send_list (appended d s)) = Done data ->
             bulk_send_list s' = data).
Proof.
  intros Hc. rewrite create_bulk_unfold, Hc.
  destruct (send_data (appended d s)) as [s2|x s2] eqn:Hsend; simpl.
  - intros [= <-]. split; [done|]. intros ? [=].
  - destruct (is_OSError x) eqn:Hos; [|done].
    intros [= <-]. split; [done|]. intros e [= <-].
    split; [done|]. split; [done|]. split; [done|].
    intros data Hstrip. simpl.
    pose proof (send_data_bulk _ _ Hstrip) as Hb. by rewrite Hsend in Hb.
Qed.

End batcher.

(** ** Worked cases of the pending-ack map and the batcher *)
Section batcher_cases.
Import communication examples more_examples spec.

Local Abbreviation send_data := (communication.send_data recording_log).
Local Abbreviation create_bulk := (communication.create_bulk recording_log).



Lemma send_data_registers_mutating_before_write_witness :
  connected (idle true false [put_request 1; success_reply 2] no_network) = true
  /\ send_data (idle true false [put_request 1; success_reply 2] no_network)
     = Raise OSError
         (set_packet_awaiting_confirm (<[KInt 1 := put_request 1]> ∅)
            (idle true false [put_request 1; success_reply 2] no_network)).
Proof.
  split; [reflexivity|].
  destruct (send_data_registers_mutating_before_write recording_log
              (idle true false [put_request 1; success_reply 2] no_network)
              [put_request 1; success_reply 2]
              (set_packet_awaiting_confirm (<[KInt 1 := put_request 1]> ∅)
                 (idle true false [put_request 1; success_reply 2] no_network))
              eq_refl eq_refl eq_refl)
    as (_ & _ & _ & Hfail).
  apply (Hfail {| writable := false; wire := [] |}); [reflexivity..|].
  simpl. lia.
Defined.

(** The offline flush with the offline log behind it: the batch, mutating
    request and reply alike, becomes one line of the day's file; nothing is
    registered and nothing is written to the socket. *)
Lemma send_data_offline_writes_log_line :
  communication.send_data (message_log.add_message roomy_log)
    (offline_with_log [put_request 1; success_reply 2] [])
  = Done (offline_with_log [put_request 1; success_reply 2]
            [ {| message_log.file_name := "2020-10-1.txt";
                 message_log.file_content :=
                   message_log.Text
                     [logged (JList [put_request 1; success_reply 2])] |} ]).
Proof. vm_compute. reflexivity. Qed.

(** C6, the case against it.  Connected, nothing queued, nothing pending,
    and the operating system refuses the write: [create_bulk] flushes,
    catches the [OSError] and returns with the request still in the batch
    list. *)
Lemma create_bulk_keeps_batch_when_write_fails :
  flush_condition (appended (put_request 1) (idle true false [] no_network)) = true
  /\ raised (send_data (appended (put_request 1) (idle true false [] no_network)))
     = Some OSError
  /\ exists s',
       create_bulk (put_request 1) (idle true false [] no_network) = Done s'
       /\ bulk_send_list s' = [put_request 1]
       /\ length (bulk_send_list s') = 1.
Proof.
  split; [reflexivity|]. split; [reflexivity|].
  eexists. split; [reflexivity|]. split; reflexivity.
Qed.

Lemma create_bulk_clears_when_flush_returns_witness :
  flush_condition (appended (put_request 1) (idle true false [] no_network)) = true
  /\ create_bulk (put_request 1) (idle true false [] no_network)
     = Done after_refused_write
  /\ connected after_refused_write = false
  /\ bulk_send_list after_refused_write = [put_request 1].
Proof.
  split; [reflexivity|]. split; [reflexivity|].
  destruct (create_bulk_clears_when_flush_returns recording_log
              (put_request 1) (idle true false [] no_network)
              after_refused_write eq_refl eq_refl)
    as (_ & Hraise).
  destruct (Hraise OSError eq_refl) as (_ & Hconn & _ & Hbulk).
  split; [exact Hconn|]. apply Hbulk. reflexivity.
Defined.

(** C7, the failing case.  The batch holds two requests in which every
    value is [None]; stripped as the specification words it, nothing is
    left.  [send_data] strips the first, removes it from the list it is
    iterating, and so never visits the second: connected, it writes the
    frame [[{"b": null}]]; offline, it logs that same list.  The same loop
    runs on a list inside a request. *)
Theorem send_data_skips_entry_after_removed_one :
  spec_strip_batch [all_null_1; all_null_2] = []
  /\ send_data (idle true true [all_null_1; all_null_2] no_network)
     = Done (set_my_socket
               (Some {| writable := true; wire := [dumps (JList [all_null_2])] |})
               (idle true true [all_null_2] no_network))
  /\ send_data (idle false true [all_null_1; all_null_2] no_network)
     = Done (set_event_storage [JList [all_null_2]]
               (idle false true [all_null_2] no_network))
  /\ get_object_without_none_values
       (JDict [("id", JNum 1); ("device", JList [all_null_1; all_null_2])])
     = Done (JDict [("id", JNum 1); ("device", JList [all_null_2])])
  /\ spec_strip (JDict [("id", JNum 1); ("device", JList [all_null_1; all_null_2])])
     = JDict [("id", JNum 1)].
Proof. repeat split; reflexivity. Qed.

(** C1, the failing case.  Two requests in which every value is [None] are
    enqueued, the first while an item waits on the sending queue, the second
    when the queue is empty.  The first call only appends; the second
    flushes.  Stripped as the specification words it, the batch is empty,
    and nothing should be written; but the pass of [send_data] steps over
    the second request when it removes the first, the list it leaves is not
    empty, and [create_bulk] writes the frame [[{"b": null}]].  With the
    empty dict enqueued behind the first request the frame is [[{}]].  A
    batch of the first request alone is emptied by the pass and not
    written. *)
Theorem create_bulk_writes_a_batch_that_strips_to_nothing :
  spec_strip_batch [all_null_1; all_null_2] = []
  /\ communication.run recording_log [while_busy all_null_1]
       (idle true true [] no_network)
     = Done (set_sending_queue [waiting_item] (idle true true [all_null_1] no_network))
  /\ communication.run recording_log [while_busy all_null_1; when_idle all_null_2]
       (idle true true [] no_network)
     = Done (set_my_socket
               (Some {| writable := true; wire := [dumps (JList [all_null_2])] |})
               (idle true true [] no_network))
  /\ spec_strip_batch [all_null_1; JDict []] = []
  /\ communication.run recording_log [while_busy all_null_1; when_idle (JDict [])]
       (idle true true [] no_network)
     = Done (set_my_socket
               (Some {| writable := true; wire := [dumps (JList [JDict []])] |})
               (idle true true [] no_network))
  /\ communication.run recording_log [when_idle all_null_1]
       (idle true true [] no_network)
     = Done (idle true true [] no_network).
Proof. repeat split; reflexivity. Qed.

End batcher_cases.

(** ** The inbound dispatcher *)
Section dispatcher.
Import communication.
Context {E Obj : Type}.
Variable found : Obj -> json -> json -> @ClientSocket E -> outcome (@ClientSocket E).
Implicit Types (s : @ClientSocket E) (data : json).

(** A frame whose path to [params.data.meta.id] is broken ([params], [data]
    or [meta] missing or not a dict) is logged with its payload and dropped:
    the handler returns, and nothing is put on the sending queue. *)
Lemma with_target_broken_path_only_logs verb data return_id s :
  get data "id" JNull = inr return_id ->
  get_path data ["params"; "data"; "meta"; "id"] = inl AttributeError ->
  with_target verb data found s
  = Done (log_error {| log_text := "Error received incorrect format in " +:+ verb;
                       log_payload := Some data |} s)
  /\ sending_queue (state_of (with_target verb data found s)) = sending_queue s.
Proof.
  intros Hid Hpath. unfold communication.with_target. by rewrite Hid, Hpath.
Qed.

(** A frame whose [params.data.meta] is a dict without a string [id] makes
    the debug line of the first [try] block raise [TypeError], which no
    handler catches. *)
Lemma with_target_missing_id_raises verb data return_id uuid s :
  get data "id" JNull = inr return_id ->
  get_path data ["params"; "data"; "meta"; "id"] = inr uuid ->
  concat_str uuid = inl TypeError ->
  with_target verb data found s = Raise TypeError s.
Proof.
  intros Hid Hpath Hstr. unfold communication.with_target.
  rewrite Hid, Hpath. by destruct uuid.
Qed.

(** A well-formed frame (the path to a string [params.data.meta.id] and the
    trace id are readable) never gets to its target: [DataManager] binds no
    [get_by_id], [self.data_manager.get_by_id] is the [None] that
    [DataManager.__getattr__] returns, and calling it raises [TypeError].
    The state is as before: no reply is put on the sending queue. *)
Lemma with_target_well_formed_request_raises verb data return_id uuid trace s :
  get data "id" JNull = inr return_id ->
  get_path data ["params"; "data"; "meta"; "id"] = inr (JStr uuid) ->
  find_trace data = inr trace ->
  data_manager.__getattr__ (network s) "get_by_id" = data_manager.AttrNone
  /\ with_target verb data found s = Raise TypeError s.
Proof.
  intros Hid Hpath Htrace. split; [done|].
  unfold with_target. by rewrite Hid, Hpath, Htrace.
Qed.

End dispatcher.

Section dispatcher_cases.
Import communication examples.

Local Abbreviation incoming_control :=
  (communication.incoming_control unreached4).
Local Abbreviation incoming_report_request :=
  (communication.incoming_report_request unreached3).
Local Abbreviation incoming_delete_request :=
  (communication.incoming_delete_request unreached3).

(** C5, the failing cases.  A PUT, GET or DELETE frame without [params] is
    logged with its payload and the handler returns: the sending queue stays
    empty, so the peer gets no reply.  A frame whose [params.data.meta] has
    no [id] raises [TypeError] out of the handler.  And a well-formed frame
    is not answered either: the data manager has no [get_by_id], the lookup
    itself raises [TypeError], and the sending queue stays empty. *)
Theorem incoming_malformed_request_gets_no_reply :
  incoming_control put_without_params (idle true true [] no_network)
  = Done (log_error {| log_text := "Error received incorrect format in put";
                       log_payload := Some put_without_params |}
            (idle true true [] no_network))
  /\ sending_queue
       (state_of (incoming_control put_without_params (idle true true [] no_network)))
     = []
  /\ sending_queue
       (state_of (incoming_report_request put_without_params
                    (idle true true [] no_network)))
     = []
  /\ sending_queue
       (state_of (incoming_delete_request put_without_params
                    (idle true true [] no_network)))
     = []
  /\ incoming_control put_without_meta_id (idle true true [] no_network)
     = Raise TypeError (idle true true [] no_network)
  /\ data_manager.__getattr__ no_network "get_by_id" = data_manager.AttrNone
  /\ incoming_control put_unknown_target (idle true true [] no_network)
     = Raise TypeError (idle true true [] no_network)
  /\ incoming_report_request put_unknown_target (idle true true [] no_network)
     = Raise TypeError (idle true true [] no_network)
  /\ incoming_delete_request put_unknown_target (idle true true [] no_network)
     = Raise TypeError (idle true true [] no_network).
Proof. repeat split; reflexivity. Qed.

Lemma with_target_broken_path_only_logs_witness :
  get put_without_params "id" JNull = inr (JNum 7)
  /\ get_path put_without_params ["params"; "data"; "meta"; "id"] = inl AttributeError
  /\ sending_queue
       (state_of (with_target "get" put_without_params unreached3
                    (idle true true [] no_network)))
     = [].
Proof.
  split; [reflexivity|]. split; [reflexivity|].
  apply (with_target_broken_path_only_logs unreached3 "get"
           put_without_params (JNum 7) (idle true true [] no_network)
           eq_refl eq_refl).
Defined.

Lemma with_target_missing_id_raises_witness :
  get put_without_meta_id "id" JNull = inr (JNum 7)
  /\ get_path put_without_meta_id ["params"; "data"; "meta"; "id"] = inr JNull
  /\ with_target "delete" put_without_meta_id unreached3
       (idle true true [] no_network)
     = Raise TypeError (idle true true [] no_network).
Proof.
  split; [reflexivity|]. split; [reflexivity|].
  apply (with_target_missing_id_raises unreached3 "delete"
           put_without_meta_id (JNum 7) JNull (idle true true [] no_network)
           eq_refl eq_refl eq_refl).
Defined.

Lemma with_target_well_formed_request_raises_witness :
  get_path put_unknown_target ["params"; "data"; "meta"; "id"]
  = inr (JStr "no-such-uuid")
  /\ find_trace put_unknown_target = inr JNull
  /\ with_target "get" put_unknown_target unreached3 (idle true true [] no_network)
     = Raise TypeError (idle true true [] no_network).
Proof.
  split; [reflexivity|]. split; [reflexivity|].
  apply (with_target_well_formed_request_raises unreached3 "get"
           put_unknown_target (JNum 7) "no-such-uuid" JNull
           (idle true true [] no_network) eq_refl eq_refl eq_refl).
Defined.

End dispatcher_cases.

(** ** Closing the connection *)
Section closing.
Import communication.
Context {E : Type}.
Implicit Types (s : @ClientSocket E).

(** The state [close] leaves when it returns. *)
Lemma close_returns_disconnected s s' :
  close s = Done s' ->
  connected s' = false /\ my_socket s' = None /\ my_raw_socket s' = None
  /\ close s' = Done s'.
Proof.
  unfold close.
  destruct (stop_timers (concat (map values (devices (network s))))) eqn:Hstop;
    [done|].
  intros [= <-]. simpl. by rewrite Hstop.
Qed.

(** On a network without values [close] returns. *)
Lemma close_without_values s :
  concat (map values (devices (network s))) = [] ->
  close s = Done (set_my_raw_socket None (set_my_socket None (set_connected false s))).
Proof. intros Hnone. unfold close. by rewrite Hnone. Qed.

(** With a value in the network, [value.timer] is [None] and the call of
    its [is_alive] raises: [close] leaves the flag and the handles as they
    were. *)
Lemma close_with_a_value_raises s v vs :
  concat (map values (devices (network s))) = v :: vs ->
  close s = Raise AttributeError s.
Proof. intros Hsome. unfold close. by rewrite Hsome. Qed.

End closing.

Section closing_cases.
Import communication examples.

(** C8, the failing case.  [Value] binds no [timer], so [value.timer] goes
    through [Value.__getattr__], which returns [None] for that name, and
    [None.is_alive()] raises [AttributeError]: on a connected socket whose
    network has one device with one value, [close] raises and leaves the
    socket connected with both handles open.  Only on a network without
    values does it close the handles, mark the connection lost, and do so
    again when called a second time. *)
Theorem close_raises_on_network_with_values :
  bool_decide ("timer" ∈ value.init_attributes ++ value.class_attributes) = false
  /\ value.__getattr__ temperature "timer" = value.AttrNone
  /\ close (idle true true [] one_value_network)
     = Raise AttributeError (idle true true [] one_value_network)
  /\ connected (state_of (close (idle true true [] one_value_network))) = true
  /\ close (idle true true [] no_network)
     = Done (set_my_raw_socket None
               (set_my_socket None (idle false true [] no_network)))
  /\ close (set_my_raw_socket None
              (set_my_socket None (idle false true [] no_network)))
     = Done (set_my_raw_socket None
               (set_my_socket None (idle false true [] no_network))).
Proof. repeat split; reflexivity. Qed.

Lemma close_returns_disconnected_witness :
  close (idle true true [] no_network)
  = Done (set_my_raw_socket None (set_my_socket None (idle false true [] no_network)))
  /\ close (set_my_raw_socket None (set_my_socket None (idle false true [] no_network)))
     = Done (set_my_raw_socket None
               (set_my_socket None (idle false true [] no_network))).
Proof.
  split; [reflexivity|].
  apply (close_returns_disconnected (idle true true [] no_network)
           (set_my_raw_socket None (set_my_socket None (idle false true [] no_network)))
           eq_refl).
Defined.

Lemma close_with_a_value_raises_witness :
  concat (map values (devices (network (idle true true [] one_value_network))))
  = [temperature]
  /\ close (idle true true [] one_value_network)
     = Raise AttributeError (idle true true [] one_value_network).
Proof.
  split; [reflexivity|].
  apply (close_with_a_value_raises (idle true true [] one_value_network)
           temperature [] eq_refl).
Defined.

End closing_cases.

(** ** The report scheduler *)
Section report_scheduler.
Import value examples.

(** C3, the case against it.  With [period=None], [delta=5] and the samples
    10, 12, 16, 16, 21, the thread has sent nothing after the samples
    reached 16 (the flag is set, the stored difference is |12 - 16| = 4), and
    in the whole run it sends one report, at the turn that reads 21. *)
Lemma delta_report_fires_once_on_the_sample_run :
  sent (state_of (__send_report_thread temperature (take 4 samples))) = []
  /\ difference (self (state_of (__send_report_thread temperature (take 4 samples))))
     = 4%Z
  /\ sent (state_of (__send_report_thread temperature samples))
     = [{| kind := DELTA; sent_at := 5 |}]
  /\ length (sent (state_of (__send_report_thread temperature samples))) = 1.
Proof. repeat split; reflexivity. Qed.

(** C3 as amended.  One turn of the loop of a number value with a delta and
    no period, whose last observed sample is [v], reading [x]: it never
    raises; when [x] differs from [v] the stored difference becomes
    [|v - x|], the distance to the last observed sample and not to the last
    reported one, [x] becomes the last observed sample, and a report is sent
    exactly when that distance is at least the delta; when [x] equals [v] and
    nothing is pending, nothing happens.  On the samples 10, 12, 16, 16, 21
    with delta 5 this sends exactly one report, at the turn that reads 21. *)
Theorem delta_report_compares_with_last_observed_sample :
  (forall (now v x d : Z) (t : thread),
     __is_number_type (self t) = true -> delta (self t) = Some d ->
     period (self t) = None -> local_value t = Some v ->
     let t' := state_of (loop_body now (Some x) t) in
     raised (loop_body now (Some x) t) = None
     /\ (v <> x ->
           local_value t' = Some x
           /\ ((d <= Z.abs (v - x))%Z ->
                 sent t' = sent t ++ [{| kind := DELTA; sent_at := now |}]
                 /\ delta_report (self t') = 0%Z)
           /\ ((Z.abs (v - x) < d)%Z ->
                 sent t' = sent t /\ delta_report (self t') = 1%Z
                 /\ difference (self t') = Z.abs (v - x)))
     /\ (v = x ->
           delta_report (self t) = 0%Z \/ (difference (self t) < d)%Z -> t' = t))
  /\ map sent_at (sent (state_of (__send_report_thread temperature samples))) = [5%Z].
Proof.
  split; [|reflexivity].
  intros now v x d [v0 lv ts out] Hnum Hdelta Hperiod Hlv. simpl in *. subst lv.
  unfold loop_body, observe. simpl. rewrite Hnum.
  destruct (decide (v = x)) as [->|Hne].
  - rewrite bool_decide_eq_false_2 by (intros H; by apply H).
    simpl. split; [done|]. split; [done|]. intros _ Hidle.
    unfold send_report_period, __send_report_delta. simpl.
    rewrite Hdelta.
    assert ((d <=? difference v0)%Z && (delta_report v0 =? 1)%Z = false) as ->.
    { apply andb_false_iff. destruct Hidle as [H0|Hlt].
      - right. rewrite H0. reflexivity.
      - left. apply Z.leb_gt. exact Hlt. }
    simpl. by rewrite Hperiod.
  - rewrite bool_decide_eq_true_2 by done.
    simpl. split; [done|]. split; [|done]. intros _.
    unfold send_report_period, __send_report_delta. simpl. rewrite Hdelta.
    destruct (d <=? Z.abs (v - x))%Z eqn:Hcmp; simpl; rewrite Hperiod; simpl.
    + apply Z.leb_le in Hcmp. split; [done|]. split; [done|]. lia.
    + apply Z.leb_gt in Hcmp. split; [done|]. split; [lia|]. done.
Qed.

Lemma delta_report_compares_with_last_observed_sample_witness :
  sent (state_of (loop_body 3
                    (Some 16%Z)
                    {| self := temperature; local_value := Some 12%Z;
                       state_timestamp := 0; sent := [] |}))
  = [].
Proof.
  destruct delta_report_compares_with_last_observed_sample as [Hrule _].
  destruct (Hrule 3%Z 12%Z 16%Z 5%Z
              {| self := temperature; local_value := Some 12%Z;
                 state_timestamp := 0; sent := [] |}
              eq_refl eq_refl eq_refl eq_refl) as (_ & Hchange & _).
  destruct Hchange as (_ & _ & Hbelow); [discriminate|].
  destruct Hbelow as (Hsent & _); [reflexivity|].
  exact Hsent.
Defined.

End report_scheduler.

(** ** The offline log *)
Section offline_log.
Import message_log.
Implicit Types (self : MessageLog) (w : os) (files : list file).

(** Under drop-newest (and under any action other than evict-oldest) a
    message that does not fit is dropped: the directory is as before and
    nothing is raised. *)
Lemma add_message_at_drops_newest depth self w data files :
  log_offline self = true ->
  (log_data_limit self < Z.of_nat (get_size files (dumps data)))%Z ->
  limit_action self <> REMOVE_OLD ->
  add_message_at (S depth) self w data files = Done files.
Proof.
  intros Hon Hover Haction. simpl. rewrite Hon.
  assert ((Z.of_nat (get_size files (dumps data)) <=? log_data_limit self)%Z = false)
    as -> by by apply Z.leb_gt.
  assert ((limit_action self =? REMOVE_OLD)%Z = false) as ->
    by by apply Z.eqb_neq.
  done.
Qed.

(** Under evict-oldest a message that does not fit makes the log trim the
    file [get_oldest_log] names and try again. *)
Lemma add_message_at_evicts_and_retries depth self w data files files1 name files2 :
  log_offline self = true ->
  (log_data_limit self < Z.of_nat (get_size files (dumps data)))%Z ->
  limit_action self = REMOVE_OLD ->
  get_oldest_log files = Done (files1, name) ->
  remove_first_lines self name files1 = Done files2 ->
  add_message_at (S depth) self w data files
  = except_FileNotFoundError (add_message_at depth self w data files2).
Proof.
  intros Hon Hover Haction Hold Htrim. simpl. rewrite Hon.
  assert ((Z.of_nat (get_size files (dumps data)) <=? log_data_limit self)%Z = false)
    as -> by by apply Z.leb_gt.
  by rewrite Haction, Hold, Htrim.
Qed.

Lemma sum_list_snoc (l : list nat) (n : nat) : sum_list (l ++ [n]) = sum_list l + n.
Proof. induction l as [|m l IH]; simpl; lia. Qed.

Lemma footprint_write_file name c files :
  footprint (write_file name c files) + default 0 (getsize <$> lookup_file name files)
  = footprint files + getsize c.
Proof.
  unfold footprint. induction files as [|f files IH]; simpl; [lia|].
  destruct (String.eqb (file_name f) name); simpl; lia.
Qed.

Lemma footprint_append_line name line files :
  footprint (append_line name line files)
  = footprint files + String.length line + 1.
Proof.
  unfold append_line.
  pose proof (footprint_write_file name) as Hw.
  destruct (lookup_file name files) as [[lines|size members]|] eqn:Hlook.
  - specialize (Hw (Text (lines ++ [line])) files). rewrite Hlook in Hw.
    simpl in Hw. rewrite map_app in Hw. simpl in Hw.
    rewrite sum_list_snoc in Hw. lia.
  - specialize (Hw (Zip (size + String.length line + 1) members) files).
    rewrite Hlook in Hw. simpl in Hw. lia.
  - specialize (Hw (Text [line]) files). rewrite Hlook in Hw. simpl in Hw. lia.
Qed.

Lemma string_length_append (a b : string) :
  String.length (a +:+ b) = String.length a + String.length b.
Proof. induction a as [|c a IH]; simpl; [done|]. by rewrite IH. Qed.

(** A message that fits is appended to the day's file, and the directory
    then stays within the limit: the line on disk takes two bytes more than
    the message has characters, and [sys.getsizeof] charged it more. *)
Lemma add_message_at_fits_within_limit depth self w data files :
  log_offline self = true ->
  (Z.of_nat (get_size files (dumps data)) <= log_data_limit self)%Z ->
  isfile (get_log_name w) files = true ->
  add_message_at (S depth) self w data files
  = Done (append_line (get_log_name w) (dumps data +:+ " ") files)
  /\ (Z.of_nat (footprint (append_line (get_log_name w) (dumps data +:+ " ") files))
      <= log_data_limit self)%Z.
Proof.
  intros Hon Hfits Htoday. simpl. rewrite Hon, Htoday.
  assert ((Z.of_nat (get_size files (dumps data)) <=? log_data_limit self)%Z = true)
    as -> by by apply Z.leb_le.
  split; [done|].
  rewrite footprint_append_line, string_length_append. simpl.
  unfold get_size, getsizeof, str_header in Hfits. unfold footprint. lia.
Qed.

End offline_log.

Section offline_log_cases.
Import message_log examples.

(** C4, the failing cases.  The directory holds the compacted log of
    30 September and the log of 1 October, [log_data_limit] is 100 and the
    policy is evict-oldest.  [get_oldest_log] sorts the names as strings, so
    the file it takes for the oldest is the one of 1 October ("1" sorts
    before "9"): a message that does not fit makes [add_message] delete both
    lines of the newest log and leave the oldest one alone.  And with an
    empty directory, logging a message that [json.dumps] prints in 80
    characters raises [IndexError] out of [add_message]: [get_size] charges
    it [sys.getsizeof] = 129 bytes, and there is no log to take index 0
    of. *)
Theorem add_message_evicts_newest_log_first :
  sort (get_logs two_days) = ["2020-10-1.txt"; "2020-9-30.zip"]
  /\ get_oldest_log two_days = Done (two_days, "2020-10-1.txt")
  /\ add_message evict_oldest_100 (small_message 5) (october_first two_days)
     = Done (october_first
               [ {| file_name := "2020-9-30.zip";
                    file_content :=
                      Zip 30 [("2020-9-30.txt",
                               [logged (small_message 1); logged (small_message 2)])] |};
                 {| file_name := "2020-10-1.txt";
                    file_content := Text [logged (small_message 5)] |} ])
  /\ String.length (dumps printed_in_80) = 80
  /\ get_size [] (dumps printed_in_80) = 129
  /\ add_message evict_oldest_100 printed_in_80 (october_first [])
     = Raise IndexError (october_first []).
Proof. repeat split; vm_compute; reflexivity. Qed.

(** The scenario of the byte limit read with the log's own measure: two
    messages that [get_size] charges 80 bytes each, limit 100, evict-oldest
    removing two lines at a time.  The first call writes the day's file; the
    second does not fit, deletes that file (its only line), tries again and
    writes; the directory then holds 33 bytes. *)
Lemma add_message_twice_under_the_limit :
  getsizeof (dumps measured_at_80) = 80
  /\ add_message evict_oldest_100 measured_at_80 (october_first [])
     = Done (october_first
               [ {| file_name := "2020-10-1.txt";
                    file_content := Text [logged measured_at_80] |} ])
  /\ get_oldest_log [ {| file_name := "2020-10-1.txt";
                         file_content := Text [logged measured_at_80] |} ]
     = Done ([ {| file_name := "2020-10-1.txt";
                  file_content := Text [logged measured_at_80] |} ],
             "2020-10-1.txt")
  /\ add_message evict_oldest_100 measured_at_80
       (october_first
          [ {| file_name := "2020-10-1.txt";
               file_content := Text [logged measured_at_80] |} ])
     = Done (october_first
               [ {| file_name := "2020-10-1.txt";
                    file_content := Text [logged measured_at_80] |} ])
  /\ footprint [ {| file_name := "2020-10-1.txt";
                    file_content := Text [logged measured_at_80] |} ] = 33.
Proof. repeat split; vm_compute; reflexivity. Qed.

Lemma add_message_at_fits_within_limit_witness :
  add_message_at 1 evict_oldest_100
    (october_first [ {| file_name := "2020-10-1.txt"; file_content := Text [] |} ])
    (small_message 5)
    [ {| file_name := "2020-10-1.txt"; file_content := Text [] |} ]
  = Done [ {| file_name := "2020-10-1.txt";
              file_content := Text [logged (small_message 5)] |} ].
Proof.
  apply (add_message_at_fits_within_limit 0 evict_oldest_100
           (october_first [ {| file_name := "2020-10-1.txt"; file_content := Text [] |} ])
           (small_message 5)
           [ {| file_name := "2020-10-1.txt"; file_content := Text [] |} ]).
  - reflexivity.
  - vm_compute. discriminate.
  - reflexivity.
Defined.

Lemma add_message_at_evicts_and_retries_witness :
  add_message_at 3 evict_oldest_100 (october_first two_days) (small_message 5) two_days
  = except_FileNotFoundError
      (add_message_at 2 evict_oldest_100 (october_first two_days) (small_message 5)
         [ {| file_name := "2020-9-30.zip";
              file_content :=
                Zip 30 [("2020-9-30.txt",
                         [logged (small_message 1); logged (small_message 2)])] |} ]).
Proof.
  apply (add_message_at_evicts_and_retries 2 evict_oldest_100
           (october_first two_days) (small_message 5) two_days two_days
           "2020-10-1.txt").
  - reflexivity.
  - vm_compute. reflexivity.
  - reflexivity.
  - vm_compute. reflexivity.
  - vm_compute. reflexivity.
Defined.

Lemma add_message_at_drops_newest_witness :
  add_message_at 1
    {| log_offline := true; log_data_limit := 100;
       limit_action := REMOVE_RECENT; lines_to_remove := 1 |}
    (october_first two_days) (small_message 5) two_days
  = Done two_days.
Proof.
  apply (add_message_at_drops_newest 0
           {| log_offline := true; log_data_limit := 100;
              limit_action := REMOVE_RECENT; lines_to_remove := 1 |}
           (october_first two_days) (small_message 5) two_days).
  - reflexivity.
  - vm_compute. reflexivity.
  - discriminate.
Defined.

End offline_log_cases.

(* ===================================================================== *)
(** * Part II, continued. Refinement, termination, replies, reconnection *)
(* ===================================================================== *)

(** ** Stripping: where the code meets the specification's wording *)
Section stripping_refinement.
Import communication spec stripping.

Lemma get_object_without_none_values_dict fields :
  get_object_without_none_values (JDict fields)
  = match strip_items fields with
    | Done fields' => Done (JDict fields')
    | Raise e fields' => Raise e (JDict fields')
    end.
Proof.
  simpl.
  match goal with
  | |- match ?F fields with _ => _ end = _ =>
      assert (forall todo, F todo = strip_items todo) as ->; [|done]
  end.
  induction todo as [|[key val] rest IH]; [done|].
  simpl. rewrite IH. by destruct val.
Qed.

Lemma strip_loop_without_removal (strip : json -> outcome json) front todo :
  Forall (fun x => exists x', strip x = Done x' /\ len0 x' = false) todo ->
  strip_loop strip front todo = Done (front ++ map (fun x => state_of (strip x)) todo).
Proof.
  revert front. induction todo as [|x todo IH]; intros front Hall.
  - simpl. by rewrite app_nil_r.
  - apply Forall_cons in Hall as [(x' & Hx & Hlen) Hall].
    simpl. rewrite Hx, Hlen. simpl.
    rewrite IH by done. by rewrite <- app_assoc.
Qed.

Lemma spec_strip_dict_empty fields :
  is_null_or_empty (spec_strip (JDict fields)) = len0 (spec_strip (JDict fields)).
Proof. simpl. by destruct (List.filter _ _). Qed.

Lemma strip_loop_regular items :
  Forall (fun x => regular x = true -> is_dict x = true ->
                   get_object_without_none_values x = Done (spec_strip x)) items ->
  regular (JList items) = true ->
  strip_loop get_object_without_none_values [] items = Done (map spec_strip items)
  /\ List.filter (fun x => negb (is_null_or_empty x)) (map spec_strip items)
     = map spec_strip items.
Proof.
  intros IH Hreg. simpl in Hreg.
  assert (Forall (fun x => get_object_without_none_values x = Done (spec_strip x)
                           /\ is_null_or_empty (spec_strip x) = false
                           /\ len0 (spec_strip x) = false) items) as Hall.
  { induction items as [|x items IHitems]; [constructor|].
    simpl in Hreg. apply andb_true_iff in Hreg as [Hx Hrest].
    apply andb_true_iff in Hx as [Hx Hne]. apply andb_true_iff in Hx as [Hd Hr].
    apply Forall_cons in IH as [IHx IH].
    apply negb_true_iff in Hne.
    constructor; [|by apply IHitems].
    split; [by apply IHx|]. split; [done|].
    destruct x; first [done | by rewrite <- spec_strip_dict_empty]. }
  split.
  - rewrite strip_loop_without_removal.
    + simpl. f_equal. apply map_ext_Forall.
      eapply Forall_impl; [exact Hall|]. intros x (-> & _). done.
    + eapply Forall_impl; [exact Hall|]. intros x (Hx & _ & Hl). eauto.
  - clear IH Hreg. induction items as [|x items IHitems]; [done|].
    apply Forall_cons in Hall as [(_ & Hne & _) Hall].
    simpl. rewrite Hne. simpl. by rewrite IHitems.
Qed.

Lemma strip_meets_spec_by_shape o :
  regular o = true ->
  match o with
  | JDict _ => get_object_without_none_values o = Done (spec_strip o)
  | JList items =>
      strip_loop get_object_without_none_values [] items = Done (map spec_strip items)
      /\ List.filter (fun x => negb (is_null_or_empty x)) (map spec_strip items)
         = map spec_strip items
  | _ => True
  end.
Proof.
  induction o as [| | | |items IH|fields IH] using json_induction; try done.
  - intros Hreg. apply strip_loop_regular; [|done].
    eapply Forall_impl; [exact IH|]. intros x Hx Hr Hd.
    specialize (Hx Hr). by destruct x.
  - intros Hreg. rewrite get_object_without_none_values_dict.
    assert (strip_items fields
            = Done (List.filter (fun kv => negb (is_null_or_empty (snd kv)))
                      (map (fun kv => match kv with (k, v) => (k, spec_strip v) end)
                           fields)))
      as ->; [|done].
    simpl in Hreg.
    induction fields as [|[key val] rest IHrest]; [done|].
    simpl in Hreg. apply andb_true_iff in Hreg as [Hval Hrest].
    apply Forall_cons in IH as [IHval IH]. simpl in IHval.
    specialize (IHrest IH Hrest). specialize (IHval Hval).
    destruct val as [|b|n|s|items|sub].
    + simpl. exact IHrest.
    + simpl. by rewrite IHrest.
    + simpl. by rewrite IHrest.
    + simpl. by rewrite IHrest.
    + destruct IHval as [Hloop Hkeep].
      cbn [strip_items]. rewrite Hloop.
      cbn [map List.filter snd spec_strip]. rewrite Hkeep.
      destruct (map spec_strip items); simpl; [done|]. by rewrite IHrest.
    + cbn [strip_items]. rewrite IHval.
      cbn [map]. cbn [List.filter snd]. rewrite spec_strip_dict_empty.
      destruct (len0 (spec_strip (JDict sub))); simpl; [done|]. by rewrite IHrest.
Qed.

(** On a request in which every list, at any depth, holds only dicts that
    are not empty once stripped, [get_object_without_none_values] returns
    and leaves exactly what the specification's stripping leaves. *)
Theorem get_object_without_none_values_meets_spec fields :
  regular (JDict fields) = true ->
  get_object_without_none_values (JDict fields) = Done (spec_strip (JDict fields)).
Proof. apply (strip_meets_spec_by_shape (JDict fields)). Qed.

Lemma strip_batch_regular batch :
  regular (JList batch) = true ->
  strip_loop get_object_without_none_values [] batch = Done (spec_strip_batch batch).
Proof.
  intros Hreg. destruct (strip_meets_spec_by_shape (JList batch) Hreg) as [-> Hkeep].
  unfold spec_strip_batch. by rewrite Hkeep.
Qed.

(** A list value whose first element is not a dict makes
    [get_object_without_none_values] raise [AttributeError] with the request
    as it was, whatever atoms precede that key. *)
Theorem get_object_without_none_values_raises_on_list_of_atoms
    before key x rest after :
  forallb (fun kv => is_atom (snd kv)) before = true ->
  is_dict x = false ->
  get_object_without_none_values
    (JDict (before ++ (key, JList (x :: rest)) :: after))
  = Raise AttributeError (JDict (before ++ (key, JList (x :: rest)) :: after)).
Proof.
  intros Hatoms Hx. rewrite get_object_without_none_values_dict.
  assert (strip_items (before ++ (key, JList (x :: rest)) :: after)
          = Raise AttributeError (before ++ (key, JList (x :: rest)) :: after))
    as ->; [|done].
  induction before as [|[k v] before IH].
  - simpl. by destruct x.
  - simpl in Hatoms. apply andb_true_iff in Hatoms as [Hv Hatoms].
    specialize (IH Hatoms).
    destruct v; try done; simpl; by rewrite IH.
Qed.

End stripping_refinement.

Section stripping_refinement_send.
Import communication spec stripping.
Context {E : Type}.
Variable add_message : json -> E -> outcome E.

(** A flush of a batch in which no request and no list element is empty
    once stripped (and lists hold only dicts): the batch list [send_data]
    leaves is the specification's stripped batch, and when the connection is
    down that list is what [add_message] gets. *)
Theorem send_data_strips_regular_batch_as_spec (s : @ClientSocket E) :
  regular (JList (bulk_send_list s)) = true ->
  bulk_send_list (state_of (send_data add_message s))
  = spec_strip_batch (bulk_send_list s)
  /\ (connected s = false ->
        event_storage (state_of (send_data add_message s))
        = state_of (add_message (JList (spec_strip_batch (bulk_send_list s)))
                      (event_storage s))).
Proof.
  intros Hreg. pose proof (strip_batch_regular _ Hreg) as Hstrip.
  split.
  - by apply send_data_bulk.
  - intros Hoff. unfold send_data. rewrite Hstrip. simpl. rewrite Hoff.
    by destruct (add_message _ _).
Qed.

End stripping_refinement_send.

(** ** The offline log: eviction *)
Section eviction_facts.
Import message_log eviction.
Implicit Types (self : MessageLog) (w : os) (files : list file).

Lemma evictable_write_file name c files :
  evictable (write_file name c files) + default 0 (weight <$> lookup_file name files)
  = evictable files + weight c.
Proof.
  unfold evictable. induction files as [|f files IH]; simpl; [lia|].
  destruct (String.eqb (file_name f) name); simpl; lia.
Qed.

Lemma evictable_remove_file name c files :
  lookup_file name files = Some c ->
  evictable (remove_file name files) + weight c = evictable files.
Proof.
  unfold evictable. induction files as [|f files IH]; simpl; [done|].
  destruct (String.eqb (file_name f) name).
  - intros [= <-]. lia.
  - intros H. specialize (IH H). simpl. lia.
Qed.

Lemma lookup_write_file name name' c files :
  lookup_file name (write_file name' c files)
  = if String.eqb name' name then Some c else lookup_file name files.
Proof.
  induction files as [|f files IH]; simpl.
  - by destruct (String.eqb name' name).
  - destruct (String.eqb (file_name f) name') eqn:Hf; simpl.
    + apply String.eqb_eq in Hf. rewrite Hf.
      by destruct (String.eqb name' name).
    + destruct (String.eqb (file_name f) name) eqn:Hn; [|done].
      apply String.eqb_eq in Hn. rewrite Hn in Hf.
      rewrite String.eqb_sym in Hf. by rewrite Hf.
Qed.

Lemma remove_write_same name c files :
  lookup_file name files <> None ->
  remove_file name (write_file name c files) = remove_file name files.
Proof.
  induction files as [|f files IH]; simpl; [done|].
  destruct (String.eqb (file_name f) name) eqn:Hf; simpl.
  - by rewrite String.eqb_refl.
  - intros H. rewrite Hf. by rewrite IH.
Qed.

Lemma remove_write_other name name' c files :
  name' <> name ->
  lookup_file name files <> None ->
  remove_file name (write_file name' c files)
  = write_file name' c (remove_file name files).
Proof.
  intros Hne. induction files as [|f files IH]; simpl; [done|].
  destruct (String.eqb (file_name f) name') eqn:Hf; simpl.
  - apply String.eqb_eq in Hf.
    assert (String.eqb name' name = false) as Hnn by by apply String.eqb_neq.
    rewrite Hnn. rewrite Hf, Hnn. simpl. by rewrite Hf, String.eqb_refl.
  - destruct (String.eqb (file_name f) name) eqn:Hn; [done|].
    intros H. simpl. rewrite Hf. by rewrite IH.
Qed.

Lemma evictable_extract name members files :
  lookup_file name files <> None ->
  evictable (remove_file name
               (foldl (fun fs m => write_file (fst m) (Text (snd m)) fs) files members))
  <= evictable (remove_file name files)
     + sum_list (map (fun m => S (length (snd m))) members).
Proof.
  revert files. induction members as [|[n lines] members IH]; intros files Hin; simpl.
  - lia.
  - assert (lookup_file name (write_file n (Text lines) files) <> None) as Hin'.
    { rewrite lookup_write_file. by destruct (String.eqb n name). }
    specialize (IH _ Hin').
    destruct (decide (n = name)) as [->|Hne].
    + rewrite remove_write_same in IH by done. lia.
    + rewrite remove_write_other in IH by done.
      pose proof (evictable_write_file n (Text lines) (remove_file name files)) as Hw.
      simpl in Hw. lia.
Qed.

Lemma get_text_log_evictable name files files1 name1 :
  get_text_log name files = Done (files1, name1) ->
  evictable files1 <= evictable files.
Proof.
  unfold get_text_log. destruct (search_dot_ext "zip" name).
  - destruct (lookup_file name files) as [[lines|size members]|] eqn:Hlook; try done.
    intros [= <- <-].
    pose proof (evictable_extract name members files) as Hx.
    pose proof (evictable_remove_file name _ files Hlook) as Hr. simpl in Hr.
    rewrite Hlook in Hx. specialize (Hx ltac:(done)). lia.
  - by intros [= <- <-].
Qed.

Lemma get_oldest_log_evictable files files1 name1 :
  get_oldest_log files = Done (files1, name1) ->
  evictable files1 <= evictable files.
Proof.
  unfold get_oldest_log. destruct (sort (get_logs files)); [done|].
  apply get_text_log_evictable.
Qed.

Lemma slice_from_length (k : Z) (lines : list string) :
  (0 <= k)%Z -> length (slice_from k lines) = length lines - Z.to_nat k.
Proof.
  intros Hk. unfold slice_from.
  assert ((k <? 0)%Z = false) as -> by by apply Z.ltb_ge.
  by rewrite length_drop.
Qed.

Lemma remove_first_lines_evictable self name files files' :
  (1 <= lines_to_remove self)%Z ->
  remove_first_lines self name files = Done files' ->
  evictable files' < evictable files.
Proof.
  intros Hk. unfold remove_first_lines.
  destruct (lookup_file name files) as [[lines|size members]|] eqn:Hlook; try done.
  destruct (lines_to_remove self <? Z.of_nat (length lines))%Z eqn:Hlt.
  - intros [= <-]. apply Z.ltb_lt in Hlt.
    pose proof (evictable_write_file name (Text (slice_from (lines_to_remove self) lines))
                  files) as Hw.
    rewrite Hlook in Hw. simpl in Hw. rewrite slice_from_length in Hw by lia. lia.
  - intros [= <-].
    pose proof (evictable_remove_file name _ files Hlook) as Hr. simpl in Hr. lia.
Qed.

Lemma add_message_at_S depth self w data files :
  add_message_at (S depth) self w data files
  = if log_offline self then
      except_FileNotFoundError
        (if (Z.of_nat (get_size files (dumps data)) <=? log_data_limit self)%Z then
           Done (append_line (get_log_name w) (dumps data +:+ " ")
                   (if isfile (get_log_name w) files then files
                    else compact_logs w files))
         else if (limit_action self =? REMOVE_OLD)%Z then
           match get_oldest_log files with
           | Raise e (files1, _) => Raise e files1
           | Done (files1, name) =>
               match remove_first_lines self name files1 with
               | Raise e files2 => Raise e files2
               | Done files2 => add_message_at depth self w data files2
               end
           end
         else Done files)
    else Done files.
Proof. reflexivity. Qed.

Lemma get_oldest_log_raises files e files1 name :
  get_oldest_log files = Raise e (files1, name) -> e <> RecursionError.
Proof.
  unfold get_oldest_log, get_text_log. destruct (sort (get_logs files)) as [|first ?].
  - by intros [= <- _].
  - destruct (search_dot_ext "zip" first); [|done].
    destruct (lookup_file first files) as [[?|? ?]|]; try done; by intros [= <- _].
Qed.

Lemma remove_first_lines_raises self name files e files' :
  remove_first_lines self name files = Raise e files' -> e <> RecursionError.
Proof.
  unfold remove_first_lines.
  destruct (lookup_file name files) as [[?|? ?]|]; try (by intros [= <- _]).
  by destruct (_ <? _)%Z.
Qed.

(** One more level of recursion changes nothing once the depth is above
    what is left to evict. *)
Lemma add_message_at_one_deeper depth self w data files :
  (1 <= lines_to_remove self)%Z ->
  evictable files < depth ->
  add_message_at depth self w data files = add_message_at (S depth) self w data files
  /\ raised (add_message_at depth self w data files) <> Some RecursionError.
Proof.
  intros Hk. revert files. induction depth as [|depth IH]; intros files Hd; [lia|].
  rewrite (add_message_at_S (S depth)), (add_message_at_S depth).
  destruct (log_offline self); [|done].
  destruct (Z.of_nat (get_size files (dumps data)) <=? log_data_limit self)%Z; [done|].
  destruct (limit_action self =? REMOVE_OLD)%Z; [|done].
  destruct (get_oldest_log files) as [[files1 name]|e [files1 name]] eqn:Hold.
  2:{ split; [done|]. apply get_oldest_log_raises in Hold.
      destruct e; simpl; congruence. }
  apply get_oldest_log_evictable in Hold.
  destruct (remove_first_lines self name files1) as [files2|e files2] eqn:Htrim.
  2:{ split; [done|]. apply remove_first_lines_raises in Htrim.
      destruct e; simpl; congruence. }
  apply remove_first_lines_evictable in Htrim; [|done].
  destruct (IH files2 ltac:(lia)) as [Heq Hne].
  split.
  - by rewrite <- Heq.
  - destruct (add_message_at depth self w data files2) as [?|[] ?]; simpl in *; done.
Qed.

(** Eviction ends: when [lines_to_remove] is at least 1, a recursion depth
    above the number of files and lines of the directory is never used up,
    and any deeper limit gives the same result. *)
Theorem add_message_at_eviction_terminates depth depth' self w data files :
  (1 <= lines_to_remove self)%Z ->
  evictable files < depth ->
  depth <= depth' ->
  add_message_at depth' self w data files = add_message_at depth self w data files
  /\ raised (add_message_at depth' self w data files) <> Some RecursionError.
Proof.
  intros Hk Hd Hle.
  assert (add_message_at depth' self w data files = add_message_at depth self w data files)
    as Heq.
  { induction Hle as [|depth' Hle IH]; [done|].
    rewrite <- IH. symmetry. apply add_message_at_one_deeper; [done|lia]. }
  split; [done|]. rewrite Heq. by apply add_message_at_one_deeper.
Qed.

Lemma write_file_same name c files :
  lookup_file name files = Some c -> write_file name c files = files.
Proof.
  induction files as [|[n c'] files IH]; simpl; [done|].
  destruct (String.eqb n name) eqn:Hn.
  - apply String.eqb_eq in Hn. by intros [= ->]; subst.
  - intros H. by rewrite IH.
Qed.

(** With [lines_to_remove = 0] eviction removes nothing: when the message
    does not fit and the oldest log is a text file with a line in it,
    [add_message] asks for the same eviction again and again, and ends in
    [RecursionError] whatever depth the interpreter allows. *)
Theorem add_message_at_removing_no_lines_recurses depth self w data files name lines :
  log_offline self = true ->
  limit_action self = REMOVE_OLD ->
  lines_to_remove self = 0%Z ->
  (log_data_limit self < Z.of_nat (get_size files (dumps data)))%Z ->
  get_oldest_log files = Done (files, name) ->
  lookup_file name files = Some (Text lines) ->
  lines <> [] ->
  add_message_at depth self w data files = Raise RecursionError files.
Proof.
  intros Hon Haction Hk Hover Hold Hlook Hlines.
  induction depth as [|depth IH]; [done|].
  rewrite add_message_at_S, Hon, Haction, Hold.
  assert ((Z.of_nat (get_size files (dumps data)) <=? log_data_limit self)%Z = false)
    as -> by by apply Z.leb_gt.
  unfold remove_first_lines. rewrite Hlook, Hk.
  assert ((0 <? Z.of_nat (length lines))%Z = true) as ->.
  { apply Z.ltb_lt. destruct lines; [done|]. simpl. lia. }
  unfold slice_from. simpl. rewrite drop_0, write_file_same by done.
  by rewrite IH.
Qed.

(** Evict-oldest needs a log to evict from: when no file of the directory
    has a log's name, a message that does not fit makes [add_message] raise
    [IndexError]; the files that fill the directory are left as they are. *)
Theorem add_message_at_without_logs_raises depth self w data files :
  log_offline self = true ->
  limit_action self = REMOVE_OLD ->
  (log_data_limit self < Z.of_nat (get_size files (dumps data)))%Z ->
  get_logs files = [] ->
  add_message_at (S depth) self w data files = Raise IndexError files.
Proof.
  intros Hon Haction Hover Hnone.
  rewrite add_message_at_S, Hon, Haction.
  assert ((Z.of_nat (get_size files (dumps data)) <=? log_data_limit self)%Z = false)
    as -> by by apply Z.leb_gt.
  unfold get_oldest_log. by rewrite Hnone.
Qed.

Lemma sum_list_drop_le (k : nat) (l : list nat) : sum_list (drop k l) <= sum_list l.
Proof.
  revert k. induction l as [|x l IH]; intros [|k]; simpl; try lia.
  specialize (IH k). lia.
Qed.

(** [remove_first_lines] on a text file with more than [lines_to_remove]
    lines: the file keeps the lines after the first [lines_to_remove], every
    other file is as before, and the directory does not grow. *)
Theorem remove_first_lines_keeps_the_rest self name files lines :
  lookup_file name files = Some (Text lines) ->
  (0 <= lines_to_remove self < Z.of_nat (length lines))%Z ->
  exists files',
    remove_first_lines self name files = Done files'
    /\ lookup_file name files' = Some (Text (drop (Z.to_nat (lines_to_remove self)) lines))
    /\ (forall other, other <> name -> lookup_file other files' = lookup_file other files)
    /\ footprint files' <= footprint files.
Proof.
  intros Hlook [Hk Hlt]. unfold remove_first_lines. rewrite Hlook.
  assert ((lines_to_remove self <? Z.of_nat (length lines))%Z = true) as ->
    by by apply Z.ltb_lt.
  unfold slice_from.
  assert ((lines_to_remove self <? 0)%Z = false) as -> by by apply Z.ltb_ge.
  eexists. split; [done|]. split; [|split].
  - by rewrite lookup_write_file, String.eqb_refl.
  - intros other Hne. rewrite lookup_write_file.
    assert (String.eqb name other = false) as ->; [|done].
    apply String.eqb_neq. congruence.
  - pose proof (footprint_write_file name
                  (Text (drop (Z.to_nat (lines_to_remove self)) lines)) files) as Hw.
    rewrite Hlook in Hw. simpl in Hw.
    rewrite <- List.skipn_map in Hw.
    pose proof (sum_list_drop_le (Z.to_nat (lines_to_remove self))
                  (map (fun l => String.length l + 1) lines)).
    lia.
Qed.

End eviction_facts.

(** ** The report thread: periods and the thread's end *)
Section schedule_facts.
Import value schedule.

Lemma spaced_snoc p last rs r :
  spaced p last (rs ++ [r])
  = spaced p last rs && (last_sent last rs + p <=? sent_at r)%Z.
Proof.
  revert last. induction rs as [|r0 rs IH]; intros last; simpl.
  - by rewrite andb_true_r.
  - rewrite IH. unfold last_sent. by rewrite andb_assoc.
Qed.

Lemma last_sent_snoc last rs r : last_sent last (rs ++ [r]) = sent_at r.
Proof. unfold last_sent. by rewrite foldl_app. Qed.

Lemma observe_keeps sample t t' :
  observe sample t = Done t' ->
  period (self t') = period (self t) /\ delta (self t') = delta (self t)
  /\ last_update_of_report (self t') = last_update_of_report (self t)
  /\ sent t' = sent t.
Proof.
  unfold observe. destruct sample as [x|]; [|by intros [= <-]].
  destruct (__is_number_type (self t)); [|by intros [= <-]].
  destruct (local_value t) as [v|]; [|done].
  destruct (bool_decide (v ≠ x)); by intros [= <-].
Qed.

(** A thread with a period and no delta: whatever it reads, and however
    long it runs, every report it sends is a PERIOD report, the first one at
    least [period] seconds after [last_update_of_report] and each one at
    least [period] seconds after the one before. *)
Theorem period_reports_are_a_period_apart p turns t :
  period (self t) = Some p ->
  delta (self t) = None ->
  sent t = [] ->
  spaced p (last_update_of_report (self t)) (sent (state_of (loop turns t))) = true
  /\ Forall (fun r => kind r = PERIOD) (sent (state_of (loop turns t))).
Proof.
  intros Hp Hd Hsent.
  set (last := last_update_of_report (self t)).
  assert (spaced p last (sent t) = true
          /\ Forall (fun r => kind r = PERIOD) (sent t)
          /\ last_update_of_report (self t) = last_sent last (sent t)) as Hinv.
  { rewrite Hsent. done. }
  clearbody last. clear Hsent.
  revert t Hp Hd Hinv. induction turns as [|[now sample] turns IH];
    intros t Hp Hd (Hsp & Hall & Hlast); [done|].
  simpl. unfold loop_body.
  destruct (observe sample t) as [t1|e t1] eqn:Hobs.
  2:{ simpl. unfold observe in Hobs.
      destruct sample as [x|]; [|done].
      destruct (__is_number_type (self t)); [|done].
      destruct (local_value t) as [v|]; [by destruct (bool_decide _)|].
      by injection Hobs as <- <-. }
  apply observe_keeps in Hobs as (Hp1 & Hd1 & Hl1 & Hs1).
  apply IH.
  - unfold send_report_period, __send_report_delta. rewrite Hd1, Hd. rewrite Hp1, Hp.
    destruct (_ <=? _)%Z; simpl; by rewrite ?Hp1, ?Hp.
  - unfold send_report_period, __send_report_delta. rewrite Hd1, Hd. rewrite Hp1, Hp.
    destruct (_ <=? _)%Z; simpl; by rewrite ?Hd1, ?Hd.
  - unfold send_report_period, __send_report_delta. rewrite Hd1, Hd. rewrite Hp1, Hp.
    destruct (last_update_of_report (self t1) + p <=? now)%Z eqn:Hdue; simpl.
    + rewrite Hs1, spaced_snoc, last_sent_snoc, Hsp. simpl.
      rewrite <- Hlast, <- Hl1, Hdue. split; [done|]. split; [|done].
      apply Forall_app. split; [done|]. by constructor.
    + by rewrite Hs1, Hl1.
Qed.

(** With the three readings at one time the turn is [value.loop_body]. *)
Lemma loop_body_at_one_reading now sample t :
  loop_body_at {| at_delta := now; at_check := now; at_stamp := now |} sample t
  = loop_body now sample t.
Proof. done. Qed.

(** A turn during which the clock advances by less than the period, from
    the reading that stamps the delta report to the reading the period rule
    compares, sends at most one report: once the delta rule has sent,
    [last_update_of_report] is its stamp and the report is not due by the
    period rule. *)
Theorem loop_body_at_sends_at_most_one_report p c sample t :
  period (self t) = Some p ->
  (at_check c < at_delta c + p)%Z ->
  length (sent (state_of (loop_body_at c sample t))) <= S (length (sent t)).
Proof.
  intros Hp Hshort. unfold loop_body_at.
  destruct (observe sample t) as [t1|e t1] eqn:Hobs.
  2:{ simpl. unfold observe in Hobs.
      destruct sample as [x|]; [|done].
      destruct (__is_number_type (self t)); [|done].
      destruct (local_value t) as [v|]; [by destruct (bool_decide _)|].
      injection Hobs as <- <-. lia. }
  apply observe_keeps in Hobs as (Hp1 & Hd1 & Hl1 & Hs1).
  simpl. unfold send_report_period_at, __send_report_delta.
  destruct (delta (self t1)) as [d|].
  - destruct ((d <=? difference (self t1))%Z && (delta_report (self t1) =? 1)%Z); simpl.
    + rewrite Hp1, Hp.
      assert ((at_delta c + p <=? at_check c)%Z = false) as -> by (apply Z.leb_gt; lia).
      simpl. rewrite length_app, Hs1. simpl. lia.
    + rewrite Hp1, Hp. destruct (_ <=? _)%Z; simpl; rewrite ?length_app, Hs1; simpl; lia.
  - rewrite Hp1, Hp. destruct (_ <=? _)%Z; simpl; rewrite ?length_app, Hs1; simpl; lia.
Qed.

Lemma loop_body_keeps now sample t t' :
  loop_body now sample t = Done t' ->
  __is_number_type (self t') = __is_number_type (self t)
  /\ (local_value t = None -> sample = None /\ local_value t' = None \/ __is_number_type (self t) = false /\ local_value t' = None)
  /\ (local_value t <> None -> local_value t' <> None).
Proof.
  unfold loop_body. destruct (observe sample t) as [t1|e t1] eqn:Hobs; [|done].
  intros [= <-].
  assert (__is_number_type (self t1) = __is_number_type (self t)
          /\ (local_value t = None ->
              sample = None /\ local_value t1 = None
              \/ __is_number_type (self t) = false /\ local_value t1 = None)
          /\ (local_value t <> None -> local_value t1 <> None)) as (Hn & Hnone & Hsome).
  { unfold observe in Hobs. destruct sample as [x|]; [|injection Hobs as <-; by auto].
    destruct (__is_number_type (self t)) eqn:Hnum; [|injection Hobs as <-; by auto].
    destruct (local_value t) as [v|] eqn:Hv; [|done].
    destruct (bool_decide (v ≠ x)); injection Hobs as <-; simpl; [done|].
    rewrite Hnum, Hv. done. }
  unfold send_report_period, __send_report_delta.
  destruct (delta (self t1)) as [d|];
    [destruct ((d <=? difference (self t1))%Z && (delta_report (self t1) =? 1)%Z)|];
    simpl; (destruct (period (self t1)) as [p|]; [destruct (_ <=? _)%Z|]); simpl; done.
Qed.

Lemma loop_without_value turns t :
  local_value t = None -> __is_number_type (self t) = true ->
  raised (loop turns t) = if reads_data turns then Some TypeError else None.
Proof.
  revert t. induction turns as [|[now sample] turns IH]; intros t Hv Hnum; [done|].
  cbn [loop]. destruct sample as [x|]; cbn [reads_data existsb snd orb].
  - unfold loop_body, observe. by rewrite Hnum, Hv.
  - destruct (loop_body now None t) as [t'|e t'] eqn:Hbody; [|done].
    apply loop_body_keeps in Hbody as (Hn & Hnone & _).
    apply IH; [|by rewrite Hn].
    destruct (Hnone Hv) as [[_ ?]|[? _]]; [done|congruence].
Qed.

(** A report thread started on a number value whose report state held no
    datum dies of [TypeError] at the first turn that reads one: the local
    [value] is still [None], and [int(value)] raises before the delta and
    period rules of that turn are reached. *)
Theorem send_report_thread_dies_on_first_datum v st turns :
  get_report_state v = Some st ->
  __is_number_type v = true ->
  data st = None ->
  reads_data turns = true ->
  raised (__send_report_thread v turns) = Some TypeError.
Proof.
  intros Hst Hnum Hnone Hreads. unfold __send_report_thread. rewrite Hst, Hnone.
  rewrite loop_without_value by done. by rewrite Hreads.
Qed.

End schedule_facts.

(** ** The receive path *)
Section receive_facts.
Import communication stripping session.
Context {E Obj : Type}.
Variable control_found :
  Obj -> json -> json -> json -> @ClientSocket E -> outcome (@ClientSocket E).
Variable report_found : Obj -> json -> json -> @ClientSocket E -> outcome (@ClientSocket E).
Variable delete_found : Obj -> json -> json -> @ClientSocket E -> outcome (@ClientSocket E).
Variable handle_result : Obj -> json -> @ClientSocket E -> result (@ClientSocket E).

Local Abbreviation receive :=
  (session.receive control_found report_found delete_found handle_result).
Local Abbreviation receive_each :=
  (session.receive_each control_found report_found delete_found handle_result).
Local Abbreviation receive_message :=
  (session.receive_message control_found report_found delete_found
     handle_result).
Implicit Types (s : @ClientSocket E).

Lemma remove_id_from_confirm_list_deletes _id k s :
  hash_key _id = inr k ->
  remove_id_from_confirm_list _id s
  = Done (set_packet_awaiting_confirm (delete k (packet_awaiting_confirm s)) s).
Proof.
  intros Hk. unfold remove_id_from_confirm_list. rewrite Hk.
  destruct (packet_awaiting_confirm s !! k) eqn:Hin; [done|].
  rewrite delete_id by done. by destruct s.
Qed.

(** An error reply acknowledges: a frame that is no request and carries a
    non-empty [error] object is logged, the entry of its id leaves
    [packet_awaiting_confirm], and nothing is put on the sending queue. *)
Theorem receive_error_reply_acknowledges fields decoded_id k error s :
  is_request (JDict fields) = false ->
  get (JDict fields) "id" JNull = inr decoded_id ->
  hash_key decoded_id = inr k ->
  get (JDict fields) "error" (JBool false) = inr (JDict error) ->
  error <> [] ->
  receive (JDict fields) s
  = Returns (set_packet_awaiting_confirm (delete k (packet_awaiting_confirm s))
               (log_error {| log_text := "Error: {}";
                             log_payload := Some (default JNull (assoc "message" error)) |}
                  s)).
Proof.
  intros Hreq Hid Hk Herr Hne.
  unfold is_request in Hreq.
  apply orb_false_iff in Hreq as [Hreq Hdel]. apply orb_false_iff in Hreq as [Hput Hget].
  unfold session.receive.
  assert (truthy (JDict fields) = true) as ->.
  { destruct fields; [|done]. simpl in Herr. by injection Herr. }
  rewrite Hid. unfold receive_try. rewrite Hput, Hget, Hdel, Herr.
  assert (truthy (JDict error) = true) as -> by by destruct error.
  simpl. by rewrite (remove_id_from_confirm_list_deletes _ k).
Qed.

(** A success reply as the server words it, [result.value] being [true] (or
    any true value that is not an object): [receive] subscripts it and
    raises [TypeError]; the state is as before, so the request the reply
    answers stays in [packet_awaiting_confirm]. *)
Theorem receive_result_with_scalar_value_raises fields decoded_id error res v s :
  is_request (JDict fields) = false ->
  get (JDict fields) "id" JNull = inr decoded_id ->
  get (JDict fields) "error" (JBool false) = inr error ->
  truthy error = false ->
  get (JDict fields) "result" (JBool false) = inr (JDict res) ->
  get (JDict res) "value" (JBool false) = inr v ->
  truthy v = true ->
  is_dict v = false ->
  receive (JDict fields) s = Throws (Std TypeError) s.
Proof.
  intros Hreq Hid Herr Hfalse Hres Hval Hv Hnd.
  unfold is_request in Hreq.
  apply orb_false_iff in Hreq as [Hreq Hdel]. apply orb_false_iff in Hreq as [Hput Hget].
  unfold session.receive.
  assert (truthy (JDict fields) = true) as ->.
  { destruct fields; [|done]. simpl in Hres. by injection Hres. }
  rewrite Hid. unfold receive_try. rewrite Hput, Hget, Hdel, Herr, Hfalse, Hres.
  assert (truthy (JDict res) = true) as ->.
  { destruct res; [|done]. simpl in Hval. injection Hval as <-. done. }
  rewrite Hval, Hv. by destruct v.
Qed.

(** A result that carries an object: once its [meta.id] and [data] are
    read, [receive] looks the object up with [self.data_manager.get_by_id],
    which [DataManager] does not have, and the call raises [TypeError]; the
    [except ValueError] clause does not catch it.  The state is as before,
    so the request the reply answers stays in [packet_awaiting_confirm]. *)
Theorem receive_result_with_object_value_raises fields decoded_id error res v meta uuid
    data s :
  is_request (JDict fields) = false ->
  get (JDict fields) "id" JNull = inr decoded_id ->
  get (JDict fields) "error" (JBool false) = inr error ->
  truthy error = false ->
  get (JDict fields) "result" (JBool false) = inr (JDict res) ->
  get (JDict res) "value" (JBool false) = inr (JDict v) ->
  getitem (JDict v) "meta" = inr meta ->
  getitem meta "id" = inr uuid ->
  getitem (JDict v) "data" = inr data ->
  receive (JDict fields) s = Throws (Std TypeError) s.
Proof.
  intros Hreq Hid Herr Hfalse Hres Hval Hmeta Huuid Hdata.
  unfold is_request in Hreq.
  apply orb_false_iff in Hreq as [Hreq Hdel]. apply orb_false_iff in Hreq as [Hput Hget].
  unfold session.receive.
  assert (truthy (JDict fields) = true) as ->.
  { destruct fields; [|done]. simpl in Hres. by injection Hres. }
  rewrite Hid. unfold receive_try. rewrite Hput, Hget, Hdel, Herr, Hfalse, Hres.
  assert (truthy (JDict res) = true) as ->.
  { destruct res; [|done]. simpl in Hval. by injection Hval. }
  rewrite Hval.
  assert (truthy (JDict v) = true) as ->.
  { destruct v; [|done]. by simpl in Hmeta. }
  by rewrite Hmeta, Huuid, Hdata.
Qed.

(** A frame that is neither a request nor a reply (no [PUT], [GET] or
    [DELETE] method, no true [error], no true [result]) is answered with an
    "Unknown method" failure for its id; nothing else changes. *)
Theorem receive_unknown_frame_is_answered fields decoded_id error res s :
  fields <> [] ->
  is_request (JDict fields) = false ->
  get (JDict fields) "id" JNull = inr decoded_id ->
  get (JDict fields) "error" (JBool false) = inr error ->
  truthy error = false ->
  get (JDict fields) "result" (JBool false) = inr res ->
  truthy res = false ->
  receive (JDict fields) s = Returns (send_error "Unknown method" decoded_id s).
Proof.
  intros Hne Hreq Hid Herr Hfalse Hres Hfalse'.
  unfold is_request in Hreq.
  apply orb_false_iff in Hreq as [Hreq Hdel]. apply orb_false_iff in Hreq as [Hput Hget].
  unfold session.receive.
  assert (truthy (JDict fields) = true) as -> by by destruct fields.
  rewrite Hid. unfold receive_try.
  by rewrite Hput, Hget, Hdel, Herr, Hfalse, Hres, Hfalse'.
Qed.

(** What [receive] does with a frame that is not an object: nothing when
    it is false ([None], which [receive_data] returns for an oversized or
    undecodable message, [0], the empty string or list), and an
    [AttributeError] when it is true. *)
Theorem receive_of_a_frame_that_is_no_object decoded s :
  is_dict decoded = false ->
  receive decoded s = if truthy decoded then Throws (Std AttributeError) s else Returns s.
Proof.
  intros Hnd. unfold session.receive.
  destruct (truthy decoded); [|done]. by destruct decoded.
Qed.

End receive_facts.

Section reconnect_facts.
Import communication session.
Context {E : Type}.
Implicit Types (s : @ClientSocket E) (st : list status)
  (c : @ClientSocket E * list status).

Lemma failed_attempt_keeps c :
  let c' := failed_attempt c in
  connected (fst c') = false
  /\ network (fst c') = network (fst c)
  /\ sending_queue (fst c') = sending_queue (fst c)
  /\ packet_awaiting_confirm (fst c') = packet_awaiting_confirm (fst c)
  /\ bulk_send_list (fst c') = bulk_send_list (fst c)
  /\ event_storage (fst c') = event_storage (fst c)
  /\ length (wapp_log (fst c')) = S (length (wapp_log (fst c)))
  /\ snd c' = snd c.
Proof.
  destruct c as [s st]. unfold failed_attempt, close. simpl.
  destruct (stop_timers _); simpl; rewrite ?length_app; simpl;
    repeat split; try done; lia.
Qed.

Lemma iter_failed_attempt_keeps n c :
  let c' := Nat.iter n failed_attempt c in
  (n = 0 \/ connected (fst c') = false)
  /\ network (fst c') = network (fst c)
  /\ sending_queue (fst c') = sending_queue (fst c)
  /\ packet_awaiting_confirm (fst c') = packet_awaiting_confirm (fst c)
  /\ bulk_send_list (fst c') = bulk_send_list (fst c)
  /\ event_storage (fst c') = event_storage (fst c)
  /\ length (wapp_log (fst c')) = n + length (wapp_log (fst c))
  /\ snd c' = snd c.
Proof.
  induction n as [|n IH]; [cbn; by auto 10|].
  cbv zeta in *.
  change (Nat.iter (S n) failed_attempt c)
    with (failed_attempt (Nat.iter n failed_attempt c)).
  destruct IH as (_ & ? & ? & ? & ? & ? & ? & ?).
  destruct (failed_attempt_keeps (Nat.iter n failed_attempt c))
    as (? & ? & ? & ? & ? & ? & ? & ?).
  split; [by right|]. repeat split; try congruence. lia.
Qed.

Lemma reconnect_loop_failed_attempts retry_limit n attempt rest c :
  concat (map values (devices (network (fst c)))) = [] ->
  connected (fst c) = false ->
  match retry_limit with
  | None => True
  | Some limit => (attempt + Z.of_nat n <= limit)%Z
  end ->
  reconnect_loop retry_limit attempt (replicate n false ++ rest) c
  = reconnect_loop retry_limit (attempt + Z.of_nat n) rest (Nat.iter n failed_attempt c).
Proof.
  revert attempt c. induction n as [|n IH]; intros attempt c Hnone Hoff Hlimit.
  - simpl. by rewrite Z.add_0_r.
  - rewrite Nat.iter_succ_r.
    destruct (failed_attempt_keeps c) as (Hoff' & Hnet' & _).
    replace (attempt + Z.of_nat (S n))%Z with (attempt + 1 + Z.of_nat n)%Z by lia.
    rewrite <- IH.
    + cbn [replicate app reconnect_loop]. rewrite Hoff.
      assert (match retry_limit with
              | Some limit => (attempt <? limit)%Z
              | None => true
              end = true) as ->.
      { destruct retry_limit as [limit|]; [|done]. apply Z.ltb_lt. lia. }
      cbn [negb andb]. unfold failed_attempt.
      unfold close. rewrite Hnone. reflexivity.
    + by rewrite Hnet'.
    + done.
    + destruct retry_limit as [limit|]; [lia|done].
Qed.

(** [reconnect] with a retry limit against a server that does not answer:
    after [n] failed attempts it raises [ServerConnectionException].  Each
    attempt logs one error; the client is left disconnected, with its
    sending queue, its pending requests and its batch as they were, and
    nothing about the reconnection is queued. *)
Theorem reconnect_gives_up_at_the_retry_limit n send_reconnect rest s st :
  concat (map values (devices (network s))) = [] ->
  exists s',
    reconnect (Some (Z.of_nat n)) send_reconnect (replicate n false ++ rest) (s, st)
    = Some (Throws ServerConnectionException (s', st ++ [RECONNECTING]))
    /\ connected s' = false
    /\ sending_queue s' = sending_queue s
    /\ packet_awaiting_confirm s' = packet_awaiting_confirm s
    /\ bulk_send_list s' = bulk_send_list s
    /\ length (wapp_log s') = n + length (wapp_log s).
Proof.
  intros Hnone. unfold reconnect.
  rewrite reconnect_loop_failed_attempts; [|done|done|simpl; lia].
  set (c := (set_connected false (fst (s, st)), snd (s, st) ++ [RECONNECTING])).
  destruct (iter_failed_attempt_keeps n c) as (Hoff & _ & Hq & Hp & Hb & _ & Hlog & Hst).
  assert (connected (fst (Nat.iter n failed_attempt c)) = false) as Hoff'.
  { destruct Hoff as [->|]; done. }
  destruct (Nat.iter n failed_attempt c) as [s' st'] eqn:Hiter.
  subst c. simpl in *. subst st'.
  exists s'. split; [|by auto].
  assert ((0 + Z.of_nat n <? Z.of_nat n)%Z = false) as Hlim by (apply Z.ltb_ge; lia).
  destruct rest as [|reachable rest]; cbn [reconnect_loop fst snd];
    rewrite Hoff', Hlim; simpl; by rewrite Hoff'.
Qed.

Lemma answered_attempt_keeps c :
  let c' := answered_attempt c in
  connected (fst c') = true
  /\ my_socket (fst c') = Some {| writable := true; wire := [] |}
  /\ sending_queue (fst c') = sending_queue (fst c)
  /\ packet_awaiting_confirm (fst c') = packet_awaiting_confirm (fst c)
  /\ bulk_send_list (fst c') = bulk_send_list (fst c)
  /\ snd c' = snd c ++ [CONNECTED].
Proof.
  destruct c as [s st]. unfold answered_attempt, close. simpl.
  by destruct (stop_timers _).
Qed.

Lemma reconnect_loop_answered_attempt retry_limit attempt rest c :
  concat (map values (devices (network (fst c)))) = [] ->
  connected (fst c) = false ->
  match retry_limit with
  | None => True
  | Some limit => (attempt < limit)%Z
  end ->
  reconnect_loop retry_limit attempt (true :: rest) c = Some (Returns (answered_attempt c)).
Proof.
  intros Hnone Hoff Hlimit.
  destruct (answered_attempt_keeps c) as (Hon & _).
  cbn [reconnect_loop]. rewrite Hoff.
  assert (match retry_limit with
          | Some limit => (attempt <? limit)%Z
          | None => true
          end = true) as ->.
  { destruct retry_limit as [limit|]; [|done]. by apply Z.ltb_lt. }
  cbn [negb andb].
  assert (close (fst c) = Done (state_of (close (fst c)))) as ->.
  { unfold close. by rewrite Hnone. }
  fold (answered_attempt c).
  destruct rest as [|reachable rest]; cbn [reconnect_loop]; by rewrite Hon.
Qed.

(** [reconnect] against a server that answers the attempt after [n] failed
    ones (with no limit, or a limit above [n]): the call returns with the
    client connected on a new socket on which nothing has been written; the
    pending requests and the batch are as they were, a [SEND_RECONNECT]
    item is put on the sending queue when asked for, and the status has
    gone to RECONNECTING and then to CONNECTED. *)
Theorem reconnect_succeeds_after_failed_attempts n retry_limit send_reconnect rest s st :
  concat (map values (devices (network s))) = [] ->
  match retry_limit with
  | None => True
  | Some limit => (Z.of_nat n < limit)%Z
  end ->
  exists s',
    reconnect retry_limit send_reconnect (replicate n false ++ true :: rest) (s, st)
    = Some (Returns (s', st ++ [RECONNECTING; CONNECTED]))
    /\ connected s' = true
    /\ my_socket s' = Some {| writable := true; wire := [] |}
    /\ sending_queue s'
       = sending_queue s ++ (if send_reconnect then [reconnect_item] else [])
    /\ packet_awaiting_confirm s' = packet_awaiting_confirm s
    /\ bulk_send_list s' = bulk_send_list s.
Proof.
  intros Hnone Hlimit. unfold reconnect.
  rewrite reconnect_loop_failed_attempts; [|done|done|destruct retry_limit; [simpl; lia|done]].
  set (c := (set_connected false (fst (s, st)), snd (s, st) ++ [RECONNECTING])).
  destruct (iter_failed_attempt_keeps n c) as (Hoff & Hnet & Hq & Hp & Hb & _ & _ & Hst).
  assert (connected (fst (Nat.iter n failed_attempt c)) = false) as Hoff'.
  { destruct Hoff as [->|]; done. }
  rewrite reconnect_loop_answered_attempt;
    [|by rewrite Hnet|done|destruct retry_limit; [simpl; lia|done]].
  destruct (answered_attempt_keeps (Nat.iter n failed_attempt c))
    as (Hon & Hsock & Hq' & Hp' & Hb' & Hst').
  destruct (answered_attempt (Nat.iter n failed_attempt c)) as [s2 st2].
  subst c. simpl in *. rewrite Hon.
  assert (st2 = st ++ [RECONNECTING; CONNECTED]) as ->.
  { rewrite Hst', Hst. by rewrite <- app_assoc. }
  destruct send_reconnect.
  - eexists. split; [done|]. simpl. repeat split; congruence.
  - eexists. split; [done|]. rewrite app_nil_r. repeat split; congruence.
Qed.

(** On a network that has a value [reconnect] never gets to [connect]: the
    [close] of its first round raises [AttributeError], whatever the server
    would answer. *)
Theorem reconnect_raises_on_network_with_values retry_limit send_reconnect script v vs s st :
  concat (map values (devices (network s))) = v :: vs ->
  match retry_limit with
  | None => True
  | Some limit => (0 < limit)%Z
  end ->
  reconnect retry_limit send_reconnect script (s, st)
  = Some (Throws (Std AttributeError) (set_connected false s, st ++ [RECONNECTING])).
Proof.
  intros Hsome Hlimit. unfold reconnect.
  assert (reconnect_loop retry_limit 0 script
            (set_connected false (fst (s, st)), snd (s, st) ++ [RECONNECTING])
          = Some (Throws (Std AttributeError)
                    (set_connected false s, st ++ [RECONNECTING]))) as ->; [|done].
  destruct script as [|reachable rest]; cbn [reconnect_loop]; simpl;
    (assert (match retry_limit with
             | Some limit => (0 <? limit)%Z
             | None => true
             end = true) as ->
       by (destruct retry_limit as [limit|]; [by apply Z.ltb_lt|done]));
    unfold close; simpl; by rewrite Hsome.
Qed.

End reconnect_facts.

(** ** Compaction, the offline flush and the size of the batch *)
Section compaction_facts.
Import message_log eviction log_names.
Implicit Types (self : MessageLog) (w : os) (files : list file).

Lemma dotless_app a b : dotless a = true -> dotless b = true -> dotless (a +:+ b) = true.
Proof.
  intros Ha Hb. induction a as [|c a IH]; simpl in *; [done|].
  apply andb_true_iff in Ha as [Hc Ha]. rewrite Hc. by apply IH.
Qed.

Lemma dotless_pretty_N_go x s : dotless s = true -> dotless (pretty_N_go x s) = true.
Proof.
  revert s. induction (N.lt_wf_0 x) as [x _ IH]; intros s Hs.
  assert (x = 0 \/ 0 < x)%N as [->|Hpos] by lia.
  - by rewrite pretty_N_go_0.
  - rewrite pretty_N_go_step by done. apply IH.
    { by apply N.div_lt. }
    simpl. rewrite Hs. unfold pretty_N_char. by repeat case_match.
Qed.

Lemma dotless_pretty_nat (n : nat) : dotless (pretty n) = true.
Proof.
  unfold pretty, pretty_nat, pretty, pretty_N.
  destruct (decide (N.of_nat n = 0%N)); [done|]. by apply dotless_pretty_N_go.
Qed.

Lemma append_assoc (a b c : string) : (a +:+ b) +:+ c = a +:+ (b +:+ c).
Proof.
  induction a as [|x a IH]; [done|].
  change ((String x a +:+ b) +:+ c) with (String x ((a +:+ b) +:+ c)).
  by rewrite IH.
Qed.

Lemma get_log_name_stem w : get_log_name w = log_stem w +:+ ".txt".
Proof. unfold get_log_name, log_stem. by rewrite !append_assoc. Qed.

Lemma dotless_log_stem w : dotless (log_stem w) = true.
Proof.
  unfold log_stem.
  repeat (apply dotless_app; [first [apply dotless_pretty_nat | done]|]).
  apply dotless_pretty_nat.
Qed.

Lemma prefix_dot_other (ext rest : string) (c : ascii) :
  c <> "."%char -> String.prefix (String "." ext) (String c rest) = false.
Proof.
  intros Hc. cbn [String.prefix].
  destruct (ascii_dec "." c) as [Heq|_]; [by symmetry in Heq|done].
Qed.

Lemma replace_dotless (ext new a b : string) :
  dotless a = true ->
  replace (String "." ext) new (a +:+ b) = a +:+ replace (String "." ext) new b.
Proof.
  intros Ha. unfold replace. induction a as [|c a IH]; [done|].
  cbn [dotless] in Ha. apply andb_true_iff in Ha as [Hc Ha].
  apply negb_true_iff, Ascii.eqb_neq in Hc.
  change (String c a +:+ b) with (String c (a +:+ b)).
  cbn [replace_from]. rewrite prefix_dot_other by done. by rewrite IH.
Qed.

Lemma search_dot_ext_app (ext a b : string) :
  search_dot_ext ext b = true -> search_dot_ext ext (a +:+ b) = true.
Proof.
  intros Hb. induction a as [|c a IH]; simpl; [done|]. rewrite IH. apply orb_true_r.
Qed.

Lemma append_inj_r (a b c : string) : a +:+ b = a +:+ c -> b = c.
Proof. induction a as [|x a IH]; simpl; [done|]. intros [= H]. by apply IH. Qed.

(** The archive of a day's log is named as an archive, differs from the
    log's name, and [str.replace] leads from one name to the other and
    back. *)
Lemma log_name_to_archive_and_back w :
  replace ".txt" ".zip" (get_log_name w) = log_stem w +:+ ".zip"
  /\ search_dot_ext "zip" (replace ".txt" ".zip" (get_log_name w)) = true
  /\ replace ".zip" ".txt" (replace ".txt" ".zip" (get_log_name w)) = get_log_name w
  /\ replace ".txt" ".zip" (get_log_name w) <> get_log_name w.
Proof.
  assert (replace ".txt" ".zip" (get_log_name w) = log_stem w +:+ ".zip") as Hzip.
  { rewrite get_log_name_stem, (replace_dotless "txt") by apply dotless_log_stem. done. }
  rewrite Hzip. split; [done|]. split; [|split].
  - by apply search_dot_ext_app.
  - rewrite (replace_dotless "zip") by apply dotless_log_stem.
    by rewrite get_log_name_stem.
  - rewrite get_log_name_stem. intros H. by apply append_inj_r in H.
Qed.

Lemma lookup_remove_other name other files :
  other <> name ->
  lookup_file other (remove_file name files) = lookup_file other files.
Proof.
  intros Hne. induction files as [|f files IH]; simpl; [done|].
  destruct (String.eqb (file_name f) name) eqn:Hf; simpl.
  - apply String.eqb_eq in Hf.
    assert (String.eqb (file_name f) other = false) as ->; [|done].
    apply String.eqb_neq. congruence.
  - by rewrite IH.
Qed.

Lemma get_text_log_restores_archive w files name lines :
  filter (fun n => Is_true (search_dot_ext "txt" n)) (get_logs files) = [name] ->
  lookup_file name files = Some (Text lines) ->
  search_dot_ext "zip" (replace ".txt" ".zip" name) = true ->
  replace ".zip" ".txt" (replace ".txt" ".zip" name) = name ->
  replace ".txt" ".zip" name <> name ->
  exists files',
    get_text_log (replace ".txt" ".zip" name) (compact_logs w files) = Done (files', name)
    /\ lookup_file (replace ".txt" ".zip" name) (compact_logs w files)
       = Some (Zip (zip_size w name lines) [(name, lines)])
    /\ lookup_file name files' = Some (Text lines)
    /\ (forall other, other <> name -> other <> replace ".txt" ".zip" name ->
          lookup_file other files' = lookup_file other files).
Proof.
  intros Htxt Hlook Hzip Hback Hne.
  set (zipname := replace ".txt" ".zip" name) in *.
  assert (compact_logs w files
          = remove_file name
              (write_file zipname (Zip (zip_size w name lines) [(name, lines)]) files))
    as ->.
  { unfold compact_logs. rewrite Htxt. simpl. by rewrite Hlook. }
  assert (lookup_file zipname
            (remove_file name
               (write_file zipname (Zip (zip_size w name lines) [(name, lines)]) files))
          = Some (Zip (zip_size w name lines) [(name, lines)])) as Hz.
  { rewrite lookup_remove_other by done.
    by rewrite lookup_write_file, String.eqb_refl. }
  unfold get_text_log. rewrite Hzip, Hz. simpl. rewrite Hback.
  eexists. split; [done|]. split; [done|]. split.
  - rewrite lookup_remove_other by done.
    by rewrite lookup_write_file, String.eqb_refl.
  - intros other Hn Hzn.
    assert (String.eqb name other = false) as Hno by (apply String.eqb_neq; congruence).
    assert (String.eqb zipname other = false) as Hzo
      by (apply String.eqb_neq; congruence).
    rewrite lookup_remove_other by done.
    rewrite lookup_write_file, Hno.
    rewrite lookup_remove_other by done.
    by rewrite lookup_write_file, Hzo.
Qed.

(** Compaction and [get_text_log] undo each other on the log of a day: when
    it is the one text log of the directory, [compact_logs] turns it into an
    archive, and [get_text_log] on the archive gives back the text file
    under the name [get_log_name] gave it and with its lines; the other
    files do not change. *)
Theorem get_text_log_restores_compacted_log w today files lines :
  filter (fun n => Is_true (search_dot_ext "txt" n)) (get_logs files)
  = [get_log_name today] ->
  lookup_file (get_log_name today) files = Some (Text lines) ->
  exists files',
    replace ".txt" ".zip" (get_log_name today) = log_stem today +:+ ".zip"
    /\ get_text_log (log_stem today +:+ ".zip") (compact_logs w files)
       = Done (files', get_log_name today)
    /\ lookup_file (log_stem today +:+ ".zip") (compact_logs w files)
       = Some (Zip (zip_size w (get_log_name today) lines)
                 [(get_log_name today, lines)])
    /\ lookup_file (get_log_name today) files' = Some (Text lines)
    /\ (forall other,
          other <> get_log_name today -> other <> log_stem today +:+ ".zip" ->
          lookup_file other files' = lookup_file other files).
Proof.
  intros Htxt Hlook.
  destruct (log_name_to_archive_and_back today) as (Hzip & Hsearch & Hback & Hne).
  destruct (get_text_log_restores_archive w files (get_log_name today) lines
              Htxt Hlook Hsearch Hback Hne) as (files' & Hget & Harch & Hfile & Hrest).
  rewrite Hzip in Hget, Harch, Hrest. by exists files'.
Qed.

End compaction_facts.

Section offline_flush.
Import message_log communication.

(** The offline flush with [MessageLog] behind it: when the stripped batch
    fits under the limit, [send_data] appends it, printed by [json.dumps]
    and followed by a space, as one line to the day's file (compacting the
    older logs first when the day's file is not there yet), and leaves the
    socket and the pending requests alone. *)
Theorem send_data_offline_appends_to_the_days_log self (s : @ClientSocket os) data :
  connected s = false ->
  log_offline self = true ->
  strip_loop get_object_without_none_values [] (bulk_send_list s) = Done data ->
  0 < recursion_limit (event_storage s) ->
  (Z.of_nat (get_size (listdir (event_storage s)) (dumps (JList data)))
   <= log_data_limit self)%Z ->
  send_data (message_log.add_message self) s
  = Done (set_event_storage
            (with_files (event_storage s)
               (append_line (get_log_name (event_storage s))
                  (dumps (JList data) +:+ " ")
                  (if isfile (get_log_name (event_storage s)) (listdir (event_storage s))
                   then listdir (event_storage s)
                   else compact_logs (event_storage s) (listdir (event_storage s)))))
            (set_bulk_send_list data s)).
Proof.
  intros Hoff Hon Hstrip Hdepth Hfits.
  unfold send_data. rewrite Hstrip. simpl. rewrite Hoff.
  unfold message_log.add_message.
  destruct (recursion_limit (event_storage s)) as [|depth]; [lia|].
  rewrite add_message_at_S, Hon.
  assert ((Z.of_nat (get_size (listdir (event_storage s)) (dumps (JList data)))
           <=? log_data_limit self)%Z = true) as -> by by apply Z.leb_le.
  done.
Qed.

End offline_flush.

Section batch_bound.
Import communication.
Context {E : Type}.
Variable add_message : json -> E -> outcome E.

Lemma remove_first_length p (l : list json) : length (remove_first p l) <= length l.
Proof.
  induction l as [|x l IH]; simpl; [done|].
  destruct (p x); simpl; lia.
Qed.

Lemma strip_loop_length (strip : json -> outcome json) front todo :
  length (state_of (strip_loop strip front todo)) <= length front + length todo.
Proof.
  remember (length todo) as n eqn:Hn.
  assert (length todo <= n) as Hle by lia. rewrite Hn. clear Hn.
  revert front todo Hle. induction n as [|n IH]; intros front todo Hle.
  - destruct todo; simpl in *; lia.
  - destruct todo as [|x todo]; simpl in *; [lia|].
    destruct (strip x) as [x'|e x']; simpl.
    + destruct (len0 x').
      * pose proof (remove_first_length eq_empty_dict (front ++ [x'])) as Hr.
        rewrite length_app in Hr. simpl in Hr.
        destruct todo as [|skipped todo]; simpl in *; [lia|].
        etrans; [apply IH; lia|]. rewrite length_app. simpl. lia.
      * etrans; [apply IH; lia|]. rewrite length_app. simpl. lia.
    + rewrite length_app. simpl. lia.
Qed.

(** The batch stays within [MAX_BULK_SIZE]: from a batch of fewer than ten
    requests, [create_bulk] leaves at most ten, however the call ends
    (appended only, flushed, the write refused, or an exception raised). *)
Theorem create_bulk_keeps_the_batch_within_bound d (s : @ClientSocket E) :
  length (bulk_send_list s) < MAX_BULK_SIZE ->
  length (bulk_send_list (state_of (create_bulk add_message d s))) <= MAX_BULK_SIZE.
Proof.
  intros Hlt.
  assert (length (bulk_send_list (appended d s)) <= MAX_BULK_SIZE) as Happ.
  { destruct d; simpl; rewrite ?length_app; simpl; lia. }
  unfold create_bulk.
  destruct (flush_condition (appended d s)); [|done].
  assert (length (bulk_send_list (state_of (send_data add_message (appended d s))))
          <= MAX_BULK_SIZE) as Hsent.
  { pose proof (strip_loop_length get_object_without_none_values []
                  (bulk_send_list (appended d s))) as Hlen.
    simpl in Hlen.
    destruct (strip_loop get_object_without_none_values []
                (bulk_send_list (appended d s))) as [data|e data] eqn:Hstrip.
    - rewrite (send_data_bulk add_message _ data Hstrip). simpl in Hlen. lia.
    - unfold send_data. rewrite Hstrip. simpl in *. lia. }
  destruct (send_data add_message (appended d s)) as [s2|e s2]; simpl in *.
  - unfold MAX_BULK_SIZE. lia.
  - by destruct (is_OSError e).
Qed.

End batch_bound.

(** ** Requests and their replies *)
Section receive_sequences.
Import communication stripping session.
Context {E Obj : Type}.
Variable control_found :
  Obj -> json -> json -> json -> @ClientSocket E -> outcome (@ClientSocket E).
Variable report_found : Obj -> json -> json -> @ClientSocket E -> outcome (@ClientSocket E).
Variable delete_found : Obj -> json -> json -> @ClientSocket E -> outcome (@ClientSocket E).
Variable handle_result : Obj -> json -> @ClientSocket E -> result (@ClientSocket E).

Local Abbreviation receive :=
  (session.receive control_found report_found delete_found handle_result).
Local Abbreviation receive_message :=
  (session.receive_message control_found report_found delete_found
     handle_result).
Implicit Types (s : @ClientSocket E).

(** A request and its reply: registering a request under an id that is not
    pending and then receiving an error reply with that id leaves
    [packet_awaiting_confirm] as it was before the request. *)
Theorem error_reply_resolves_the_registered_request request fields decoded_id k error s :
  get request "id" JNull = inr decoded_id ->
  hash_key decoded_id = inr k ->
  packet_awaiting_confirm s !! k = None ->
  is_request (JDict fields) = false ->
  get (JDict fields) "id" JNull = inr decoded_id ->
  get (JDict fields) "error" (JBool false) = inr (JDict error) ->
  error <> [] ->
  exists s1 s2,
    add_id_to_confirm_list request s = Done s1
    /\ packet_awaiting_confirm s1 !! k = Some request
    /\ receive (JDict fields) s1 = Returns s2
    /\ packet_awaiting_confirm s2 = packet_awaiting_confirm s.
Proof.
  intros Hrid Hk Hnew Hreq Hid Herr Hne.
  unfold add_id_to_confirm_list. rewrite Hrid, Hk.
  eexists _, _. split; [done|]. split; [simpl; by rewrite lookup_insert_eq|].
  unfold is_request in Hreq.
  apply orb_false_iff in Hreq as [Hreq Hdel]. apply orb_false_iff in Hreq as [Hput Hget].
  unfold session.receive.
  assert (truthy (JDict fields) = true) as ->.
  { destruct fields; [|done]. simpl in Herr. by injection Herr. }
  rewrite Hid. unfold receive_try. rewrite Hput, Hget, Hdel, Herr.
  assert (truthy (JDict error) = true) as -> by by destruct error.
  simpl. rewrite (remove_id_from_confirm_list_deletes _ k) by done.
  split; [done|]. simpl. by rewrite delete_insert_id.
Qed.

(** A received list is handled frame by frame, and a frame that raises
    ends it: the frames behind it are never looked at. *)
Theorem receive_message_stops_at_the_frame_that_raises before frame behind e script s s1 s2 st :
  session.receive_each control_found report_found delete_found handle_result
    before s = Returns s1 ->
  receive frame s1 = Throws e s2 ->
  match e with Std e' => is_OSError e' = false | _ => True end ->
  receive_message (JList (before ++ frame :: behind)) script (s, st)
  = Some (Throws e (s2, st)).
Proof.
  intros Hbefore Hframe Hnot. unfold session.receive_message. simpl.
  assert (session.receive_each control_found report_found delete_found
            handle_result (before ++ frame :: behind) s = Throws e s2) as ->.
  { clear Hnot. revert s Hbefore. induction before as [|x before IH]; intros s Hbefore.
    - simpl in *. injection Hbefore as ->. by rewrite Hframe.
    - simpl in *. destruct (session.receive _ _ _ _ x s) as [s'|e' s']; [|done].
      by apply IH. }
  destruct e as [e'| | |]; [|done..]. by rewrite Hnot.
Qed.

End receive_sequences.

(** ** The properties above on example objects *)
Section coverage_cases.
Import communication spec stripping message_log eviction log_names value schedule
  session.
Import examples more_examples.

Lemma get_object_without_none_values_meets_spec_witness :
  get_object_without_none_values
    (JDict [("id", JNum 1); ("trace", JNull);
            ("params", JDict [("data", JList [JDict [("x", JStr "1"); ("y", JNull)]])])])
  = Done (JDict [("id", JNum 1);
                 ("params", JDict [("data", JList [JDict [("x", JStr "1")]])])]).
Proof.
  apply (get_object_without_none_values_meets_spec
           [("id", JNum 1); ("trace", JNull);
            ("params", JDict [("data", JList [JDict [("x", JStr "1"); ("y", JNull)]])])]).
  reflexivity.
Defined.

Lemma get_object_without_none_values_raises_on_list_of_atoms_witness :
  get_object_without_none_values
    (JDict [("id", JNum 1); ("tags", JList [JStr "a"; JStr "b"])])
  = Raise AttributeError (JDict [("id", JNum 1); ("tags", JList [JStr "a"; JStr "b"])]).
Proof.
  apply (get_object_without_none_values_raises_on_list_of_atoms
           [("id", JNum 1)] "tags" (JStr "a") [JStr "b"] []); reflexivity.
Defined.

Lemma send_data_strips_regular_batch_as_spec_witness :
  bulk_send_list
    (state_of (send_data recording_log
                 (idle false true [put_request 1; success_reply 2] no_network)))
  = spec_strip_batch [put_request 1; success_reply 2].
Proof.
  apply (send_data_strips_regular_batch_as_spec recording_log
           (idle false true [put_request 1; success_reply 2] no_network)).
  reflexivity.
Defined.

Lemma add_message_at_eviction_terminates_witness :
  add_message_at 20 evict_oldest_100 (october_first two_days) (small_message 5) two_days
  = add_message_at 10 evict_oldest_100 (october_first two_days) (small_message 5) two_days.
Proof.
  apply (add_message_at_eviction_terminates 10 20 evict_oldest_100
           (october_first two_days) (small_message 5) two_days).
  - simpl. lia.
  - vm_compute. lia.
  - lia.
Defined.

Lemma add_message_at_removing_no_lines_recurses_witness :
  add_message_at 900 evict_nothing_100 (october_first one_line_log) measured_at_80
    one_line_log
  = Raise RecursionError one_line_log.
Proof.
  apply (add_message_at_removing_no_lines_recurses 900 evict_nothing_100
           (october_first one_line_log) measured_at_80 one_line_log
           "2020-10-1.txt" [logged measured_at_80]).
  - reflexivity.
  - reflexivity.
  - reflexivity.
  - vm_compute. reflexivity.
  - vm_compute. reflexivity.
  - reflexivity.
  - discriminate.
Defined.

Lemma add_message_at_without_logs_raises_witness :
  add_message_at 1 evict_oldest_100 (october_first foreign_file) printed_in_80 foreign_file
  = Raise IndexError foreign_file.
Proof.
  apply (add_message_at_without_logs_raises 0 evict_oldest_100
           (october_first foreign_file) printed_in_80 foreign_file).
  - reflexivity.
  - reflexivity.
  - vm_compute. reflexivity.
  - vm_compute. reflexivity.
Defined.

Lemma remove_first_lines_keeps_the_rest_witness :
  exists files',
    remove_first_lines evict_oldest_100 "2020-9-30.txt" september_log = Done files'
    /\ lookup_file "2020-9-30.txt" files'
       = Some (Text (drop (Z.to_nat (lines_to_remove evict_oldest_100))
                       [logged (small_message 1); logged (small_message 2);
                        logged (small_message 3)]))
    /\ (forall other, other <> "2020-9-30.txt" ->
          lookup_file other files' = lookup_file other september_log)
    /\ footprint files' <= footprint september_log.
Proof.
  apply (remove_first_lines_keeps_the_rest evict_oldest_100 "2020-9-30.txt"
           september_log
           [logged (small_message 1); logged (small_message 2);
            logged (small_message 3)]).
  - reflexivity.
  - simpl. lia.
Defined.

Lemma get_text_log_restores_compacted_log_witness :
  exists files',
    replace ".txt" ".zip" (get_log_name september_30) = log_stem september_30 +:+ ".zip"
    /\ get_text_log (log_stem september_30 +:+ ".zip")
         (compact_logs (october_first september_log) september_log)
       = Done (files', get_log_name september_30)
    /\ lookup_file (log_stem september_30 +:+ ".zip")
         (compact_logs (october_first september_log) september_log)
       = Some (Zip (zip_size (october_first september_log) (get_log_name september_30)
                      [logged (small_message 1); logged (small_message 2);
                       logged (small_message 3)])
                 [(get_log_name september_30,
                   [logged (small_message 1); logged (small_message 2);
                    logged (small_message 3)])])
    /\ lookup_file (get_log_name september_30) files'
       = Some (Text [logged (small_message 1); logged (small_message 2);
                     logged (small_message 3)])
    /\ (forall other,
          other <> get_log_name september_30 ->
          other <> log_stem september_30 +:+ ".zip" ->
          lookup_file other files' = lookup_file other september_log).
Proof.
  apply (get_text_log_restores_compacted_log (october_first september_log)
           september_30 september_log
           [logged (small_message 1); logged (small_message 2);
            logged (small_message 3)]).
  - vm_compute. reflexivity.
  - reflexivity.
Defined.

Lemma send_data_offline_appends_to_the_days_log_witness :
  send_data (message_log.add_message roomy_log)
    (offline_with_log [put_request 1; success_reply 2] september_log)
  = Done (set_event_storage
            (with_files (october_first september_log)
               (append_line "2020-10-1.txt"
                  (dumps (JList [put_request 1; success_reply 2]) +:+ " ")
                  (compact_logs (october_first september_log) september_log)))
            (set_bulk_send_list [put_request 1; success_reply 2]
               (offline_with_log [put_request 1; success_reply 2] september_log))).
Proof.
  apply (send_data_offline_appends_to_the_days_log roomy_log
           (offline_with_log [put_request 1; success_reply 2] september_log)
           [put_request 1; success_reply 2]).
  - reflexivity.
  - reflexivity.
  - reflexivity.
  - simpl. lia.
  - vm_compute. discriminate.
Defined.

Lemma create_bulk_keeps_the_batch_within_bound_witness :
  length (bulk_send_list
            (state_of (create_bulk recording_log (put_request 1)
                         (idle true false [] no_network))))
  <= MAX_BULK_SIZE.
Proof.
  apply (create_bulk_keeps_the_batch_within_bound recording_log (put_request 1)
           (idle true false [] no_network)).
  unfold MAX_BULK_SIZE. simpl. lia.
Defined.

Lemma period_reports_are_a_period_apart_witness :
  spaced 10 0
    (sent (state_of (loop [(4, Some 10); (10, Some 11); (12, Some 11); (25, Some 11)]%Z
                       heartbeat_thread)))
  = true
  /\ Forall (fun r => kind r = PERIOD)
       (sent (state_of (loop [(4, Some 10); (10, Some 11); (12, Some 11); (25, Some 11)]%Z
                          heartbeat_thread))).
Proof.
  apply (period_reports_are_a_period_apart 10
           [(4, Some 10); (10, Some 11); (12, Some 11); (25, Some 11)]%Z
           heartbeat_thread); reflexivity.
Defined.

Lemma loop_body_at_sends_at_most_one_report_witness :
  length (sent (state_of (loop_body_at {| at_delta := 100; at_check := 103;
                                          at_stamp := 103 |}
                            (Some 21%Z) thermostat_thread)))
  <= 1.
Proof.
  apply (loop_body_at_sends_at_most_one_report 10
           {| at_delta := 100; at_check := 103; at_stamp := 103 |}
           (Some 21%Z) thermostat_thread).
  - reflexivity.
  - simpl. lia.
Defined.

(** When the clock does advance by the period between the two readings (a
    [send_state] that takes ten seconds), the same turn sends both
    reports. *)
Lemma loop_body_at_sends_two_reports_on_a_slow_turn :
  sent (state_of (loop_body_at {| at_delta := 100; at_check := 110; at_stamp := 111 |}
                    (Some 21%Z) thermostat_thread))
  = [{| kind := DELTA; sent_at := 100 |}; {| kind := PERIOD; sent_at := 111 |}].
Proof. reflexivity. Qed.

Lemma send_report_thread_dies_on_first_datum_witness :
  raised (__send_report_thread unread [(1, None); (2, Some 5); (3, Some 6)]%Z)
  = Some TypeError.
Proof.
  apply (send_report_thread_dies_on_first_datum unread
           {| state_uuid := "state-1"; state_type := "Report"; data := None;
              timestamp := 0 |}
           [(1, None); (2, Some 5); (3, Some 6)]%Z); reflexivity.
Defined.

Lemma receive_error_reply_acknowledges_witness :
  receive unreached4 unreached3 unreached3 accepts (error_reply 1) two_pending
  = Returns
      (set_packet_awaiting_confirm (delete (KInt 1) (packet_awaiting_confirm two_pending))
         (log_error {| log_text := "Error: {}";
                       log_payload := Some (JStr "Not found") |} two_pending)).
Proof.
  apply (receive_error_reply_acknowledges unreached4 unreached3 unreached3
           accepts
           [("jsonrpc", JStr "2.0"); ("id", JNum 1);
            ("error", JDict [("code", JNum (-32000)); ("message", JStr "Not found")])]
           (JNum 1) (KInt 1)
           [("code", JNum (-32000)); ("message", JStr "Not found")] two_pending).
  - reflexivity.
  - reflexivity.
  - reflexivity.
  - reflexivity.
  - discriminate.
Defined.

Lemma receive_result_with_scalar_value_raises_witness :
  receive unreached4 unreached3 unreached3 accepts (value_true_reply 1)
    two_pending
  = Throws (Std TypeError) two_pending.
Proof.
  apply (receive_result_with_scalar_value_raises unreached4 unreached3
           unreached3 accepts
           [("jsonrpc", JStr "2.0"); ("id", JNum 1);
            ("result", JDict [("value", JBool true);
                              ("meta", JDict [("server_send_time", JStr "now")])])]
           (JNum 1) (JBool false)
           [("value", JBool true); ("meta", JDict [("server_send_time", JStr "now")])]
           (JBool true) two_pending); reflexivity.
Defined.

Lemma receive_result_with_object_value_raises_witness :
  receive unreached4 unreached3 unreached3 accepts (state_reply 1) two_pending
  = Throws (Std TypeError) two_pending.
Proof.
  apply (receive_result_with_object_value_raises unreached4 unreached3 unreached3
           accepts
           [("jsonrpc", JStr "2.0"); ("id", JNum 1);
            ("result",
             JDict [("value",
                     JDict [("meta", JDict [("id", JStr "state-1"); ("type", JStr "state")]);
                            ("data", JStr "1")])])]
           (JNum 1) (JBool false)
           [("value",
             JDict [("meta", JDict [("id", JStr "state-1"); ("type", JStr "state")]);
                    ("data", JStr "1")])]
           [("meta", JDict [("id", JStr "state-1"); ("type", JStr "state")]);
            ("data", JStr "1")]
           (JDict [("id", JStr "state-1"); ("type", JStr "state")])
           (JStr "state-1") (JStr "1") two_pending); reflexivity.
Defined.

Lemma receive_unknown_frame_is_answered_witness :
  receive unreached4 unreached3 unreached3 accepts (notification 9)
    two_pending
  = Returns (send_error "Unknown method" (JNum 9) two_pending).
Proof.
  apply (receive_unknown_frame_is_answered unreached4 unreached3 unreached3
           accepts [("jsonrpc", JStr "2.0"); ("id", JNum 9)] (JNum 9)
           (JBool false) (JBool false) two_pending);
    [discriminate|reflexivity..].
Defined.

Lemma reconnect_gives_up_at_the_retry_limit_witness :
  exists s',
    reconnect (Some 3%Z) true [false; false; false; true]
      (idle true true [] no_network, [CONNECTED])
    = Some (Throws ServerConnectionException (s', [CONNECTED; RECONNECTING]))
    /\ connected s' = false
    /\ sending_queue s' = []
    /\ packet_awaiting_confirm s' = ∅
    /\ bulk_send_list s' = []
    /\ length (wapp_log s') = 3.
Proof.
  apply (reconnect_gives_up_at_the_retry_limit 3 true [true]
           (idle true true [] no_network) [CONNECTED]).
  reflexivity.
Defined.

Lemma reconnect_succeeds_after_failed_attempts_witness :
  exists s',
    reconnect None true [false; false; true] (two_pending, [CONNECTED])
    = Some (Returns (s', [CONNECTED; RECONNECTING; CONNECTED]))
    /\ connected s' = true
    /\ my_socket s' = Some {| writable := true; wire := [] |}
    /\ sending_queue s' = [reconnect_item]
    /\ packet_awaiting_confirm s' = packet_awaiting_confirm two_pending
    /\ bulk_send_list s' = [].
Proof.
  apply (reconnect_succeeds_after_failed_attempts 2 None true [] two_pending [CONNECTED]).
  - reflexivity.
  - exact I.
Defined.

Lemma reconnect_raises_on_network_with_values_witness :
  reconnect None true [true] (idle true true [] one_value_network, [CONNECTED])
  = Some (Throws (Std AttributeError)
            (set_connected false (idle true true [] one_value_network),
             [CONNECTED; RECONNECTING])).
Proof.
  apply (reconnect_raises_on_network_with_values None true [true] temperature []
           (idle true true [] one_value_network) [CONNECTED]).
  - reflexivity.
  - exact I.
Defined.

Lemma error_reply_resolves_the_registered_request_witness :
  exists s1 s2,
    add_id_to_confirm_list (put_request 1) (idle true true [] no_network) = Done s1
    /\ packet_awaiting_confirm s1 !! KInt 1 = Some (put_request 1)
    /\ receive unreached4 unreached3 unreached3 accepts (error_reply 1) s1
       = Returns s2
    /\ packet_awaiting_confirm s2 = packet_awaiting_confirm (idle true true [] no_network).
Proof.
  apply (error_reply_resolves_the_registered_request unreached4 unreached3
           unreached3 accepts (put_request 1)
           [("jsonrpc", JStr "2.0"); ("id", JNum 1);
            ("error", JDict [("code", JNum (-32000)); ("message", JStr "Not found")])]
           (JNum 1) (KInt 1)
           [("code", JNum (-32000)); ("message", JStr "Not found")]
           (idle true true [] no_network)).
  - reflexivity.
  - reflexivity.
  - reflexivity.
  - reflexivity.
  - reflexivity.
  - reflexivity.
  - discriminate.
Defined.

Lemma receive_message_stops_at_the_frame_that_raises_witness :
  receive_message unreached4 unreached3 unreached3 accepts
    (JList [error_reply 1; value_true_reply 2; error_reply 2]) []
    (two_pending, [CONNECTED])
  = Some (Throws (Std TypeError)
            (state_after
               (receive unreached4 unreached3 unreached3 accepts
                  (error_reply 1) two_pending),
             [CONNECTED])).
Proof.
  apply (receive_message_stops_at_the_frame_that_raises unreached4
           unreached3 unreached3 accepts
           [error_reply 1] (value_true_reply 2) [error_reply 2] (Std TypeError) []
           two_pending
           (state_after
              (receive unreached4 unreached3 unreached3 accepts
                 (error_reply 1) two_pending))
           (state_after
              (receive unreached4 unreached3 unreached3 accepts
                 (error_reply 1) two_pending))
           [CONNECTED]).
  - reflexivity.
  - reflexivity.
  - reflexivity.
Defined.

End coverage_cases.
